(** * GitHub repository traffic scraper: embedding of [github_repo_scraper.py]

    The development follows the source file top to bottom: the HTTP client
    adapter ([_create_session], [_make_request]), the two pagination loops
    ([get_all_repos], [get_commits]), the traffic window extractor
    ([get_traffic_for_date]), the commit aggregator ([get_commit_stats]),
    the snapshot assembler ([get_repo_stats], [scrape_all_repos]) and the
    historical merge store ([load_historical_data], [save_to_json],
    [save_to_csv]).

    Effects are explicit.  A computation is a function from a [world] (the
    files on disk, the console, the log of requests sent, the number of HTTP
    attempts made and of clock readings taken) to an outcome and a new
    world.  An outcome is a returned value, a raised Python exception, or
    [Timeout] when the fuel given to a [while True] loop ran out.  What the
    network answers, what the clock shows and what the [datetime] library
    computes are fields of an [environment] the functions are given. *)

From Stdlib Require Import ZArith List String Ascii Bool Lia DecimalString.
Import ListNotations.

Local Open Scope list_scope.
Local Open Scope string_scope.

Set Warnings "-register-all".

(** ** Python values *)

(** The values [json.load] builds and [json.dump] writes.  A JSON object is
    a Python [dict]: an association list in insertion order, with the
    operations below keeping one binding per key.  Floating-point numbers do
    not occur in the data this program stores. *)
Inductive json : Type :=
  | JNull
  | JBool (b : bool)
  | JInt (z : Z)
  | JStr (s : string)
  | JList (l : list json)
  | JDict (d : list (string * json)).

Section Dict.
Context {V : Type}.

(** [d.get(k)] *)
Fixpoint dict_get (k : string) (d : list (string * V)) : option V :=
  match d with
  | [] => None
  | (k', v) :: d' => if String.eqb k k' then Some v else dict_get k d'
  end.

(** [k in d] *)
Definition dict_mem (k : string) (d : list (string * V)) : bool :=
  match dict_get k d with Some _ => true | None => false end.

(** [d[k] = v]: an existing key keeps its place, a new key goes last. *)
Fixpoint dict_set (k : string) (v : V) (d : list (string * V))
  : list (string * V) :=
  match d with
  | [] => [(k, v)]
  | (k', v') :: d' =>
      if String.eqb k k' then (k, v) :: d' else (k', v') :: dict_set k v d'
  end.

(** [dict(zip(keys, vals))] *)
Fixpoint dict_zip (keys : list string) (vals : list V) (acc : list (string * V))
  : list (string * V) :=
  match keys, vals with
  | k :: keys', v :: vals' => dict_zip keys' vals' (dict_set k v acc)
  | _, _ => acc
  end.
End Dict.

(** [str(n)] for an [int], [str(b)] for a [bool]. *)
Definition str_int (z : Z) : string := NilZero.string_of_int (Z.to_int z).
Definition str_nat (n : nat) : string := str_int (Z.of_nat n).
Definition str_bool (b : bool) : string := if b then "True" else "False".

(** ** Exceptions and outcomes *)

(** The exception classes that occur.  The first four derive from
    [requests.exceptions.RequestException]; [OSError] is what Python 3 calls
    [IOError]; [JSONDecodeError] and [UnicodeDecodeError] both derive from
    [ValueError], and neither derives from the other. *)
Inductive exn_class : Type :=
  | ConnectionError
  | RetryError
  | HTTPError
  | InvalidJSONError
  | JSONDecodeError
  | UnicodeDecodeError
  | OSError
  | ValueError
  | OverflowError
  | AttributeError
  | TypeError
  | KeyError
  | RuntimeError.

(** An exception object: its class, [str(e)], and the text of the response
    it carries in [e.response], when it carries one. *)
Record exn : Type := mk_exn {
  exn_class_of : exn_class;
  exn_msg : string;
  exn_response_text : option string
}.

Definition is_RequestException (c : exn_class) : bool :=
  match c with
  | ConnectionError | RetryError | HTTPError | InvalidJSONError => true
  | _ => false
  end.

(** [except (json.JSONDecodeError, IOError)] *)
Definition is_JSONDecodeError_or_IOError (c : exn_class) : bool :=
  match c with
  | JSONDecodeError | OSError => true
  | _ => false
  end.

Inductive res (A : Type) : Type :=
  | Ret (a : A)
  | Raise (e : exn)
  | Timeout.
Arguments Ret {A} a.
Arguments Raise {A} e.
Arguments Timeout {A}.

(** ** Data of the GitHub API *)

(** An element of the repository list.  [get_repo_stats] starts by
    reading [repo["owner"]["login"]] and [repo["name"]]: they are fields.
    The other keys are optional: those read with [repo.get(...)], and
    ["full_name"], which is read with [repo["full_name"]] when the snapshot
    is put together and once more by the handler of [scrape_all_repos]. *)
Record api_repo : Type := {
  repo_owner_login : string;
  repo_name : string;
  repo_full_name : option string;
  repo_private : option bool;
  repo_description : option string;
  repo_html_url : option string;
  repo_language : option string;
  repo_stargazers_count : option Z;
  repo_forks_count : option Z;
  repo_watchers_count : option Z;
  repo_open_issues_count : option Z
}.

(** One day of a traffic series. *)
Record traffic_entry : Type := {
  timestamp : string;
  entry_count : option Z;
  entry_uniques : option Z
}.

(** The answer of a traffic endpoint: a dict that holds the series under
    ["views"] or under ["clones"], next to other keys. *)
Record traffic_data : Type := {
  td_views : option (list traffic_entry);
  td_clones : option (list traffic_entry);
  td_other : list (string * json)
}.

Record api_commit : Type := { sha : string }.

Record commit_stats_obj : Type := {
  stats_additions : option Z;
  stats_deletions : option Z
}.

Record commit_detail : Type := {
  detail_sha : string;
  detail_stats : option commit_stats_obj
}.

(** The schema a caller reads an answer with. *)
Inductive endpoint : Type :=
  | RepoListEP
  | TrafficEP
  | CommitListEP
  | CommitEP
  | PopularEP.

Definition payload (k : endpoint) : Type :=
  match k with
  | RepoListEP => list api_repo
  | TrafficEP => traffic_data
  | CommitListEP => list api_commit
  | CommitEP => commit_detail
  | PopularEP => list json
  end.

(** ** HTTP *)

Record request : Type := {
  req_url : string;
  req_params : option (list (string * json));
  req_headers : list (string * string)
}.

(** A response: [resp_url] is [response.url], the URL that was fetched,
    query string included; [response.json()] is [resp_json], [None] when
    the body is not a JSON document. *)
Record response (T : Type) : Type := {
  resp_url : string;
  status_code : Z;
  resp_reason : string;
  resp_text : string;
  resp_json : option T
}.
Arguments resp_url {T} _.
Arguments status_code {T} _.
Arguments resp_reason {T} _.
Arguments resp_text {T} _.
Arguments resp_json {T} _.

(** What one attempt to send a request comes to: a connection-level failure
    (which the adapter may retry), an exception raised at once, or a
    response. *)
Inductive attempt (T : Type) : Type :=
  | ConnFailed (msg : string)
  | Raised (e : exn)
  | Responded (r : response T).
Arguments ConnFailed {T} msg.
Arguments Raised {T} e.
Arguments Responded {T} r.

(** [urllib3.util.retry.Retry] as [_create_session] configures it. *)
Record Retry : Type := {
  total : nat;
  backoff_factor : Z;
  status_forcelist : list Z
}.

Record Session : Type := {
  max_retries : Retry;
  session_headers : list (string * string)
}.

Record GitHubScraper : Type := {
  token : string;
  username : string;
  base_url : string;
  session : Session
}.

(** ** Files *)

(** A file is described by what the program's two readers make of it:
    [json.load] on the file opened with [encoding="utf-8"], and the rows
    [csv.reader] yields.  Either may raise.  [writable] tells whether
    [open(filename, "w")] succeeds. *)
Record file : Type := {
  json_view : exn + json;
  csv_view : exn + list (list string);
  writable : bool
}.

(** ** The environment and the world *)

Record environment : Type := {
  (** the [datetime] library *)
  datetime : Type;
  clock : nat -> datetime;
  minus_days : datetime -> Z -> option datetime;
  strftime_ymd : datetime -> string;
  strptime_ymd : string -> option datetime;
  replace_time : datetime -> Z -> Z -> Z -> Z -> datetime;
  isoformat : datetime -> string;
  (** the network: the answer to the [n]-th attempt of the run *)
  server : forall k : endpoint, nat -> request -> attempt (payload k);
  (** how a text written in one format reads in the other *)
  json_text_as_csv : json -> exn + list (list string);
  csv_text_as_json : list (list string) -> exn + json
}.

Record world : Type := {
  files : string -> option file;
  stdout : list string;
  sent : list request;
  attempts : nat;
  ticks : nat
}.

Definition M (A : Type) : Type := world -> res A * world.

Definition ret {A} (a : A) : M A := fun w => (Ret a, w).

Definition bind {A B} (m : M A) (k : A -> M B) : M B :=
  fun w =>
    match m w with
    | (Ret a, w') => k a w'
    | (Raise e, w') => (Raise e, w')
    | (Timeout, w') => (Timeout, w')
    end.

Definition raise {A} (e : exn) : M A := fun w => (Raise e, w).

Definition timeout {A} : M A := fun w => (Timeout, w).

(** [try: body  except C as e: handler], [C] given by [catches]. *)
Definition try_except {A} (body : M A) (catches : exn_class -> bool)
    (handler : exn -> M A) : M A :=
  fun w =>
    match body w with
    | (Raise e, w') =>
        if catches (exn_class_of e) then handler e w' else (Raise e, w')
    | r => r
    end.

Notation "x <- c1 ;; c2" := (bind c1 (fun x => c2))
  (at level 61, c1 at next level, right associativity).
Notation "c1 ;;; c2" := (bind c1 (fun _ => c2))
  (at level 61, right associativity).

Definition print (s : string) : M unit :=
  fun w =>
    (Ret tt,
     {| files := files w; stdout := (stdout w ++ [s])%list; sent := sent w;
        attempts := attempts w; ticks := ticks w |}).

Definition log_request (rq : request) : M unit :=
  fun w =>
    (Ret tt,
     {| files := files w; stdout := stdout w; sent := (sent w ++ [rq])%list;
        attempts := attempts w; ticks := ticks w |}).

Definition set_file (filename : string) (f : file) : M unit :=
  fun w =>
    (Ret tt,
     {| files := fun p => if String.eqb p filename then Some f else files w p;
        stdout := stdout w; sent := sent w;
        attempts := attempts w; ticks := ticks w |}).

Definition default {A} (d : A) (o : option A) : A :=
  match o with Some a => a | None => d end.

(** [d[key]], where [v] is the value under [key] if the dict has one. *)
Definition getitem {A} (key : string) (v : option A) : M A :=
  match v with
  | Some a => ret a
  | None => raise (mk_exn KeyError ("'" ++ key ++ "'") None)
  end.

(** ** The daily snapshot *)

(** The dict [get_repo_stats] assembles.  [s_date] is optional because the
    persistence step asks whether its input has a ["date"] key. *)
Record repository_info : Type := {
  r_name : string;
  r_full_name : string;
  r_owner : string;
  r_private : bool;
  r_description : option string;
  r_url : option string;
  r_language : option string;
  r_stargazers_count : Z;
  r_forks_count : Z;
  r_watchers_count : Z;
  r_open_issues_count : Z
}.

Record traffic_info : Type := {
  t_views : Z;
  t_views_uniques : Z;
  t_clones : Z;
  t_clones_uniques : Z
}.

Record commit_stats : Type := {
  c_commits : Z;
  c_additions : Z;
  c_deletions : Z;
  c_net_change : Z
}.

Record snapshot : Type := {
  s_date : option string;
  s_repository : repository_info;
  s_traffic : traffic_info;
  s_commits : commit_stats;
  s_scraped_at : string
}.

(** The result dict of [get_traffic_for_date]. *)
Record traffic_for_date : Type := { count : Z; uniques : Z }.

(** ** Rows of the CSV store *)

(** The value of a cell in a row dict: a string read from the file or taken
    from a snapshot, [None], a [bool] or an [int]. *)
Inductive cell : Type :=
  | CNone
  | CStr (s : string)
  | CBool (b : bool)
  | CInt (z : Z).

(** A row as [csv.DictReader] yields it and [csv.DictWriter] takes it:
    the cells by field name, and under the rest key ([None]) the cells that
    had no field name. *)
Record row_dict : Type := {
  row_fields : list (string * cell);
  row_rest : option (list string)
}.

(** ** HTTP client adapter *)

(** The headers a new [requests.Session()] starts with
    ([requests.utils.default_headers]).  The version in the agent string
    and the codecs offered are those of the library installed; the program
    replaces the first and reads neither. *)
Definition default_headers : list (string * string) :=
  [("User-Agent", "python-requests/2.31.0");
   ("Accept-Encoding", "gzip, deflate");
   ("Accept", "*/*");
   ("Connection", "keep-alive")].

(** [headers.update(d)]: the bindings of [d], in order, set in [headers]. *)
Definition headers_update (d headers : list (string * string))
  : list (string * string) :=
  fold_left (fun acc kv => dict_set (fst kv) (snd kv) acc) d headers.

Definition _create_session (token : string) : Session :=
  let retry_strategy :=
    {| total := 3;
       backoff_factor := 1;
       status_forcelist := [429; 500; 502; 503; 504]%Z |} in
  {| max_retries := retry_strategy;
     session_headers :=
       headers_update
         [("Authorization", "token " ++ token);
          ("Accept", "application/vnd.github.v3+json");
          ("User-Agent", "GitHub-Repo-Scraper")]
         default_headers |}.

(** [GitHubScraper.__init__] *)
Definition __init__ (token username : string) : GitHubScraper :=
  {| token := token;
     username := username;
     base_url := "https://api.github.com";
     session := _create_session token |}.

(** [response.raise_for_status()] *)
Definition raise_for_status {T} (r : response T) : M unit :=
  let code := status_code r in
  if ((400 <=? code) && (code <? 500))%Z then
    raise (mk_exn HTTPError
             (str_int code ++ " Client Error: " ++ resp_reason r
                ++ " for url: " ++ resp_url r)
             (Some (resp_text r)))
  else if ((500 <=? code) && (code <? 600))%Z then
    raise (mk_exn HTTPError
             (str_int code ++ " Server Error: " ++ resp_reason r
                ++ " for url: " ++ resp_url r)
             (Some (resp_text r)))
  else ret tt.

(** [response.json()] *)
Definition response_json {T} (r : response T) : M T :=
  match resp_json r with
  | Some v => ret v
  | None =>
      raise (mk_exn InvalidJSONError "Expecting value: line 1 column 1 (char 0)"
               None)
  end.

Section Scraper.
Variable E : environment.

(** [datetime.now()] *)
Definition now : M (datetime E) :=
  fun w =>
    (Ret (clock E (ticks w)),
     {| files := files w; stdout := stdout w; sent := sent w;
        attempts := attempts w; ticks := S (ticks w) |}).

(** One attempt of the transport to obtain an answer. *)
Definition send_once (k : endpoint) (rq : request) : M (attempt (payload k)) :=
  fun w =>
    (Ret (server E k (attempts w) rq),
     {| files := files w; stdout := stdout w; sent := sent w;
        attempts := S (attempts w); ticks := ticks w |}).

(** The adapter's send under a [Retry] with [retries] retries left: a
    connection failure or a status of the force list is retried while the
    budget lasts; once it is spent the adapter raises. *)
Fixpoint send_with_retries (k : endpoint) (forcelist : list Z)
    (retries : nat) (rq : request) : M (response (payload k)) :=
  a <- send_once k rq ;;
  match a with
  | Raised e => raise e
  | ConnFailed msg =>
      match retries with
      | O =>
          raise (mk_exn ConnectionError
                   ("Max retries exceeded with url: " ++ req_url rq
                      ++ " (Caused by " ++ msg ++ ")")
                   None)
      | S n => send_with_retries k forcelist n rq
      end
  | Responded r =>
      if existsb (Z.eqb (status_code r)) forcelist then
        match retries with
        | O =>
            raise (mk_exn RetryError
                     ("Max retries exceeded with url: " ++ req_url rq
                        ++ " (Caused by ResponseError('too many "
                        ++ str_int (status_code r) ++ " error responses'))")
                     None)
        | S n => send_with_retries k forcelist n rq
        end
      else ret r
  end.

(** [session.get(url, params=params)], for a server whose answers are
    final: the request goes through the adapter once and the answer is
    the response.  An answer that redirects (which the session would
    follow, with a new send for each hop) and a request that never ends
    (no timeout is set) are outside this description; the properties that
    bound the attempts or return an answer say which answers they are
    about. *)
Definition session_get (s : Session) (k : endpoint) (url : string)
    (params : option (list (string * json))) : M (response (payload k)) :=
  let rq := {| req_url := url; req_params := params;
               req_headers := session_headers s |} in
  log_request rq ;;;
  send_with_retries k (status_forcelist (max_retries s))
    (total (max_retries s)) rq.

Definition _make_request (self : GitHubScraper) (k : endpoint) (url : string)
    (params : option (list (string * json))) : M (option (payload k)) :=
  try_except
    (response <- session_get (session self) k url params ;;
     raise_for_status response ;;;
     v <- response_json response ;;
     ret (Some v))
    is_RequestException
    (fun e =>
       print ("Error fetching " ++ url ++ ": " ++ exn_msg e) ;;;
       match exn_response_text e with
       | Some text => print ("Response: " ++ text)
       | None => ret tt
       end ;;;
       ret None).

(** ** Paginator *)

Fixpoint get_all_repos_loop (fuel : nat) (self : GitHubScraper) (url : string)
    (page per_page : Z) (repos : list api_repo) : M (list api_repo) :=
  match fuel with
  | O => timeout
  | S fuel' =>
      let params :=
        [("page", JInt page); ("per_page", JInt per_page);
         ("type", JStr "all")] in
      data <- _make_request self RepoListEP url (Some params) ;;
      match data with
      | None => ret repos
      | Some data =>
          if (List.length data =? 0)%nat then ret repos
          else
            let repos := (repos ++ data)%list in
            if (Z.of_nat (List.length data) <? per_page)%Z then ret repos
            else get_all_repos_loop fuel' self url (page + 1)%Z per_page repos
      end
  end.

Definition get_all_repos (fuel : nat) (self : GitHubScraper)
  : M (list api_repo) :=
  let url := base_url self ++ "/users/" ++ username self ++ "/repos" in
  repos <- get_all_repos_loop fuel self url 1 100 [] ;;
  print ("Found " ++ str_nat (List.length repos) ++ " repositories") ;;;
  ret repos.

Definition get_traffic_views (self : GitHubScraper) (owner repo : string)
  : M (option traffic_data) :=
  let url := base_url self ++ "/repos/" ++ owner ++ "/" ++ repo
               ++ "/traffic/views" in
  _make_request self TrafficEP url (Some [("per", JStr "day")]).

Definition get_traffic_clones (self : GitHubScraper) (owner repo : string)
  : M (option traffic_data) :=
  let url := base_url self ++ "/repos/" ++ owner ++ "/" ++ repo
               ++ "/traffic/clones" in
  _make_request self TrafficEP url (Some [("per", JStr "day")]).

(** ** Traffic window extractor *)

(** [traffic_data[key]] for the two series keys, [None] when the key is
    not in the dict; [td_mem] is [key in traffic_data]. *)
Definition td_get (key : string) (td : traffic_data)
  : option (list traffic_entry) :=
  if String.eqb key "views" then td_views td
  else if String.eqb key "clones" then td_clones td
  else None.

Definition td_mem (key : string) (td : traffic_data) : bool :=
  match td_get key td with
  | Some _ => true
  | None => false
  end.

(** Truth value of the answer: [None] and the empty dict are false. *)
Definition td_truthy (traffic_data : option traffic_data) : bool :=
  match traffic_data with
  | None => false
  | Some td =>
      match td_views td, td_clones td, td_other td with
      | None, None, [] => false
      | _, _, _ => true
      end
  end.

(** The [for entry in ...] loop with its [break]. *)
Fixpoint scan_entries (entries : list traffic_entry) (target_date : string)
    (result : traffic_for_date) : traffic_for_date :=
  match entries with
  | [] => result
  | entry :: rest =>
      let entry_date := substring 0 10 (timestamp entry) in
      if String.eqb entry_date target_date then
        {| count := default 0%Z (entry_count entry);
           uniques := default 0%Z (entry_uniques entry) |}
      else scan_entries rest target_date result
  end.

Definition get_traffic_for_date (traffic_data : option traffic_data)
    (target_date : string) : traffic_for_date :=
  let result := {| count := 0; uniques := 0 |} in
  match traffic_data with
  | Some td =>
      if td_truthy traffic_data then
        let data_key := if td_mem "views" td then "views" else "clones" in
        match td_get data_key td with
        | Some entries => scan_entries entries target_date result
        | None => result
        end
      else result
  | None => result
  end.

Definition get_traffic_popular_paths (self : GitHubScraper)
    (owner repo : string) : M (option (list json)) :=
  let url := base_url self ++ "/repos/" ++ owner ++ "/" ++ repo
               ++ "/traffic/popular/paths" in
  _make_request self PopularEP url None.

Definition get_traffic_popular_referrers (self : GitHubScraper)
    (owner repo : string) : M (option (list json)) :=
  let url := base_url self ++ "/repos/" ++ owner ++ "/" ++ repo
               ++ "/traffic/popular/referrers" in
  _make_request self PopularEP url None.

(** ** Commit aggregator *)

Fixpoint get_commits_loop (fuel : nat) (self : GitHubScraper) (url : string)
    (since until : datetime E) (page per_page : Z)
    (commits : list api_commit) : M (list api_commit) :=
  match fuel with
  | O => timeout
  | S fuel' =>
      let params :=
        [("page", JInt page); ("per_page", JInt per_page);
         ("since", JStr (isoformat E since));
         ("until", JStr (isoformat E until))] in
      data <- _make_request self CommitListEP url (Some params) ;;
      match data with
      | None => ret commits
      | Some data =>
          if (List.length data =? 0)%nat then ret commits
          else
            let commits := (commits ++ data)%list in
            if (Z.of_nat (List.length data) <? per_page)%Z then ret commits
            else
              get_commits_loop fuel' self url since until (page + 1)%Z
                per_page commits
      end
  end.

Definition get_commits (fuel : nat) (self : GitHubScraper)
    (owner repo : string) (since until : datetime E)
  : M (list api_commit) :=
  let url := base_url self ++ "/repos/" ++ owner ++ "/" ++ repo
               ++ "/commits" in
  get_commits_loop fuel self url since until 1 100 [].

(** The [for commit in commits] loop of [get_commit_stats]. *)
Fixpoint sum_commit_details (self : GitHubScraper) (owner repo : string)
    (commits : list api_commit) (total_additions total_deletions : Z)
  : M (Z * Z) :=
  match commits with
  | [] => ret (total_additions, total_deletions)
  | commit :: rest =>
      let sha := sha commit in
      commit_detail <-
        _make_request self CommitEP
          (base_url self ++ "/repos/" ++ owner ++ "/" ++ repo
             ++ "/commits/" ++ sha)
          None ;;
      match commit_detail with
      | Some detail =>
          match detail_stats detail with
          | Some stats =>
              sum_commit_details self owner repo rest
                (total_additions + default 0 (stats_additions stats))%Z
                (total_deletions + default 0 (stats_deletions stats))%Z
          | None =>
              sum_commit_details self owner repo rest total_additions
                total_deletions
          end
      | None =>
          sum_commit_details self owner repo rest total_additions
            total_deletions
      end
  end.

Definition get_commit_stats (fuel : nat) (self : GitHubScraper)
    (owner repo : string) (since until : datetime E) : M commit_stats :=
  commits <- get_commits fuel self owner repo since until ;;
  totals <- sum_commit_details self owner repo commits 0 0 ;;
  let '(total_additions, total_deletions) := totals in
  ret {| c_commits := Z.of_nat (List.length commits);
         c_additions := total_additions;
         c_deletions := total_deletions;
         c_net_change := (total_additions - total_deletions)%Z |}.

(** ** Snapshot assembler *)

(** [datetime.strptime(target_date, "%Y-%m-%d")] *)
Definition strptime (target_date : string) : M (datetime E) :=
  match strptime_ymd E target_date with
  | Some d => ret d
  | None =>
      raise (mk_exn ValueError
               ("time data '" ++ target_date
                  ++ "' does not match format '%Y-%m-%d'")
               None)
  end.

Definition get_repo_stats (fuel : nat) (self : GitHubScraper)
    (repo : api_repo) (target_date : string) : M snapshot :=
  let owner := repo_owner_login repo in
  let repo_name := repo_name repo in
  print ("Processing " ++ owner ++ "/" ++ repo_name ++ " for date "
           ++ target_date ++ "...") ;;;
  target_datetime <- strptime target_date ;;
  let since_datetime := replace_time E target_datetime 0 0 0 0 in
  let until_datetime := replace_time E target_datetime 23 59 59 999999 in
  views_data <- get_traffic_views self owner repo_name ;;
  clones_data <- get_traffic_clones self owner repo_name ;;
  let views_for_date :=
    if td_truthy views_data then get_traffic_for_date views_data target_date
    else {| count := 0; uniques := 0 |} in
  let clones_for_date :=
    if td_truthy clones_data
    then get_traffic_for_date clones_data target_date
    else {| count := 0; uniques := 0 |} in
  commit_stats <-
    get_commit_stats fuel self owner repo_name since_datetime
      until_datetime ;;
  full_name <- getitem "full_name" (repo_full_name repo) ;;
  scraped <- now ;;
  ret {| s_date := Some target_date;
         s_repository :=
           {| r_name := repo_name;
              r_full_name := full_name;
              r_owner := owner;
              r_private := default false (repo_private repo);
              r_description := repo_description repo;
              r_url := repo_html_url repo;
              r_language := repo_language repo;
              r_stargazers_count := default 0%Z (repo_stargazers_count repo);
              r_forks_count := default 0%Z (repo_forks_count repo);
              r_watchers_count := default 0%Z (repo_watchers_count repo);
              r_open_issues_count :=
                default 0%Z (repo_open_issues_count repo) |};
         s_traffic :=
           {| t_views := count views_for_date;
              t_views_uniques := uniques views_for_date;
              t_clones := count clones_for_date;
              t_clones_uniques := uniques clones_for_date |};
         s_commits := commit_stats;
         s_scraped_at := isoformat E scraped |}.

(** [except Exception]: every class of [exn_class] derives from it. *)
Definition is_Exception (c : exn_class) : bool := true.

(** The [for repo in repos] loop of [scrape_all_repos]. *)
Fixpoint scrape_loop (fuel : nat) (self : GitHubScraper)
    (target_date : string) (repos : list api_repo)
    (all_stats : list snapshot) : M (list snapshot) :=
  match repos with
  | [] => ret all_stats
  | repo :: rest =>
      all_stats <-
        try_except
          (stats <- get_repo_stats fuel self repo target_date ;;
           ret (all_stats ++ [stats])%list)
          is_Exception
          (fun e =>
             full_name <- getitem "full_name" (repo_full_name repo) ;;
             print ("Error processing " ++ full_name ++ ": "
                      ++ exn_msg e) ;;;
             ret all_stats) ;;
      scrape_loop fuel self target_date rest all_stats
  end.

(** [datetime.now() - timedelta(days=days_ago)] *)
Definition days_before (d : datetime E) (days_ago : Z) : M (datetime E) :=
  match minus_days E d days_ago with
  | Some d' => ret d'
  | None => raise (mk_exn OverflowError "date value out of range" None)
  end.

Definition scrape_all_repos (fuel : nat) (self : GitHubScraper)
    (days_ago : Z) : M (list snapshot) :=
  today <- now ;;
  target <- days_before today days_ago ;;
  let target_date := strftime_ymd E target in
  print ("Collecting data for date: " ++ target_date ++ " (7 days ago)") ;;;
  repos <- get_all_repos fuel self ;;
  scrape_loop fuel self target_date repos [].

(** ** Historical merge store: files *)

(** [os.path.exists(filename)] *)
Definition path_exists (filename : string) : M bool :=
  fun w =>
    (Ret (match files w filename with Some _ => true | None => false end),
     w).

Definition no_such_file (filename : string) : exn :=
  mk_exn OSError
    ("[Errno 2] No such file or directory: '" ++ filename ++ "'") None.

Definition permission_denied (filename : string) : exn :=
  mk_exn OSError ("[Errno 13] Permission denied: '" ++ filename ++ "'") None.

(** [with open(filename, "r", encoding="utf-8") as f: json.load(f)] *)
Definition read_json (filename : string) : M json :=
  fun w =>
    match files w filename with
    | None => (Raise (no_such_file filename), w)
    | Some f =>
        match json_view f with
        | inl e => (Raise e, w)
        | inr v => (Ret v, w)
        end
    end.

(** [open(filename, "w", ...)]: a new file is created, an existing one
    must be writable. *)
Definition open_for_writing (filename : string) : M unit :=
  fun w =>
    match files w filename with
    | None => (Ret tt, w)
    | Some f =>
        if writable f then (Ret tt, w)
        else (Raise (permission_denied filename), w)
    end.

(** [with open(filename, "w", encoding="utf-8") as f: json.dump(v, f, ...)] *)
Definition json_dump (v : json) (filename : string) : M unit :=
  open_for_writing filename ;;;
  set_file filename
    {| json_view := inr v;
       csv_view := json_text_as_csv E v;
       writable := true |}.

Definition load_historical_data (filename : string) : M json :=
  file_exists <- path_exists filename ;;
  if file_exists then
    try_except (read_json filename) is_JSONDecodeError_or_IOError
      (fun e =>
         print ("Warning: Could not load existing data: " ++ exn_msg e) ;;;
         ret (JDict [("historical_data", JList [])]))
  else ret (JDict [("historical_data", JList [])]).

(** ** Historical merge store: JSON backend *)

Definition json_of_option_string (o : option string) : json :=
  match o with Some s => JStr s | None => JNull end.

(** The snapshot as the dict [json.dump] receives. *)
Definition snapshot_to_json (s : snapshot) : json :=
  let repo := s_repository s in
  let traffic := s_traffic s in
  let commits := s_commits s in
  JDict
    ((match s_date s with
      | Some d => [("date", JStr d)]
      | None => []
      end)
     ++ [("repository",
          JDict
            [("name", JStr (r_name repo));
             ("full_name", JStr (r_full_name repo));
             ("owner", JStr (r_owner repo));
             ("private", JBool (r_private repo));
             ("description", json_of_option_string (r_description repo));
             ("url", json_of_option_string (r_url repo));
             ("language", json_of_option_string (r_language repo));
             ("stargazers_count", JInt (r_stargazers_count repo));
             ("forks_count", JInt (r_forks_count repo));
             ("watchers_count", JInt (r_watchers_count repo));
             ("open_issues_count", JInt (r_open_issues_count repo))]);
         ("traffic",
          JDict
            [("views", JInt (t_views traffic));
             ("views_uniques", JInt (t_views_uniques traffic));
             ("clones", JInt (t_clones traffic));
             ("clones_uniques", JInt (t_clones_uniques traffic))]);
         ("commits",
          JDict
            [("commits", JInt (c_commits commits));
             ("additions", JInt (c_additions commits));
             ("deletions", JInt (c_deletions commits));
             ("net_change", JInt (c_net_change commits))]);
         ("scraped_at", JStr (s_scraped_at s))])%list.

Definition type_name (v : json) : string :=
  match v with
  | JNull => "NoneType"
  | JBool _ => "bool"
  | JInt _ => "int"
  | JStr _ => "str"
  | JList _ => "list"
  | JDict _ => "dict"
  end.

Definition no_attribute (v : json) (attr : string) : exn :=
  mk_exn AttributeError
    ("'" ++ type_name v ++ "' object has no attribute '" ++ attr ++ "'") None.

(** [v.get(key)], which only a dict has. *)
Definition py_get (key : string) (v : json) : M (option json) :=
  match v with
  | JDict d => ret (dict_get key d)
  | _ => raise (no_attribute v "get")
  end.

(** [for entry in v]: a list gives its elements, a dict its keys, a string
    its characters; other values are not iterable. *)
Definition py_iter (v : json) : M (list json) :=
  match v with
  | JList l => ret l
  | JDict d => ret (map (fun kv => JStr (fst kv)) d)
  | JStr s => ret (map (fun c => JStr (String c "")) (list_ascii_of_string s))
  | _ =>
      raise (mk_exn TypeError
               ("'" ++ type_name v ++ "' object is not iterable") None)
  end.

(** Adding a value to a set hashes it. *)
Definition py_hash (v : option json) : M unit :=
  match v with
  | Some (JList _) => raise (mk_exn TypeError "unhashable type: 'list'" None)
  | Some (JDict _) => raise (mk_exn TypeError "unhashable type: 'dict'" None)
  | _ => ret tt
  end.

(** [v == s] for a string [s]; [v] is the result of a [.get]. *)
Definition py_eq_str (v : option json) (s : string) : bool :=
  match v with
  | Some (JStr s') => String.eqb s' s
  | _ => false
  end.

(** [{entry.get("date") for entry in entries}] *)
Fixpoint existing_dates_of (entries : list json) : M (list (option json)) :=
  match entries with
  | [] => ret []
  | entry :: rest =>
      d <- py_get "date" entry ;;
      py_hash d ;;;
      ds <- existing_dates_of rest ;;
      ret (d :: ds)
  end.

(** [[entry for entry in entries if entry.get("date") != target_date]] *)
Fixpoint entries_of_other_dates (entries : list json) (target_date : string)
  : M (list json) :=
  match entries with
  | [] => ret []
  | entry :: rest =>
      d <- py_get "date" entry ;;
      kept <- entries_of_other_dates rest target_date ;;
      ret (if negb (py_eq_str d target_date) then entry :: kept else kept)
  end.

(** [historical.get("historical_data", [])] *)
Definition get_historical_data (historical : json) : M json :=
  v <- py_get "historical_data" historical ;;
  ret (default (JList []) v).

(** [historical["historical_data"].extend(data)] on the dict [d] *)
Definition extend_historical_data (d : list (string * json))
    (data : list json) : M (list (string * json)) :=
  match dict_get "historical_data" d with
  | Some (JList l) => ret (dict_set "historical_data" (JList (l ++ data)) d)
  | Some v => raise (no_attribute v "extend")
  | None => raise (mk_exn KeyError "'historical_data'" None)
  end.

Definition save_to_json (data : list snapshot) (filename : string) : M unit :=
  historical <- load_historical_data filename ;;
  match data with
  | first :: _ =>
      match s_date first with
      | Some target_date =>
          hd <- get_historical_data historical ;;
          entries <- py_iter hd ;;
          existing_dates <- existing_dates_of entries ;;
          historical <-
            (if existsb (fun d => py_eq_str d target_date) existing_dates
             then
               print ("Warning: Data for " ++ target_date
                        ++ " already exists. Updating...") ;;;
               hd <- get_historical_data historical ;;
               entries <- py_iter hd ;;
               kept <- entries_of_other_dates entries target_date ;;
               match historical with
               | JDict d => ret (dict_set "historical_data" (JList kept) d)
               | _ => raise (no_attribute historical "__setitem__")
               end
             else
               match historical with
               | JDict d => ret d
               | _ => raise (no_attribute historical "get")
               end) ;;
          let historical :=
            if negb (dict_mem "historical_data" historical)
            then dict_set "historical_data" (JList []) historical
            else historical in
          historical <-
            extend_historical_data historical (map snapshot_to_json data) ;;
          stamp <- now ;;
          let historical :=
            dict_set "last_updated" (JStr (isoformat E stamp)) historical in
          json_dump (JDict historical) filename ;;;
          print ("Data saved to " ++ filename ++ " (historical record)")
      | None =>
          json_dump (JList (map snapshot_to_json data)) filename ;;;
          print ("Data saved to " ++ filename)
      end
  | [] =>
      json_dump (JList (map snapshot_to_json data)) filename ;;;
      print ("Data saved to " ++ filename)
  end.

(** ** Historical merge store: CSV backend *)

(** [list(csv.DictReader(f))] over the rows the reader yields: the first
    row names the fields, blank rows are skipped, cells beyond the field
    names go under the rest key and missing cells are [None]. *)
Definition dict_reader_row (fieldnames row : list string) : row_dict :=
  let d := dict_zip fieldnames (map CStr row) [] in
  let lf := List.length fieldnames in
  let lr := List.length row in
  if (lf <? lr)%nat then
    {| row_fields := d; row_rest := Some (skipn lf row) |}
  else
    {| row_fields :=
         fold_left (fun acc key => dict_set key CNone acc)
           (skipn lr fieldnames) d;
       row_rest := None |}.

Definition DictReader (rows : list (list string)) : list row_dict :=
  match rows with
  | [] => []
  | fieldnames :: rest =>
      map (dict_reader_row fieldnames)
        (filter (fun row => match row with [] => false | _ => true end) rest)
  end.

(** [with open(filename, "r", ...) as f: list(csv.DictReader(f))] *)
Definition read_csv (filename : string) : M (list row_dict) :=
  fun w =>
    match files w filename with
    | None => (Raise (no_such_file filename), w)
    | Some f =>
        match csv_view f with
        | inl e => (Raise e, w)
        | inr rows => (Ret (DictReader rows), w)
        end
    end.

(** The text the writer puts in a cell. *)
Definition cell_text (c : cell) : string :=
  match c with
  | CNone => ""
  | CStr s => s
  | CBool b => str_bool b
  | CInt z => str_int z
  end.

(** [DictWriter._dict_to_list]: a key outside [fieldnames] is an error,
    a missing key is written as the empty string. *)
Definition _dict_to_list (fieldnames : list string) (rowdict : row_dict)
  : exn + list string :=
  let known key := existsb (String.eqb key) fieldnames in
  match row_rest rowdict with
  | Some _ =>
      inl (mk_exn ValueError "dict contains fields not in fieldnames: None"
             None)
  | None =>
      match filter (fun kv => negb (known (fst kv))) (row_fields rowdict) with
      | [] =>
          inr (map (fun key =>
                      cell_text
                        (default (CStr "")
                           (dict_get key (row_fields rowdict))))
                 fieldnames)
      | (key, _) :: _ =>
          inl (mk_exn ValueError
                 ("dict contains fields not in fieldnames: '" ++ key ++ "'")
                 None)
      end
  end.

(** [writer.writerows(rows)]: the lines written, and the error that
    stopped the writing, if any. *)
Fixpoint writerows (fieldnames : list string) (rows : list row_dict)
  : list (list string) * option exn :=
  match rows with
  | [] => ([], None)
  | row :: rest =>
      match _dict_to_list fieldnames row with
      | inl e => ([], Some e)
      | inr line =>
          let '(lines, err) := writerows fieldnames rest in
          (line :: lines, err)
      end
  end.

(** The [with open(filename, "w", ...)] block of [save_to_csv]: header,
    then rows; what was written before an error stays in the file. *)
Definition write_csv (filename : string) (fieldnames : list string)
    (all_rows : list row_dict) : M unit :=
  open_for_writing filename ;;;
  let '(lines, err) := writerows fieldnames all_rows in
  let table := fieldnames :: lines in
  set_file filename
    {| json_view := csv_text_as_json E table;
       csv_view := inr table;
       writable := true |} ;;;
  match err with
  | Some e => raise e
  | None => ret tt
  end.

(** [row.get("date") == target_date] *)
Definition cell_eq_str (c : option cell) (s : string) : bool :=
  match c with
  | Some (CStr s') => String.eqb s' s
  | _ => false
  end.

(** Truth value of a string. *)
Definition str_truthy (s : string) : bool :=
  match s with
  | EmptyString => false
  | _ => true
  end.

Definition cell_of_option_string (o : option string) : cell :=
  match o with Some s => CStr s | None => CNone end.

(** The row [save_to_csv] builds for one snapshot. *)
Definition new_row (repo_data : snapshot) : row_dict :=
  let repo := s_repository repo_data in
  let traffic := s_traffic repo_data in
  let commits := s_commits repo_data in
  {| row_fields :=
       [("date", CStr (default "" (s_date repo_data)));
        ("repository", CStr (r_full_name repo));
        ("private", CBool (r_private repo));
        ("language", cell_of_option_string (r_language repo));
        ("stars", CInt (r_stargazers_count repo));
        ("forks", CInt (r_forks_count repo));
        ("watchers", CInt (r_watchers_count repo));
        ("open_issues", CInt (r_open_issues_count repo));
        ("views", CInt (t_views traffic));
        ("views_uniques", CInt (t_views_uniques traffic));
        ("clones", CInt (t_clones traffic));
        ("clones_uniques", CInt (t_clones_uniques traffic));
        ("commits", CInt (c_commits commits));
        ("additions", CInt (c_additions commits));
        ("deletions", CInt (c_deletions commits));
        ("net_change", CInt (c_net_change commits));
        ("scraped_at", CStr (s_scraped_at repo_data))];
     row_rest := None |}.

Definition fieldnames : list string :=
  ["date"; "repository"; "private"; "language"; "stars"; "forks";
   "watchers"; "open_issues"; "views"; "views_uniques"; "clones";
   "clones_uniques"; "commits"; "additions"; "deletions"; "net_change";
   "scraped_at"].

Definition save_to_csv (data : list snapshot) (filename : string) : M unit :=
  match data with
  | [] => print "No data to save"
  | first :: _ =>
      file_exists <- path_exists filename ;;
      existing_rows <-
        (if file_exists then
           try_except (read_csv filename) is_Exception
             (fun e =>
                print ("Warning: Could not read existing CSV: "
                         ++ exn_msg e) ;;;
                ret [])
         else ret []) ;;
      let target_date := default "" (s_date first) in
      let existing_rows :=
        if str_truthy target_date then
          filter
            (fun row =>
               negb (cell_eq_str (dict_get "date" (row_fields row))
                       target_date))
            existing_rows
        else existing_rows in
      let new_rows := map new_row data in
      let all_rows := (existing_rows ++ new_rows)%list in
      match all_rows with
      | [] => ret tt
      | _ =>
          write_csv filename fieldnames all_rows ;;;
          print ("Data saved to " ++ filename ++ " (historical record)")
      end
  end.
End Scraper.

Arguments get_traffic_for_date traffic_data target_date : simpl nomatch.

(** * Properties *)

(** ** Reasoning about computations *)

Lemma bind_Ret {A B} (m : M A) (k : A -> M B) w a w' :
  m w = (Ret a, w') -> bind m k w = k a w'.
Proof. intros H. unfold bind. now rewrite H. Qed.

Lemma bind_Raise {A B} (m : M A) (k : A -> M B) w e w' :
  m w = (Raise e, w') -> bind m k w = (Raise e, w').
Proof. intros H. unfold bind. now rewrite H. Qed.

Lemma bind_Timeout {A B} (m : M A) (k : A -> M B) w w' :
  m w = (Timeout, w') -> bind m k w = (Timeout, w').
Proof. intros H. unfold bind. now rewrite H. Qed.

Lemma try_except_Ret {A} (body : M A) catches handler w a w' :
  body w = (Ret a, w') -> try_except body catches handler w = (Ret a, w').
Proof. intros H. unfold try_except. now rewrite H. Qed.

Lemma try_except_caught {A} (body : M A) catches handler w e w' :
  body w = (Raise e, w') -> catches (exn_class_of e) = true ->
  try_except body catches handler w = handler e w'.
Proof. intros H Hc. unfold try_except. now rewrite H, Hc. Qed.

Lemma try_except_escapes {A} (body : M A) catches handler w e w' :
  body w = (Raise e, w') -> catches (exn_class_of e) = false ->
  try_except body catches handler w = (Raise e, w').
Proof. intros H Hc. unfold try_except. now rewrite H, Hc. Qed.

(** ** Traffic window extractor *)

(** The date part of an entry: the first ten characters of its timestamp. *)
Definition date_part (entry : traffic_entry) : string :=
  substring 0 10 (timestamp entry).

Definition no_traffic : traffic_for_date := {| count := 0; uniques := 0 |}.

(** The series of an answer: the one under ["views"] when that key is
    present, else the one under ["clones"]. *)
Definition series_present (td : traffic_data) (entries : list traffic_entry)
  : Prop :=
  td_views td = Some entries
  \/ (td_views td = None /\ td_clones td = Some entries).

Lemma scan_entries_no_match entries target_date result :
  (forall e, In e entries -> date_part e <> target_date) ->
  scan_entries entries target_date result = result.
Proof.
  induction entries as [|e entries IH]; intros Hno; simpl.
  - reflexivity.
  - destruct (String.eqb_spec (substring 0 10 (timestamp e)) target_date) as [Heq|_].
    + exfalso. apply (Hno e); [now left | exact Heq].
    + apply IH. intros e' He'. apply Hno. now right.
Qed.

Lemma scan_entries_first_match before e after target_date result :
  (forall e', In e' before -> date_part e' <> target_date) ->
  date_part e = target_date ->
  scan_entries (before ++ e :: after) target_date result
  = {| count := default 0%Z (entry_count e);
       uniques := default 0%Z (entry_uniques e) |}.
Proof.
  induction before as [|b before IH]; intros Hno He; simpl.
  - unfold date_part in He. rewrite He, String.eqb_refl. reflexivity.
  - destruct (String.eqb_spec (substring 0 10 (timestamp b)) target_date) as [Heq|_].
    + exfalso. apply (Hno b); [now left | exact Heq].
    + apply IH; [|exact He]. intros e' He'. apply Hno. now right.
Qed.

Lemma get_traffic_for_date_series td entries target_date :
  series_present td entries ->
  get_traffic_for_date (Some td) target_date
  = scan_entries entries target_date no_traffic.
Proof.
  intros [Hv | [Hv Hc]]; unfold get_traffic_for_date, td_truthy, td_mem, td_get;
    simpl; rewrite Hv; simpl.
  - reflexivity.
  - rewrite Hc. reflexivity.
Qed.

(** C4.  [get_traffic_for_date] takes the series under ["views"], or under
    ["clones"] when there is no ["views"] key; it compares the first ten
    characters of each timestamp with the target date and returns the count
    and uniques of the first entry that matches (zero for a key the entry
    lacks); when no entry matches, when the answer has neither key, or when
    there is no answer at all, it returns zero for both. *)
Theorem get_traffic_for_date_first_match :
  forall target_date : string,
    get_traffic_for_date None target_date = no_traffic
    /\ (forall td,
          td_views td = None -> td_clones td = None ->
          get_traffic_for_date (Some td) target_date = no_traffic)
    /\ (forall td entries,
          series_present td entries ->
          (forall e, In e entries -> date_part e <> target_date) ->
          get_traffic_for_date (Some td) target_date = no_traffic)
    /\ (forall td before e after,
          series_present td (before ++ e :: after) ->
          (forall e', In e' before -> date_part e' <> target_date) ->
          date_part e = target_date ->
          get_traffic_for_date (Some td) target_date
          = {| count := default 0%Z (entry_count e);
               uniques := default 0%Z (entry_uniques e) |}).
Proof.
  intros target_date. repeat split.
  - intros td Hv Hc. unfold get_traffic_for_date, td_truthy, td_mem, td_get.
    simpl. rewrite Hv, Hc. simpl. now destruct (td_other td).
  - intros td entries Hs Hno.
    rewrite (get_traffic_for_date_series td entries target_date Hs).
    now apply scan_entries_no_match.
  - intros td before e after Hs Hno He.
    rewrite (get_traffic_for_date_series td _ target_date Hs).
    now apply scan_entries_first_match.
Qed.

Definition sample_series : list traffic_entry :=
  [ {| timestamp := "2024-01-06T00:00:00Z"; entry_count := Some 3%Z;
       entry_uniques := Some 2%Z |};
    {| timestamp := "2024-01-07T00:00:00Z"; entry_count := Some 42%Z;
       entry_uniques := Some 7%Z |};
    {| timestamp := "2024-01-07T12:00:00Z"; entry_count := Some 1%Z;
       entry_uniques := Some 1%Z |} ].

Lemma get_traffic_for_date_first_match_witness :
  get_traffic_for_date
    (Some {| td_views := None; td_clones := Some sample_series;
             td_other := [("count", JInt 46)] |})
    "2024-01-07"
  = {| count := 42; uniques := 7 |}.
Proof.
  destruct (get_traffic_for_date_first_match "2024-01-07") as [_ [_ [_ H]]].
  apply (H {| td_views := None; td_clones := Some sample_series;
              td_other := [("count", JInt 46)] |}
           [ {| timestamp := "2024-01-06T00:00:00Z"; entry_count := Some 3%Z;
                entry_uniques := Some 2%Z |} ]
           {| timestamp := "2024-01-07T00:00:00Z"; entry_count := Some 42%Z;
              entry_uniques := Some 7%Z |}
           [ {| timestamp := "2024-01-07T12:00:00Z"; entry_count := Some 1%Z;
                entry_uniques := Some 1%Z |} ]).
  - right. split; reflexivity.
  - intros e' [<- | []]. unfold date_part. simpl. discriminate.
  - reflexivity.
Defined.

(** ** HTTP client adapter *)

(** The world after one request that took [n] attempts and printed
    nothing. *)
Definition after_request (rq : request) (n : nat) (w : world) : world :=
  {| files := files w; stdout := stdout w; sent := (sent w ++ [rq])%list;
     attempts := n + attempts w; ticks := ticks w |}.

Definition request_of (self : GitHubScraper) (url : string)
    (params : option (list (string * json))) : request :=
  {| req_url := url; req_params := params;
     req_headers := session_headers (session self) |}.

(** A response with status 200 and a JSON body is returned as it is, after
    one attempt. *)
Lemma make_request_200 E token username k url params w r v :
  let self := __init__ token username in
  server E k (attempts w) (request_of self url params) = Responded r ->
  status_code r = 200%Z ->
  resp_json r = Some v ->
  _make_request E self k url params w
  = (Ret (Some v), after_request (request_of self url params) 1 w).
Proof.
  intros self Hs Hc Hj.
  unfold _make_request, try_except, session_get, bind, log_request. simpl.
  unfold bind, send_once. simpl.
  unfold request_of in Hs. simpl in Hs. rewrite Hs. rewrite Hc. simpl.
  unfold raise_for_status. rewrite Hc. simpl.
  unfold response_json. rewrite Hj. reflexivity.
Qed.

(** ** Paginator *)

(** The loop that [get_all_repos] and [get_commits] both run, over any way
    [fetch] of requesting a page. *)
Section PageLoop.
Context {A : Type} (fetch : Z -> M (option (list A))).

Fixpoint page_loop (fuel : nat) (page per_page : Z) (acc : list A)
  : M (list A) :=
  match fuel with
  | O => timeout
  | S fuel' =>
      data <- fetch page ;;
      match data with
      | None => ret acc
      | Some data =>
          if (List.length data =? 0)%nat then ret acc
          else
            let acc := (acc ++ data)%list in
            if (Z.of_nat (List.length data) <? per_page)%Z then ret acc
            else page_loop fuel' (page + 1)%Z per_page acc
      end
  end.

(** A failed request, an empty page or a short page ends the loop with
    this request. *)
Lemma page_loop_stops fuel page acc w data w' :
  fetch page w = (Ret data, w') ->
  (List.length (default [] data) < 100)%nat ->
  page_loop (S fuel) page 100 acc w = (Ret (acc ++ default [] data)%list, w').
Proof.
  intros Hf Hlen. simpl. rewrite (bind_Ret _ _ _ _ _ Hf).
  destruct data as [data|]; simpl in *.
  - destruct (Nat.eqb_spec (List.length data) 0) as [H0|H0].
    + destruct data; [|discriminate]. now rewrite app_nil_r.
    + destruct (Z.ltb_spec (Z.of_nat (List.length data)) 100); [reflexivity | lia].
  - now rewrite app_nil_r.
Qed.

(** A full page makes the loop ask for the next one. *)
Lemma page_loop_continues fuel page acc w data w' :
  fetch page w = (Ret (Some data), w') ->
  (100 <= List.length data)%nat ->
  page_loop (S fuel) page 100 acc w
  = page_loop fuel (page + 1)%Z 100 (acc ++ data)%list w'.
Proof.
  intros Hf Hlen. simpl. rewrite (bind_Ret _ _ _ _ _ Hf).
  destruct (Nat.eqb_spec (List.length data) 0) as [H0|H0]; [lia|].
  destruct (Z.ltb_spec (Z.of_nat (List.length data)) 100); [lia | reflexivity].
Qed.

Variable pages : list (list A).

Hypothesis fetch_page :
  forall (p : nat) (w : world),
    exists w',
      fetch (Z.of_nat (S p)) w = (Ret (Some (nth p pages [])), w')
      /\ List.length (sent w') = S (List.length (sent w)).

Lemma page_loop_pages :
  forall (rest done : list (list A)) (fuel : nat) (acc : list A) (w : world),
    pages = (done ++ rest)%list ->
    rest <> [] ->
    Forall (fun p => List.length p = 100%nat) (removelast rest) ->
    (List.length (last rest []) < 100)%nat ->
    (List.length rest <= fuel)%nat ->
    exists w',
      page_loop fuel (Z.of_nat (S (List.length done))) 100 acc w
      = (Ret (acc ++ List.concat rest)%list, w')
      /\ List.length (sent w')
         = (List.length (sent w) + List.length rest)%nat.
Proof.
  induction rest as [|p rest IH]; intros done fuel acc w Hp Hne Hfull Hlast Hfuel.
  - contradiction.
  - destruct fuel as [|fuel]; [simpl in Hfuel; lia|].
    destruct (fetch_page (List.length done) w) as (w1 & Hf & Hs).
    assert (Hnth : nth (List.length done) pages [] = p).
    { rewrite Hp. now rewrite nth_middle. }
    rewrite Hnth in Hf.
    destruct rest as [|q rest].
    + simpl in Hlast. exists w1. split.
      * rewrite (page_loop_stops fuel _ acc w (Some p) w1 Hf Hlast).
        simpl. now rewrite app_nil_r.
      * simpl. lia.
    + assert (Hlen : List.length p = 100%nat).
      { simpl in Hfull. now inversion Hfull. }
      rewrite (page_loop_continues fuel _ acc w p w1 Hf) by lia.
      destruct (IH (done ++ [p])%list fuel (acc ++ p)%list w1) as (w2 & Hl & Hs2).
      * rewrite Hp. now rewrite <- app_assoc.
      * discriminate.
      * simpl in Hfull. now inversion Hfull.
      * exact Hlast.
      * simpl in *. lia.
      * exists w2. split.
        -- replace (Z.of_nat (S (List.length done)) + 1)%Z
             with (Z.of_nat (S (List.length (done ++ [p])%list))).
           ++ rewrite Hl. simpl. now rewrite <- app_assoc.
           ++ rewrite length_app. simpl. lia.
        -- rewrite Hs2, Hs. simpl. lia.
Qed.
End PageLoop.

(** A sequence of pages as an endpoint with [per_page = 100] cuts a list:
    every page but the last is full, the last is short. *)
Definition well_paged {A} (pages : list (list A)) : Prop :=
  pages <> []
  /\ Forall (fun p => List.length p = 100%nat) (removelast pages)
  /\ (List.length (last pages []) < 100)%nat.

Definition total_items {A} (pages : list (list A)) : nat :=
  List.length (List.concat pages).

(** [ceil(a / b)] *)
Definition ceil_div (a b : nat) : nat :=
  (a / b + if (a mod b =? 0)%nat then 0 else 1)%nat.

Lemma well_paged_total {A} (pages : list (list A)) :
  well_paged pages ->
  total_items pages
  = (100 * (List.length pages - 1) + List.length (last pages []))%nat.
Proof.
  unfold well_paged, total_items. intros (Hne & Hfull & _).
  induction pages as [|p pages IH]; [contradiction|].
  destruct pages as [|q pages].
  - simpl. rewrite app_nil_r. lia.
  - change (List.concat (p :: q :: pages)) with (p ++ List.concat (q :: pages))%list.
    rewrite length_app.
    change (removelast (p :: q :: pages)) with (p :: removelast (q :: pages)) in Hfull.
    inversion Hfull as [|? ? Hp Hrest]; subst.
    rewrite IH; [|discriminate|exact Hrest].
    change (last (p :: q :: pages) []) with (last (q :: pages) []).
    simpl List.length. lia.
Qed.

Lemma well_paged_requests {A} (pages : list (list A)) :
  well_paged pages ->
  List.length pages = (total_items pages / 100 + 1)%nat
  /\ (last pages [] <> [] ->
      List.length pages = ceil_div (total_items pages) 100).
Proof.
  intros Hwp. pose proof (well_paged_total pages Hwp) as Ht.
  destruct Hwp as (Hne & _ & Hlast).
  assert (Hpos : (1 <= List.length pages)%nat).
  { destruct pages; [contradiction | simpl; lia]. }
  set (k := (List.length pages - 1)%nat) in *.
  set (r := List.length (last pages [])) in *.
  assert (Hdiv : (total_items pages / 100 = k)%nat).
  { rewrite Ht. symmetry. apply (Nat.div_unique _ 100 k r); lia. }
  assert (Hmod : (total_items pages mod 100 = r)%nat).
  { rewrite Ht. symmetry. apply (Nat.mod_unique _ 100 k r); lia. }
  split.
  - rewrite Hdiv. lia.
  - intros Hnonempty. unfold ceil_div. rewrite Hdiv, Hmod.
    destruct (Nat.eqb_spec r 0) as [H0|H0].
    + exfalso. apply Hnonempty. subst r.
      now destruct (last pages []).
    + lia.
Qed.

(** The page a request asks for. *)
Definition page_number (rq : request) : nat :=
  match req_params rq with
  | Some params =>
      match dict_get "page" params with
      | Some (JInt p) => Z.to_nat p
      | _ => 0
      end
  | None => 0
  end.

(** The server answers every request to [url] with the page its ["page"]
    parameter names: status 200 and that page of [pages], the empty list
    beyond the last page. *)
Definition serves_repo_pages (E : environment) (url : string)
    (pages : list (list api_repo)) : Prop :=
  forall n rq,
    req_url rq = url ->
    exists r,
      server E RepoListEP n rq = Responded r
      /\ status_code r = 200%Z
      /\ resp_json r = Some (nth (page_number rq - 1) pages []).

Definition serves_commit_pages (E : environment) (url : string)
    (pages : list (list api_commit)) : Prop :=
  forall n rq,
    req_url rq = url ->
    exists r,
      server E CommitListEP n rq = Responded r
      /\ status_code r = 200%Z
      /\ resp_json r = Some (nth (page_number rq - 1) pages []).

Definition repos_url (self : GitHubScraper) : string :=
  base_url self ++ "/users/" ++ username self ++ "/repos".

Definition repos_params (page per_page : Z) : list (string * json) :=
  [("page", JInt page); ("per_page", JInt per_page); ("type", JStr "all")].

Definition commits_url (self : GitHubScraper) (owner repo : string) : string :=
  base_url self ++ "/repos/" ++ owner ++ "/" ++ repo ++ "/commits".

Definition commits_params (E : environment) (since until : datetime E)
    (page per_page : Z) : list (string * json) :=
  [("page", JInt page); ("per_page", JInt per_page);
   ("since", JStr (isoformat E since)); ("until", JStr (isoformat E until))].

Lemma get_all_repos_loop_page_loop E self url per_page :
  forall fuel page repos w,
    get_all_repos_loop E fuel self url page per_page repos w
    = page_loop
        (fun p =>
           _make_request E self RepoListEP url (Some (repos_params p per_page)))
        fuel page per_page repos w.
Proof.
  induction fuel as [|fuel IH]; intros page repos w; simpl; [reflexivity|].
  unfold bind. fold (repos_params page per_page).
  destruct (_make_request E self RepoListEP url
              (Some (repos_params page per_page)) w) as [[[data|]|e|] w'];
    try reflexivity.
  destruct (List.length data =? 0)%nat; [reflexivity|].
  destruct (Z.of_nat (List.length data) <? per_page)%Z; [reflexivity|].
  apply IH.
Qed.

Lemma get_commits_loop_page_loop E self url since until per_page :
  forall fuel page commits w,
    get_commits_loop E fuel self url since until page per_page commits w
    = page_loop
        (fun p =>
           _make_request E self CommitListEP url
             (Some (commits_params E since until p per_page)))
        fuel page per_page commits w.
Proof.
  induction fuel as [|fuel IH]; intros page commits w; simpl; [reflexivity|].
  unfold bind. fold (commits_params E since until page per_page).
  destruct (_make_request E self CommitListEP url
              (Some (commits_params E since until page per_page)) w)
    as [[[data|]|e|] w']; try reflexivity.
  destruct (List.length data =? 0)%nat; [reflexivity|].
  destruct (Z.of_nat (List.length data) <? per_page)%Z; [reflexivity|].
  apply IH.
Qed.

Lemma fetch_repo_page E token username pages :
  let self := __init__ token username in
  serves_repo_pages E (repos_url self) pages ->
  forall (p : nat) (w : world),
    exists w',
      _make_request E self RepoListEP (repos_url self)
        (Some (repos_params (Z.of_nat (S p)) 100)) w
      = (Ret (Some (nth p pages [])), w')
      /\ List.length (sent w') = S (List.length (sent w)).
Proof.
  intros self Hsrv p w.
  set (rq := request_of self (repos_url self)
               (Some (repos_params (Z.of_nat (S p)) 100))).
  destruct (Hsrv (attempts w) rq eq_refl) as (r & Hr & Hc & Hj).
  exists (after_request rq 1 w). split.
  - apply (make_request_200 E token username RepoListEP _ _ w r); auto.
    rewrite Hj. replace (page_number rq - 1)%nat with p; [reflexivity|].
    unfold page_number, rq. simpl. rewrite SuccNat2Pos.id_succ. lia.
  - simpl. rewrite length_app. simpl. lia.
Qed.

Lemma fetch_commit_page E token username owner repo since until pages :
  let self := __init__ token username in
  serves_commit_pages E (commits_url self owner repo) pages ->
  forall (p : nat) (w : world),
    exists w',
      _make_request E self CommitListEP (commits_url self owner repo)
        (Some (commits_params E since until (Z.of_nat (S p)) 100)) w
      = (Ret (Some (nth p pages [])), w')
      /\ List.length (sent w') = S (List.length (sent w)).
Proof.
  intros self Hsrv p w.
  set (rq := request_of self (commits_url self owner repo)
               (Some (commits_params E since until (Z.of_nat (S p)) 100))).
  destruct (Hsrv (attempts w) rq eq_refl) as (r & Hr & Hc & Hj).
  exists (after_request rq 1 w). split.
  - apply (make_request_200 E token username CommitListEP _ _ w r); auto.
    rewrite Hj. replace (page_number rq - 1)%nat with p; [reflexivity|].
    unfold page_number, rq. simpl. rewrite SuccNat2Pos.id_succ. lia.
  - simpl. rewrite length_app. simpl. lia.
Qed.

Lemma get_all_repos_pages E token username (pages : list (list api_repo))
    fuel w :
  let self := __init__ token username in
  well_paged pages ->
  serves_repo_pages E (repos_url self) pages ->
  (List.length pages <= fuel)%nat ->
  exists w',
    get_all_repos E fuel self w = (Ret (List.concat pages), w')
    /\ List.length (sent w')
       = (List.length (sent w) + List.length pages)%nat.
Proof.
  intros self (Hne & Hfull & Hlast) Hsrv Hfuel.
  destruct (page_loop_pages
              (fun p => _make_request E self RepoListEP (repos_url self)
                          (Some (repos_params p 100)))
              pages (fetch_repo_page E token username pages Hsrv)
              pages [] fuel [] w eq_refl Hne Hfull Hlast Hfuel)
    as (w1 & Hl & Hs).
  unfold get_all_repos. fold (repos_url self).
  rewrite (bind_Ret _ _ w (List.concat pages) w1).
  - eexists. split; [reflexivity|]. simpl. exact Hs.
  - rewrite get_all_repos_loop_page_loop. exact Hl.
Qed.

Lemma get_commits_pages E token username owner repo since until
    (pages : list (list api_commit)) fuel w :
  let self := __init__ token username in
  well_paged pages ->
  serves_commit_pages E (commits_url self owner repo) pages ->
  (List.length pages <= fuel)%nat ->
  exists w',
    get_commits E fuel self owner repo since until w
    = (Ret (List.concat pages), w')
    /\ List.length (sent w')
       = (List.length (sent w) + List.length pages)%nat.
Proof.
  intros self (Hne & Hfull & Hlast) Hsrv Hfuel.
  destruct (page_loop_pages
              (fun p => _make_request E self CommitListEP
                          (commits_url self owner repo)
                          (Some (commits_params E since until p 100)))
              pages
              (fetch_commit_page E token username owner repo since until
                 pages Hsrv)
              pages [] fuel [] w eq_refl Hne Hfull Hlast Hfuel)
    as (w1 & Hl & Hs).
  unfold get_commits. fold (commits_url self owner repo).
  rewrite get_commits_loop_page_loop. exists w1. split; assumption.
Qed.

(** C2, as the code has it.  Over a sequence of pages in which every page
    before the last holds 100 items and the last holds fewer, [get_all_repos]
    and [get_commits] return the concatenation of the pages in page order
    after exactly one request per page, which is [total / 100 + 1] requests
    and equals [ceil(total / 100)] when the last page is not empty.  In both
    loops a request that fails, returns an empty list or returns fewer than
    100 items is the last one, and a full page is followed by a request for
    the next page. *)
Theorem pagination_returns_all_pages :
  forall (E : environment) (token username : string),
    let self := __init__ token username in
    (forall (pages : list (list api_repo)) (fuel : nat) (w : world),
        well_paged pages ->
        serves_repo_pages E (repos_url self) pages ->
        (List.length pages <= fuel)%nat ->
        exists w',
          get_all_repos E fuel self w = (Ret (List.concat pages), w')
          /\ List.length (sent w')
             = (List.length (sent w) + List.length pages)%nat
          /\ List.length pages = (total_items pages / 100 + 1)%nat
          /\ (last pages [] <> [] ->
              List.length pages = ceil_div (total_items pages) 100))
    /\ (forall (owner repo : string) (since until : datetime E)
          (pages : list (list api_commit)) (fuel : nat) (w : world),
          well_paged pages ->
          serves_commit_pages E (commits_url self owner repo) pages ->
          (List.length pages <= fuel)%nat ->
          exists w',
            get_commits E fuel self owner repo since until w
            = (Ret (List.concat pages), w')
            /\ List.length (sent w')
               = (List.length (sent w) + List.length pages)%nat
            /\ List.length pages = (total_items pages / 100 + 1)%nat
            /\ (last pages [] <> [] ->
                List.length pages = ceil_div (total_items pages) 100))
    /\ (forall fuel url page repos w data w',
          _make_request E self RepoListEP url (Some (repos_params page 100)) w
          = (Ret data, w') ->
          (List.length (default [] data) < 100)%nat ->
          get_all_repos_loop E (S fuel) self url page 100 repos w
          = (Ret (repos ++ default [] data)%list, w'))
    /\ (forall fuel url page repos w data w',
          _make_request E self RepoListEP url (Some (repos_params page 100)) w
          = (Ret (Some data), w') ->
          (100 <= List.length data)%nat ->
          get_all_repos_loop E (S fuel) self url page 100 repos w
          = get_all_repos_loop E fuel self url (page + 1)%Z 100
              (repos ++ data)%list w')
    /\ (forall fuel url since until page commits w data w',
          _make_request E self CommitListEP url
            (Some (commits_params E since until page 100)) w
          = (Ret data, w') ->
          (List.length (default [] data) < 100)%nat ->
          get_commits_loop E (S fuel) self url since until page 100 commits w
          = (Ret (commits ++ default [] data)%list, w'))
    /\ (forall fuel url since until page commits w data w',
          _make_request E self CommitListEP url
            (Some (commits_params E since until page 100)) w
          = (Ret (Some data), w') ->
          (100 <= List.length data)%nat ->
          get_commits_loop E (S fuel) self url since until page 100 commits w
          = get_commits_loop E fuel self url since until (page + 1)%Z 100
              (commits ++ data)%list w').
Proof.
  intros E token username self. repeat split.
  - intros pages fuel w Hwp Hsrv Hfuel.
    destruct (get_all_repos_pages E token username pages fuel w Hwp Hsrv Hfuel)
      as (w' & Hr & Hs).
    destruct (well_paged_requests pages Hwp) as [Hn Hceil].
    exists w'. repeat split; assumption.
  - intros owner repo since until pages fuel w Hwp Hsrv Hfuel.
    destruct (get_commits_pages E token username owner repo since until pages
                fuel w Hwp Hsrv Hfuel) as (w' & Hr & Hs).
    destruct (well_paged_requests pages Hwp) as [Hn Hceil].
    exists w'. repeat split; assumption.
  - intros fuel url page repos w data w' Hf Hlen.
    rewrite get_all_repos_loop_page_loop.
    now apply page_loop_stops.
  - intros fuel url page repos w data w' Hf Hlen.
    rewrite !get_all_repos_loop_page_loop.
    now apply page_loop_continues.
  - intros fuel url since until page commits w data w' Hf Hlen.
    rewrite get_commits_loop_page_loop.
    now apply page_loop_stops.
  - intros fuel url since until page commits w data w' Hf Hlen.
    rewrite !get_commits_loop_page_loop.
    now apply page_loop_continues.
Qed.

(** ** A test environment *)

(** A calendar that knows January 2024, a clock stopped on the 14th at
    09:30, and a server that answers from fixed data. *)
Definition two_digits (n : Z) : string :=
  if (n <? 10)%Z then "0" ++ str_int n else str_int n.

Definition jan_datetime : Type := (Z * (Z * Z * Z * Z))%type.

Definition jan_date (d : jan_datetime) : string :=
  "2024-01-" ++ two_digits (fst d).

Definition jan_isoformat (d : jan_datetime) : string :=
  let '(h, m, s, us) := snd d in
  jan_date d ++ "T" ++ two_digits h ++ ":" ++ two_digits m ++ ":"
    ++ two_digits s ++ (if (us =? 0)%Z then "" else "." ++ str_int us).

Definition jan_strptime (s : string) : option jan_datetime :=
  match
    find (fun day => String.eqb ("2024-01-" ++ two_digits day) s)
      (map Z.of_nat (seq 1 31))
  with
  | Some day => Some (day, (0, 0, 0, 0))%Z
  | None => None
  end.

Definition jan_minus_days (d : jan_datetime) (n : Z) : option jan_datetime :=
  let day := (fst d - n)%Z in
  if ((1 <=? day) && (day <=? 31))%Z then Some (day, snd d) else None.

(** [urllib.parse.quote_plus] on ASCII text: letters, digits and [_.-~]
    stay, a space becomes [+], any other character its code in
    hexadecimal. *)
Definition unreserved (c : ascii) : bool :=
  let n := nat_of_ascii c in
  ((48 <=? n) && (n <=? 57) || (65 <=? n) && (n <=? 90)
   || (97 <=? n) && (n <=? 122)
   || (n =? 45) || (n =? 46) || (n =? 95) || (n =? 126))%nat.

Definition hex_digit (n : nat) : ascii :=
  nth n (list_ascii_of_string "0123456789ABCDEF") "0"%char.

Fixpoint quote_plus (s : string) : string :=
  match s with
  | EmptyString => EmptyString
  | String c rest =>
      let n := nat_of_ascii c in
      (if unreserved c then String c EmptyString
       else if (n =? 32)%nat then "+"
       else String "%" (String (hex_digit (n / 16))
                          (String (hex_digit (n mod 16)) EmptyString)))
      ++ quote_plus rest
  end.

(** The URL of a request with its parameters as query string; the test
    requests have integers and strings for parameters. *)
Definition fetched_url (rq : request) : string :=
  match req_params rq with
  | None | Some [] => req_url rq
  | Some params =>
      req_url rq ++ "?"
        ++ String.concat "&"
             (map (fun kv =>
                     fst kv ++ "="
                       ++ match snd kv with
                          | JInt z => str_int z
                          | JStr text => quote_plus text
                          | _ => EmptyString
                          end)
                params)
  end.

Definition ok {T} (rq : request) (v : T) : attempt T :=
  Responded {| resp_url := fetched_url rq; status_code := 200;
               resp_reason := "OK"; resp_text := ""; resp_json := Some v |}.

Definition stub_server (repo_pages : list (list api_repo))
    (commit_pages : list (list api_commit))
    (traffic : nat -> request -> attempt traffic_data)
    (detail : nat -> request -> attempt commit_detail)
  : forall k : endpoint, nat -> request -> attempt (payload k) :=
  fun k =>
    match k return nat -> request -> attempt (payload k) with
    | RepoListEP => fun _ rq => ok rq (nth (page_number rq - 1) repo_pages [])
    | TrafficEP => traffic
    | CommitListEP =>
        fun _ rq => ok rq (nth (page_number rq - 1) commit_pages [])
    | CommitEP => detail
    | PopularEP => fun _ rq => ok rq []
    end.

Definition test_env
    (srv : forall k : endpoint, nat -> request -> attempt (payload k))
  : environment :=
  {| datetime := jan_datetime;
     clock := fun _ => (14, (9, 30, 0, 0))%Z;
     minus_days := jan_minus_days;
     strftime_ymd := jan_date;
     strptime_ymd := jan_strptime;
     replace_time := fun d h m s us => (fst d, (h, m, s, us));
     isoformat := jan_isoformat;
     server := srv;
     json_text_as_csv := fun _ => inr [];
     csv_text_as_json :=
       fun _ => inl (mk_exn JSONDecodeError "Expecting value" None) |}.

Definition no_traffic_answer (_ : nat) (rq : request)
  : attempt traffic_data :=
  ok rq {| td_views := Some []; td_clones := None; td_other := [] |}.

Definition no_detail (_ : nat) (_ : request) : attempt commit_detail :=
  ConnFailed "connection refused".

Definition empty_world : world :=
  {| files := fun _ => None; stdout := []; sent := []; attempts := 0;
     ticks := 0 |}.

Definition sample_repo (name : string) : api_repo :=
  {| repo_owner_login := "Sesquii";
     repo_name := name;
     repo_full_name := Some ("Sesquii/" ++ name);
     repo_private := Some false;
     repo_description := None;
     repo_html_url := Some ("https://github.com/Sesquii/" ++ name);
     repo_language := Some "Python";
     repo_stargazers_count := Some 2%Z;
     repo_forks_count := Some 0%Z;
     repo_watchers_count := Some 2%Z;
     repo_open_issues_count := None |}.

Definition tester : GitHubScraper := __init__ "ghp_token" "Sesquii".

Lemma stub_serves_repo_pages repo_pages commit_pages traffic detail url :
  serves_repo_pages
    (test_env (stub_server repo_pages commit_pages traffic detail)) url
    repo_pages.
Proof. intros n rq _. eexists. repeat split. Qed.

Lemma stub_serves_commit_pages repo_pages commit_pages traffic detail url :
  serves_commit_pages
    (test_env (stub_server repo_pages commit_pages traffic detail)) url
    commit_pages.
Proof. intros n rq _. eexists. repeat split. Qed.

Definition two_repo_pages : list (list api_repo) :=
  [repeat (sample_repo "alpha") 100; [sample_repo "omega"]].

Lemma pagination_returns_all_pages_witness :
  exists w',
    get_all_repos
      (test_env (stub_server two_repo_pages [] no_traffic_answer no_detail))
      2 tester empty_world
    = (Ret (List.concat two_repo_pages), w')
    /\ List.length (sent w') = 2%nat.
Proof.
  destruct (pagination_returns_all_pages
              (test_env (stub_server two_repo_pages [] no_traffic_answer
                           no_detail))
              "ghp_token" "Sesquii") as [H _].
  destruct (H two_repo_pages 2%nat empty_world) as (w' & Hr & Hs & _).
  - split; [discriminate|]. split.
    + simpl. constructor; [reflexivity | constructor].
    + simpl. lia.
  - apply stub_serves_repo_pages.
  - simpl. lia.
  - exists w'. split; [exact Hr | exact Hs].
Defined.

(** The claim with [ceil(total / 100)] requests over every sequence of pages
    whose last page is short. *)
Definition pagination_as_claimed (E : environment) (self : GitHubScraper)
    (pages : list (list api_repo)) : Prop :=
  pages <> [] ->
  (List.length (last pages []) < 100)%nat ->
  serves_repo_pages E (repos_url self) pages ->
  forall w,
  exists fuel w',
    get_all_repos E fuel self w = (Ret (List.concat pages), w')
    /\ List.length (sent w')
       = (List.length (sent w) + ceil_div (total_items pages) 100)%nat.

Lemma get_all_repos_no_fuel E self w :
  get_all_repos E 0 self w = (Timeout, w).
Proof. reflexivity. Qed.

Lemma get_all_repos_first_page_short E token username page1 pages fuel w :
  let self := __init__ token username in
  serves_repo_pages E (repos_url self) (page1 :: pages) ->
  (List.length page1 < 100)%nat ->
  exists w',
    get_all_repos E (S fuel) self w = (Ret page1, w')
    /\ List.length (sent w') = S (List.length (sent w)).
Proof.
  intros self Hsrv Hlen.
  destruct (fetch_repo_page E token username (page1 :: pages) Hsrv 0%nat w)
    as (w1 & Hf & Hs).
  unfold get_all_repos. fold (repos_url self).
  rewrite (bind_Ret _ _ w page1 w1).
  - eexists. split; [reflexivity|]. simpl. exact Hs.
  - rewrite get_all_repos_loop_page_loop.
    apply (page_loop_stops _ fuel 1%Z [] w (Some page1) w1); assumption.
Qed.

Definition paged_env (repo_pages : list (list api_repo)) : environment :=
  test_env (stub_server repo_pages [] no_traffic_answer no_detail).

(** C2, the claim as stated fails.  An account without repositories is one
    empty page: finding that out takes one request, not [ceil(0 / 100) = 0].
    And the loop does not go past a short page that is not the last. *)
Lemma pagination_as_claimed_fails :
  ~ pagination_as_claimed (paged_env [[]]) tester [[]]
  /\ ~ pagination_as_claimed
         (paged_env [[sample_repo "alpha"]; [sample_repo "omega"]])
         tester [[sample_repo "alpha"]; [sample_repo "omega"]].
Proof.
  split; intros H.
  - destruct (H ltac:(discriminate) ltac:(simpl; lia)
                (stub_serves_repo_pages _ _ _ _ _) empty_world)
      as (fuel & w' & Hr & Hs).
    destruct fuel as [|fuel].
    + rewrite get_all_repos_no_fuel in Hr. discriminate.
    + destruct (get_all_repos_first_page_short (paged_env [[]])
                  "ghp_token" "Sesquii" [] []
                  fuel empty_world (stub_serves_repo_pages _ _ _ _ _)
                  ltac:(simpl; lia)) as (w1 & Hr1 & Hs1).
      unfold tester in Hr. rewrite Hr1 in Hr. inversion Hr; subst w'.
      rewrite Hs1 in Hs. simpl in Hs. discriminate.
  - destruct (H ltac:(discriminate) ltac:(simpl; lia)
                (stub_serves_repo_pages _ _ _ _ _) empty_world)
      as (fuel & w' & Hr & Hs).
    destruct fuel as [|fuel].
    + rewrite get_all_repos_no_fuel in Hr. discriminate.
    + destruct (get_all_repos_first_page_short
                  (paged_env [[sample_repo "alpha"]; [sample_repo "omega"]])
                  "ghp_token" "Sesquii"
                  [sample_repo "alpha"] [[sample_repo "omega"]]
                  fuel empty_world (stub_serves_repo_pages _ _ _ _ _)
                  ltac:(simpl; lia)) as (w1 & Hr1 & Hs1).
      unfold tester in Hr. rewrite Hr1 in Hr. inversion Hr.
Qed.

(** ** Commit aggregator *)

Definition detail_url (self : GitHubScraper) (owner repo : string)
    (commit : api_commit) : string :=
  base_url self ++ "/repos/" ++ owner ++ "/" ++ repo ++ "/commits/"
    ++ sha commit.

(** The answers to the detail requests for [commits], asked in order: an
    element is [None] when the fetch failed. *)
Fixpoint fetch_details (E : environment) (self : GitHubScraper)
    (owner repo : string) (commits : list api_commit)
  : M (list (option commit_detail)) :=
  match commits with
  | [] => ret []
  | commit :: rest =>
      d <- _make_request E self CommitEP (detail_url self owner repo commit)
             None ;;
      ds <- fetch_details E self owner repo rest ;;
      ret (d :: ds)
  end.

(** What one answer contributes: the stats of the commit, zero for a key
    that is missing, zero when there is no stats object or no answer. *)
Definition additions_of (d : option commit_detail) : Z :=
  match d with
  | Some detail =>
      match detail_stats detail with
      | Some stats => default 0%Z (stats_additions stats)
      | None => 0
      end
  | None => 0
  end.

Definition deletions_of (d : option commit_detail) : Z :=
  match d with
  | Some detail =>
      match detail_stats detail with
      | Some stats => default 0%Z (stats_deletions stats)
      | None => 0
      end
  | None => 0
  end.

Definition sum_Z (l : list Z) : Z := fold_right Z.add 0%Z l.

Lemma sum_commit_details_totals E self owner repo :
  forall commits total_additions total_deletions w details w',
    fetch_details E self owner repo commits w = (Ret details, w') ->
    sum_commit_details E self owner repo commits total_additions
      total_deletions w
    = (Ret ((total_additions + sum_Z (map additions_of details))%Z,
            (total_deletions + sum_Z (map deletions_of details))%Z),
       w')
    /\ List.length details = List.length commits.
Proof.
  induction commits as [|commit rest IH];
    intros total_additions total_deletions w details w' Hf;
    cbn [fetch_details sum_commit_details] in *.
  - inversion Hf; subst. simpl. rewrite !Z.add_0_r. split; reflexivity.
  - unfold detail_url, bind in *.
    destruct (_make_request E self CommitEP _ None w) as [[d| |] w1];
      try discriminate.
    destruct (fetch_details E self owner repo rest w1) as [[ds| |] w2] eqn:Hrest;
      try discriminate.
    inversion Hf; subst details w'. clear Hf.
    destruct d as [detail|]; [destruct (detail_stats detail) as [stats|] eqn:Hst|];
      cbn [map additions_of deletions_of sum_Z fold_right List.length];
      try rewrite Hst;
      match goal with
      | |- sum_commit_details _ _ _ _ _ ?a ?b _ = _ /\ _ =>
          destruct (IH a b w1 ds w2 Hrest) as [-> ->]
      end;
      split; try reflexivity; f_equal; unfold sum_Z;
      rewrite ?Z.add_0_l, ?Z.add_assoc; reflexivity.
Qed.

(** A server that raises nothing but request exceptions. *)
Definition raises_only_request_exceptions (E : environment) : Prop :=
  forall k n rq e,
    server E k n rq = Raised e -> is_RequestException (exn_class_of e) = true.

(** ** HTTP client adapter: failures *)

(** An attempt the adapter answers with another attempt. *)
Definition retryable {T} (forcelist : list Z) (a : attempt T) : bool :=
  match a with
  | ConnFailed _ => true
  | Responded r => existsb (Z.eqb (status_code r)) forcelist
  | Raised _ => false
  end.

Definition with_attempts (n : nat) (w : world) : world :=
  {| files := files w; stdout := stdout w; sent := sent w;
     attempts := n + attempts w; ticks := ticks w |}.

(** Every attempt the budget allows is a retryable failure: the adapter
    raises [ConnectionError] or [RetryError], without a response. *)
Lemma send_with_retries_exhausted E k forcelist rq :
  forall retries w,
    (forall i, (i <= retries)%nat ->
               retryable forcelist (server E k (attempts w + i) rq) = true) ->
    exists e,
      send_with_retries E k forcelist retries rq w
      = (Raise e, with_attempts (S retries) w)
      /\ (exn_class_of e = ConnectionError \/ exn_class_of e = RetryError)
      /\ exn_response_text e = None.
Proof.
  induction retries as [|retries IH]; intros w Hall.
  - pose proof (Hall 0%nat (le_n 0)) as H0. rewrite Nat.add_0_r in H0.
    cbn [send_with_retries]. unfold bind, send_once.
    destruct (server E k (attempts w) rq) as [msg|e|r]; simpl in H0.
    + eexists. split; [reflexivity|]. split; [now left | reflexivity].
    + discriminate.
    + rewrite H0. eexists. split; [reflexivity|]. split; [now right | reflexivity].
  - pose proof (Hall 0%nat (Nat.le_0_l _)) as H0. rewrite Nat.add_0_r in H0.
    cbn [send_with_retries]. unfold bind, send_once.
    set (w1 := {| files := files w; stdout := stdout w; sent := sent w;
                  attempts := S (attempts w); ticks := ticks w |}).
    destruct (IH w1) as (e & He & Hcls & Hresp).
    { intros i Hi. simpl. replace (S (attempts w + i)) with (attempts w + S i)%nat by lia.
      apply Hall. lia. }
    assert (Hw : with_attempts (S retries) w1 = with_attempts (S (S retries)) w).
    { unfold with_attempts, w1. simpl. f_equal. lia. }
    rewrite Hw in He.
    destruct (server E k (attempts w) rq) as [msg|e'|r]; simpl in H0.
    + exists e. auto.
    + discriminate.
    + rewrite H0. exists e. auto.
Qed.

(** After [i] retryable failures within the budget, a response whose status
    is not in the force list is what the adapter returns. *)
Lemma send_with_retries_responds E k forcelist rq r :
  forall retries i w,
    (i <= retries)%nat ->
    (forall j, (j < i)%nat ->
               retryable forcelist (server E k (attempts w + j) rq) = true) ->
    server E k (attempts w + i) rq = Responded r ->
    existsb (Z.eqb (status_code r)) forcelist = false ->
    send_with_retries E k forcelist retries rq w
    = (Ret r, with_attempts (S i) w).
Proof.
  induction retries as [|retries IH]; intros i w Hi Hbefore Hr Hnot.
  - assert (i = 0)%nat by lia. subst i. rewrite Nat.add_0_r in Hr.
    cbn [send_with_retries]. unfold bind, send_once. rewrite Hr, Hnot.
    reflexivity.
  - cbn [send_with_retries]. unfold bind, send_once.
    destruct i as [|i].
    + rewrite Nat.add_0_r in Hr. rewrite Hr, Hnot. reflexivity.
    + pose proof (Hbefore 0%nat (Nat.lt_0_succ _)) as H0.
      rewrite Nat.add_0_r in H0.
      set (w1 := {| files := files w; stdout := stdout w; sent := sent w;
                    attempts := S (attempts w); ticks := ticks w |}).
      assert (Hrec : send_with_retries E k forcelist retries rq w1
                     = (Ret r, with_attempts (S (S i)) w)).
      { replace (with_attempts (S (S i)) w) with (with_attempts (S i) w1).
        - apply IH; [lia| |  |exact Hnot].
          + intros j Hj. simpl.
            replace (S (attempts w + j)) with (attempts w + S j)%nat by lia.
            apply Hbefore. lia.
          + simpl. replace (S (attempts w + i)) with (attempts w + S i)%nat by lia.
            exact Hr.
        - unfold with_attempts, w1. simpl. f_equal. lia. }
      destruct (server E k (attempts w) rq) as [msg|e'|r']; simpl in H0.
      * exact Hrec.
      * discriminate.
      * rewrite H0. exact Hrec.
Qed.

(** Whatever the answers, the adapter returns a response or raises: a
    request exception when the server raises no other. *)
Lemma send_with_retries_outcome E k forcelist rq :
  raises_only_request_exceptions E ->
  forall retries w,
    exists w',
      (exists r, send_with_retries E k forcelist retries rq w = (Ret r, w'))
      \/ (exists e,
            send_with_retries E k forcelist retries rq w = (Raise e, w')
            /\ is_RequestException (exn_class_of e) = true).
Proof.
  intros Hpolite.
  induction retries as [|retries IH]; intros w;
    cbn [send_with_retries]; unfold bind, send_once;
    destruct (server E k (attempts w) rq) as [msg|e|r] eqn:Hs.
  - eexists. right. eexists. split; reflexivity.
  - eexists. right. exists e. split; [reflexivity|]. eapply Hpolite; eauto.
  - destruct (existsb (Z.eqb (status_code r)) forcelist).
    + eexists. right. eexists. split; reflexivity.
    + eexists. left. eexists. reflexivity.
  - apply IH.
  - eexists. right. exists e. split; [reflexivity|]. eapply Hpolite; eauto.
  - destruct (existsb (Z.eqb (status_code r)) forcelist).
    + apply IH.
    + eexists. left. eexists. reflexivity.
Qed.

(** What [_make_request] prints for the exception it caught: the cause,
    and the text of the response when the exception carries one. *)
Definition failure_lines (url : string) (e : exn) : list string :=
  ("Error fetching " ++ url ++ ": " ++ exn_msg e)
  :: match exn_response_text e with
     | Some text => ["Response: " ++ text]
     | None => []
     end.

(** The handler of [_make_request] returns [None]. *)
Lemma make_request_handler {A} url e w :
  exists w',
    (print ("Error fetching " ++ url ++ ": " ++ exn_msg e) ;;;
     match exn_response_text e with
     | Some text => print ("Response: " ++ text)
     | None => ret tt
     end ;;;
     ret (@None A)) w = (Ret None, w')
    /\ files w' = files w
    /\ sent w' = sent w
    /\ attempts w' = attempts w
    /\ ticks w' = ticks w
    /\ stdout w' = (stdout w ++ failure_lines url e)%list.
Proof.
  unfold bind, print, ret, failure_lines. destruct (exn_response_text e); simpl;
    eexists; repeat split; simpl; now rewrite <- ?app_assoc.
Qed.

(** The [HTTPError] that [raise_for_status] raises for a 4xx response. *)
Definition client_error {T} (r : response T) : exn :=
  mk_exn HTTPError
    (str_int (status_code r) ++ " Client Error: " ++ resp_reason r
       ++ " for url: " ++ resp_url r)
    (Some (resp_text r)).

Definition logged (rq : request) (w : world) : world :=
  {| files := files w; stdout := stdout w; sent := (sent w ++ [rq])%list;
     attempts := attempts w; ticks := ticks w |}.

(** [_make_request] once the request is logged. *)
Lemma make_request_logged E self k url params w :
  _make_request E self k url params w
  = try_except
      (response <-
         send_with_retries E k (status_forcelist (max_retries (session self)))
           (total (max_retries (session self))) (request_of self url params) ;;
       raise_for_status response ;;;
       v <- response_json response ;;
       ret (Some v))
      is_RequestException
      (fun e =>
         print ("Error fetching " ++ url ++ ": " ++ exn_msg e) ;;;
         match exn_response_text e with
         | Some text => print ("Response: " ++ text)
         | None => ret tt
         end ;;;
         ret None)
      (logged (request_of self url params) w).
Proof. reflexivity. Qed.

Lemma make_request_send_raises E self k url params w e w1 :
  send_with_retries E k (status_forcelist (max_retries (session self)))
    (total (max_retries (session self))) (request_of self url params)
    (logged (request_of self url params) w) = (Raise e, w1) ->
  is_RequestException (exn_class_of e) = true ->
  exists w',
    _make_request E self k url params w = (Ret None, w')
    /\ files w' = files w1 /\ sent w' = sent w1 /\ attempts w' = attempts w1
    /\ ticks w' = ticks w1
    /\ stdout w' = (stdout w1 ++ failure_lines url e)%list.
Proof.
  intros Hsend Hreq.
  destruct (@make_request_handler (payload k) url e w1) as (w' & Hh & Hrest).
  exists w'. split; [|exact Hrest].
  rewrite make_request_logged.
  rewrite (try_except_caught _ _ _ _ e w1); [exact Hh | | exact Hreq].
  now apply bind_Raise.
Qed.

Lemma make_request_send_returns E self k url params w r w1 :
  send_with_retries E k (status_forcelist (max_retries (session self)))
    (total (max_retries (session self))) (request_of self url params)
    (logged (request_of self url params) w) = (Ret r, w1) ->
  exists v w',
    _make_request E self k url params w = (Ret v, w')
    /\ files w' = files w1 /\ sent w' = sent w1 /\ attempts w' = attempts w1
    /\ ticks w' = ticks w1
    /\ ((400 <= status_code r < 500)%Z ->
        v = None
        /\ stdout w'
           = (stdout w1 ++ failure_lines url (client_error r))%list).
Proof.
  intros Hsend.
  rewrite make_request_logged.
  set (handler := fun e : exn =>
         print ("Error fetching " ++ url ++ ": " ++ exn_msg e) ;;;
         match exn_response_text e with
         | Some text => print ("Response: " ++ text)
         | None => ret tt
         end ;;;
         ret (@None (payload k))).
  assert (Hcaught : forall e,
             is_RequestException (exn_class_of e) = true ->
             (raise_for_status r ;;;
              v <- response_json r ;; ret (Some v)) w1 = (Raise e, w1) ->
             exists w',
               try_except
                 (response <-
                    send_with_retries E k
                      (status_forcelist (max_retries (session self)))
                      (total (max_retries (session self)))
                      (request_of self url params) ;;
                  raise_for_status response ;;;
                  v <- response_json response ;;
                  ret (Some v))
                 is_RequestException handler
                 (logged (request_of self url params) w) = (Ret None, w')
               /\ files w' = files w1 /\ sent w' = sent w1
               /\ attempts w' = attempts w1 /\ ticks w' = ticks w1
               /\ stdout w' = (stdout w1 ++ failure_lines url e)%list).
  { intros e Hreq Hbody.
    destruct (@make_request_handler (payload k) url e w1) as (w' & Hh & Hrest).
    exists w'. split; [|exact Hrest].
    rewrite (try_except_caught _ _ _ _ e w1); [exact Hh | | exact Hreq].
    rewrite (bind_Ret _ _ _ _ _ Hsend). exact Hbody. }
  unfold raise_for_status in Hcaught.
  destruct ((400 <=? status_code r) && (status_code r <? 500))%Z eqn:H4.
  - destruct (Hcaught (client_error r) eq_refl eq_refl)
      as (w' & Hh & Hf & Hs & Ha & Ht & Ho).
    exists None, w'. repeat split; assumption.
  - destruct ((500 <=? status_code r) && (status_code r <? 600))%Z eqn:H5.
    + destruct (Hcaught
                  (mk_exn HTTPError
                     (str_int (status_code r) ++ " Server Error: "
                        ++ resp_reason r ++ " for url: " ++ resp_url r)
                     (Some (resp_text r)))
                  eq_refl eq_refl)
        as (w' & Hh & Hf & Hs & Ha & Ht & Ho).
      exists None, w'. repeat split; try assumption; lia.
    + unfold response_json in *.
      destruct (resp_json r) as [v|] eqn:Hj.
      * exists (Some v), w1. split.
        -- apply try_except_Ret. rewrite (bind_Ret _ _ _ _ _ Hsend).
           unfold raise_for_status. rewrite H4, H5. unfold response_json.
           rewrite Hj. reflexivity.
        -- repeat split; lia.
      * destruct (Hcaught
                    (mk_exn InvalidJSONError
                       "Expecting value: line 1 column 1 (char 0)" None)
                    eq_refl eq_refl)
          as (w' & Hh & Hf & Hs & Ha & Ht & Ho).
        exists None, w'. repeat split; try assumption; lia.
Qed.

(** When the server raises nothing but request exceptions,
    [_make_request] returns. *)
Lemma make_request_returns E self k url params w :
  raises_only_request_exceptions E ->
  exists v w', _make_request E self k url params w = (Ret v, w').
Proof.
  intros Hpolite.
  destruct (send_with_retries_outcome E k
              (status_forcelist (max_retries (session self)))
              (request_of self url params) Hpolite
              (total (max_retries (session self)))
              (logged (request_of self url params) w))
    as (w1 & [(r & Hr) | (e & He & Hreq)]).
  - destruct (make_request_send_returns E self k url params w r w1 Hr)
      as (v & w' & H & _).
    now exists v, w'.
  - destruct (make_request_send_raises E self k url params w e w1 He Hreq)
      as (w' & H & _).
    now exists None, w'.
Qed.

(** The retry budget is spent: the first attempt and every retry the
    session's [Retry] allows are retryable failures. *)
Definition budget_exhausted (E : environment) (self : GitHubScraper)
    (k : endpoint) (rq : request) (w : world) : Prop :=
  forall i,
    (i <= total (max_retries (session self)))%nat ->
    retryable (status_forcelist (max_retries (session self)))
      (server E k (attempts w + i) rq) = true.

(** Within the budget the server answers with a 4xx status that is not in
    the force list. *)
Definition answered_4xx (E : environment) (self : GitHubScraper)
    (k : endpoint) (rq : request) (w : world) (r : response (payload k))
  : Prop :=
  exists i,
    (i <= total (max_retries (session self)))%nat
    /\ (forall j, (j < i)%nat ->
                  retryable (status_forcelist (max_retries (session self)))
                    (server E k (attempts w + j) rq) = true)
    /\ server E k (attempts w + i) rq = Responded r
    /\ (400 <= status_code r < 500)%Z
    /\ existsb (Z.eqb (status_code r))
         (status_forcelist (max_retries (session self))) = false.

(** C8.  When the retry budget is spent, and when the server answers with a
    4xx status that is not retried, [_make_request] returns [None]: it does
    not raise.  It prints the cause, and the text of the response when there
    is one (there is one for the 4xx answer, none when the budget is spent),
    and leaves the files alone. *)
Theorem make_request_failure_is_None :
  forall (E : environment) (self : GitHubScraper) (k : endpoint)
    (url : string) (params : option (list (string * json))) (w : world),
    let rq := request_of self url params in
    (budget_exhausted E self k rq w ->
     exists e w',
       _make_request E self k url params w = (Ret None, w')
       /\ (exn_class_of e = ConnectionError \/ exn_class_of e = RetryError)
       /\ exn_response_text e = None
       /\ stdout w' = (stdout w ++ failure_lines url e)%list
       /\ files w' = files w)
    /\ (forall r,
          answered_4xx E self k rq w r ->
          exists w',
            _make_request E self k url params w = (Ret None, w')
            /\ exn_response_text (client_error r) = Some (resp_text r)
            /\ stdout w'
               = (stdout w ++ failure_lines url (client_error r))%list
            /\ files w' = files w).
Proof.
  intros E self k url params w rq. split.
  - intros Hex.
    destruct (send_with_retries_exhausted E k
                (status_forcelist (max_retries (session self))) rq
                (total (max_retries (session self))) (logged rq w) Hex)
      as (e & Hsend & Hcls & Hresp).
    destruct (make_request_send_raises E self k url params w e _ Hsend)
      as (w' & Hr & Hf & _ & _ & _ & Ho).
    { destruct Hcls as [-> | ->]; reflexivity. }
    exists e, w'. repeat split; assumption.
  - intros r (i & Hi & Hbefore & Hr & Hcode & Hnot).
    pose proof (send_with_retries_responds E k
                  (status_forcelist (max_retries (session self))) rq r
                  (total (max_retries (session self))) i (logged rq w)
                  Hi Hbefore Hr Hnot) as Hsend.
    destruct (make_request_send_returns E self k url params w r _ Hsend)
      as (v & w' & Hm & Hf & _ & _ & _ & H4).
    destruct (H4 Hcode) as [-> Ho].
    exists w'. repeat split; assumption.
Qed.

Definition refusing_server
  : forall k : endpoint, nat -> request -> attempt (payload k) :=
  fun k _ _ => ConnFailed "NewConnectionError: connection refused".

Definition not_found {T} (rq : request) : response T :=
  {| resp_url := fetched_url rq; status_code := 404;
     resp_reason := "Not Found"; resp_text := "Not Found";
     resp_json := None |}.

Definition missing_server
  : forall k : endpoint, nat -> request -> attempt (payload k) :=
  fun k _ rq => Responded (not_found rq).

Lemma make_request_failure_is_None_witness :
  (exists w',
      _make_request (test_env refusing_server) tester TrafficEP
        "https://api.github.com/repos/Sesquii/alpha/traffic/views"
        (Some [("per", JStr "day")]) empty_world = (Ret None, w'))
  /\ (exists w',
         _make_request (test_env missing_server) tester TrafficEP
           "https://api.github.com/repos/Sesquii/alpha/traffic/views"
           (Some [("per", JStr "day")]) empty_world = (Ret None, w')).
Proof.
  split.
  - destruct (make_request_failure_is_None (test_env refusing_server) tester
                TrafficEP
                "https://api.github.com/repos/Sesquii/alpha/traffic/views"
                (Some [("per", JStr "day")]) empty_world) as [H _].
    destruct H as (e & w' & Hr & _).
    + intros i _. reflexivity.
    + exists w'. exact Hr.
  - destruct (make_request_failure_is_None (test_env missing_server) tester
                TrafficEP
                "https://api.github.com/repos/Sesquii/alpha/traffic/views"
                (Some [("per", JStr "day")]) empty_world) as [_ H].
    destruct (H (not_found
                   (request_of tester
                      "https://api.github.com/repos/Sesquii/alpha/traffic/views"
                      (Some [("per", JStr "day")]))))
      as (w' & Hr & _).
    + exists 0%nat. repeat split; simpl; try lia; try reflexivity.
    + exists w'. exact Hr.
Defined.

(** ** Commit aggregator: the totals *)

Lemma fetch_details_returns E self owner repo :
  raises_only_request_exceptions E ->
  forall commits w,
    exists details w',
      fetch_details E self owner repo commits w = (Ret details, w')
      /\ List.length details = List.length commits.
Proof.
  intros Hpolite. induction commits as [|commit rest IH]; intros w.
  - exists [], w. split; reflexivity.
  - destruct (make_request_returns E self CommitEP
                (detail_url self owner repo commit) None w Hpolite)
      as (d & w1 & Hd).
    destruct (IH w1) as (ds & w2 & Hds & Hlen).
    exists (d :: ds), w2. split.
    + cbn [fetch_details]. rewrite (bind_Ret _ _ _ _ _ Hd).
      rewrite (bind_Ret _ _ _ _ _ Hds). reflexivity.
    + simpl. now rewrite Hlen.
Qed.

(** C3.  Once [get_commits] has returned the commits of the day window,
    [get_commit_stats] asks for the detail of each in order and returns:
    [commits], their number; [additions] and [deletions], the sums over the
    answers of the stats they carry, an answer without stats object and a
    failed fetch ([None]) counting zero; [net_change], the difference of the
    two sums.  The fetches return, failed or not, whenever the server raises
    nothing but request exceptions. *)
Theorem get_commit_stats_totals :
  forall (E : environment) (fuel : nat) (self : GitHubScraper)
    (owner repo : string) (since until : datetime E) (w : world)
    (commits : list api_commit) (w1 : world),
    get_commits E fuel self owner repo since until w = (Ret commits, w1) ->
    (forall details w2,
        fetch_details E self owner repo commits w1 = (Ret details, w2) ->
        get_commit_stats E fuel self owner repo since until w
        = (Ret {| c_commits := Z.of_nat (List.length commits);
                  c_additions := sum_Z (map additions_of details);
                  c_deletions := sum_Z (map deletions_of details);
                  c_net_change :=
                    (sum_Z (map additions_of details)
                     - sum_Z (map deletions_of details))%Z |},
           w2))
    /\ (raises_only_request_exceptions E ->
        exists details w2,
          fetch_details E self owner repo commits w1 = (Ret details, w2)
          /\ List.length details = List.length commits).
Proof.
  intros E fuel self owner repo since until w commits w1 Hc. split.
  - intros details w2 Hd.
    destruct (sum_commit_details_totals E self owner repo commits 0%Z 0%Z w1
                details w2 Hd) as [Hsum _].
    unfold get_commit_stats. rewrite (bind_Ret _ _ _ _ _ Hc).
    rewrite (bind_Ret _ _ _ _ _ Hsum). reflexivity.
  - intros Hpolite. apply fetch_details_returns. exact Hpolite.
Qed.

Definition commit_with_stats (rq : request) (sha : string)
    (additions deletions : Z) : attempt commit_detail :=
  ok rq {| detail_sha := sha;
           detail_stats := Some {| stats_additions := Some additions;
                                   stats_deletions := Some deletions |} |}.

(** Three commits on the day, with additions 5, 0, 3 and deletions 1, 2, 0;
    the list is attempt 0, the details are attempts 1 to 3. *)
Definition three_commits : list api_commit :=
  [ {| sha := "a1" |}; {| sha := "b2" |}; {| sha := "c3" |} ].

Definition three_commits_detail (n : nat) (rq : request)
  : attempt commit_detail :=
  match n with
  | 1 => commit_with_stats rq "a1" 5 1
  | 2 => commit_with_stats rq "b2" 0 2
  | 3 => commit_with_stats rq "c3" 3 0
  | _ => Responded (not_found rq)
  end%nat.

Definition three_commits_env : environment :=
  test_env (stub_server [] [three_commits] no_traffic_answer
              three_commits_detail).

Lemma get_commit_stats_totals_witness :
  exists w',
    get_commit_stats three_commits_env 1 tester "Sesquii" "alpha"
      (7, (0, 0, 0, 0))%Z (7, (23, 59, 59, 999999))%Z empty_world
    = (Ret {| c_commits := 3; c_additions := 8; c_deletions := 3;
              c_net_change := 5 |}, w').
Proof.
  destruct (get_commits three_commits_env 1 tester "Sesquii" "alpha"
              (7, (0, 0, 0, 0))%Z (7, (23, 59, 59, 999999))%Z empty_world)
    as [r w1] eqn:Hc.
  assert (Hr : r = Ret three_commits).
  { apply (f_equal fst) in Hc. vm_compute in Hc. now subst r. }
  subst r.
  destruct (fetch_details three_commits_env tester "Sesquii" "alpha"
              three_commits w1) as [r w2] eqn:Hd.
  assert (Hr : r = Ret [Some {| detail_sha := "a1";
                                detail_stats :=
                                  Some {| stats_additions := Some 5%Z;
                                          stats_deletions := Some 1%Z |} |};
                        Some {| detail_sha := "b2";
                                detail_stats :=
                                  Some {| stats_additions := Some 0%Z;
                                          stats_deletions := Some 2%Z |} |};
                        Some {| detail_sha := "c3";
                                detail_stats :=
                                  Some {| stats_additions := Some 3%Z;
                                          stats_deletions := Some 0%Z |} |}]).
  { apply (f_equal snd) in Hc. simpl in Hc. subst w1.
    apply (f_equal fst) in Hd. vm_compute in Hd. now subst r. }
  subst r.
  destruct (get_commit_stats_totals three_commits_env 1 tester "Sesquii"
              "alpha" (7, (0, 0, 0, 0))%Z (7, (23, 59, 59, 999999))%Z
              empty_world three_commits w1 Hc) as [H _].
  exists w2. exact (H _ w2 Hd).
Defined.

(** ** Run-level orchestration *)

Lemma bind_Ret_inv {A B} (m : M A) (k : A -> M B) w b w' :
  bind m k w = (Ret b, w') ->
  exists a w1, m w = (Ret a, w1) /\ k a w1 = (Ret b, w').
Proof.
  unfold bind. destruct (m w) as [[a|e|] w1]; intros H; try discriminate.
  now exists a, w1.
Qed.

(** A snapshot carries the target date and the identity of its repository,
    which has a full name. *)
Lemma get_repo_stats_identity E fuel self repo target_date w s w' :
  get_repo_stats E fuel self repo target_date w = (Ret s, w') ->
  s_date s = Some target_date
  /\ repo_full_name repo = Some (r_full_name (s_repository s))
  /\ r_name (s_repository s) = repo_name repo
  /\ r_owner (s_repository s) = repo_owner_login repo.
Proof.
  unfold get_repo_stats. intros H.
  do 5 (apply bind_Ret_inv in H; destruct H as (? & ? & _ & H)).
  apply bind_Ret_inv in H as (full_name & w1 & Hname & H).
  apply bind_Ret_inv in H as (scraped & w2 & _ & H).
  unfold getitem in Hname.
  destruct (repo_full_name repo) as [name|]; [|discriminate].
  inversion Hname; subst. inversion H; subst. simpl. repeat split; reflexivity.
Qed.

(** The world after the handler of [scrape_all_repos] has reported [e] for
    the repository with the full name [full_name]. *)
Definition skipped_line (full_name : string) (e : exn) : string :=
  "Error processing " ++ full_name ++ ": " ++ exn_msg e.

Definition skipped (full_name : string) (e : exn) (w : world) : world :=
  {| files := files w;
     stdout := (stdout w ++ [skipped_line full_name e])%list;
     sent := sent w; attempts := attempts w; ticks := ticks w |}.

(** The assemblies of a run, repository by repository in enumeration order:
    each returns a snapshot ([Some]) or raises and is reported under the
    full name of its repository ([None]); the next starts in the world the
    previous one left. *)
Inductive assembled (E : environment) (fuel : nat) (self : GitHubScraper)
    (target_date : string)
  : list api_repo -> world -> list (option snapshot) -> world -> Prop :=
  | assembled_nil w : assembled E fuel self target_date [] w [] w
  | assembled_ok repo rest w s w1 outs w2 :
      get_repo_stats E fuel self repo target_date w = (Ret s, w1) ->
      assembled E fuel self target_date rest w1 outs w2 ->
      assembled E fuel self target_date (repo :: rest) w (Some s :: outs) w2
  | assembled_raised repo full_name rest w e w1 outs w2 :
      get_repo_stats E fuel self repo target_date w = (Raise e, w1) ->
      repo_full_name repo = Some full_name ->
      assembled E fuel self target_date rest (skipped full_name e w1) outs
        w2 ->
      assembled E fuel self target_date (repo :: rest) w (None :: outs) w2.

(** The snapshots among the outcomes, in order. *)
Fixpoint successes (outs : list (option snapshot)) : list snapshot :=
  match outs with
  | [] => []
  | Some s :: rest => s :: successes rest
  | None :: rest => successes rest
  end.

(** The snapshot of an outcome is the snapshot of its repository. *)
Definition snapshot_of (target_date : string) (repo : api_repo)
    (out : option snapshot) : Prop :=
  match out with
  | Some s =>
      s_date s = Some target_date
      /\ repo_full_name repo = Some (r_full_name (s_repository s))
  | None => True
  end.

(** One turn of the loop that goes on to the next repository: the
    assembly returned, or it raised and the handler could name the
    repository. *)
Lemma scrape_turn_inv E fuel self target_date repo all_stats w acc w1 :
  try_except
    (stats <- get_repo_stats E fuel self repo target_date ;;
     ret (all_stats ++ [stats])%list)
    is_Exception
    (fun e =>
       full_name <- getitem "full_name" (repo_full_name repo) ;;
       print ("Error processing " ++ full_name ++ ": " ++ exn_msg e) ;;;
       ret all_stats) w
  = (Ret acc, w1) ->
  (exists s,
      get_repo_stats E fuel self repo target_date w = (Ret s, w1)
      /\ acc = (all_stats ++ [s])%list)
  \/ (exists e w0 full_name,
         get_repo_stats E fuel self repo target_date w = (Raise e, w0)
         /\ repo_full_name repo = Some full_name
         /\ acc = all_stats
         /\ w1 = skipped full_name e w0).
Proof.
  intros Htry. unfold try_except in Htry.
  destruct (get_repo_stats E fuel self repo target_date w)
    as [[s|e|] w0] eqn:Hg.
  - rewrite (bind_Ret _ _ _ _ _ Hg) in Htry. inversion Htry; subst.
    left. now exists s.
  - rewrite (bind_Raise _ _ _ _ _ Hg) in Htry.
    cbv beta iota delta [is_Exception] in Htry.
    destruct (repo_full_name repo) as [full_name|]; [|discriminate].
    inversion Htry; subst.
    right. exists e, w0, full_name. repeat split.
  - rewrite (bind_Timeout _ _ _ _ Hg) in Htry. discriminate.
Qed.

Lemma scrape_loop_assembled E fuel self target_date :
  forall repos w outs w',
    assembled E fuel self target_date repos w outs w' ->
    forall all_stats,
      scrape_loop E fuel self target_date repos all_stats w
      = (Ret (all_stats ++ successes outs)%list, w')
      /\ Forall2 (snapshot_of target_date) repos outs.
Proof.
  induction 1 as [w | repo rest w s w1 outs w2 Hs _ IH
                 | repo full_name rest w e w1 outs w2 He Hname _ IH];
    intros all_stats.
  - simpl. rewrite app_nil_r. split; [reflexivity | constructor].
  - destruct (IH (all_stats ++ [s])%list) as [Hl Hf]. split.
    + cbn [scrape_loop successes].
      rewrite (bind_Ret _ _ w (all_stats ++ [s])%list w1).
      * rewrite Hl. now rewrite <- app_assoc.
      * apply try_except_Ret. now rewrite (bind_Ret _ _ _ _ _ Hs).
    + constructor; [|exact Hf].
      destruct (get_repo_stats_identity _ _ _ _ _ _ _ _ Hs) as (Hd & Hn & _).
      split; assumption.
  - destruct (IH all_stats) as [Hl Hf]. split.
    + cbn [scrape_loop successes].
      rewrite (bind_Ret _ _ w all_stats (skipped full_name e w1)).
      * exact Hl.
      * rewrite (try_except_caught _ _ _ _ e w1);
          [now rewrite Hname | |reflexivity].
        now rewrite (bind_Raise _ _ _ _ _ He).
    + constructor; [exact I | exact Hf].
Qed.

(** Unless an assembly runs out of fuel, every repository has its outcome,
    when each has a full name to be reported under. *)
Lemma assembled_total E fuel self target_date :
  forall repos,
    (forall repo, In repo repos -> repo_full_name repo <> None) ->
    (forall repo w,
        In repo repos ->
        fst (get_repo_stats E fuel self repo target_date w) <> Timeout) ->
    forall w,
    exists outs w',
      assembled E fuel self target_date repos w outs w'
      /\ List.length outs = List.length repos.
Proof.
  induction repos as [|repo rest IH]; intros Hnamed Hfuel w.
  - exists [], w. split; [constructor | reflexivity].
  - assert (Hrest : forall r w0, In r rest ->
              fst (get_repo_stats E fuel self r target_date w0) <> Timeout).
    { intros r w0 Hin. apply Hfuel. now right. }
    assert (Hnamed' : forall r, In r rest -> repo_full_name r <> None).
    { intros r Hin. apply Hnamed. now right. }
    pose proof (Hfuel repo w (or_introl eq_refl)) as Hrepo.
    pose proof (Hnamed repo (or_introl eq_refl)) as Hname.
    destruct (get_repo_stats E fuel self repo target_date w)
      as [[s|e|] w1] eqn:Hg.
    + destruct (IH Hnamed' Hrest w1) as (outs & w2 & Ha & Hlen).
      exists (Some s :: outs), w2. split.
      * now apply assembled_ok with (w1 := w1).
      * simpl. now rewrite Hlen.
    + destruct (repo_full_name repo) as [full_name|] eqn:Hfn;
        [|now contradiction Hname].
      destruct (IH Hnamed' Hrest (skipped full_name e w1))
        as (outs & w2 & Ha & Hlen).
      exists (None :: outs), w2. split.
      * now apply assembled_raised
          with (full_name := full_name) (e := e) (w1 := w1).
      * simpl. now rewrite Hlen.
    + now contradiction Hrepo.
Qed.

(** The world when the enumeration starts: the clock read once, the target
    date announced. *)
Definition started_line (target_date : string) : string :=
  "Collecting data for date: " ++ target_date ++ " (7 days ago)".

Definition started (target_date : string) (w : world) : world :=
  {| files := files w;
     stdout := (stdout w ++ [started_line target_date])%list;
     sent := sent w; attempts := attempts w; ticks := S (ticks w) |}.

(** What the handler does achieve.  Let the enumeration return [repos],
    each with its full name.  Then [scrape_all_repos] returns, whatever
    number of assemblies raised: its result is the snapshots of the
    repositories whose assembly returned, in enumeration order, each
    carrying the target date and the name of its repository; an assembly
    that raised is reported on the console and skipped.  Every repository
    gets its outcome unless an assembly itself never returns. *)
Lemma scrape_all_repos_skips_failures :
  forall (E : environment) (fuel : nat) (self : GitHubScraper)
    (days_ago : Z) (w : world) (target : datetime E)
    (repos : list api_repo) (w1 : world),
    let target_date := strftime_ymd E target in
    minus_days E (clock E (ticks w)) days_ago = Some target ->
    get_all_repos E fuel self (started target_date w) = (Ret repos, w1) ->
    (forall outs w2,
        assembled E fuel self target_date repos w1 outs w2 ->
        scrape_all_repos E fuel self days_ago w = (Ret (successes outs), w2)
        /\ Forall2 (snapshot_of target_date) repos outs)
    /\ ((forall repo, In repo repos -> repo_full_name repo <> None) ->
        (forall repo w0,
            In repo repos ->
            fst (get_repo_stats E fuel self repo target_date w0) <> Timeout) ->
        exists outs w2,
          assembled E fuel self target_date repos w1 outs w2
          /\ List.length outs = List.length repos).
Proof.
  intros E fuel self days_ago w target repos w1 target_date Hminus Hrepos.
  split.
  - intros outs w2 Hrun.
    destruct (scrape_loop_assembled E fuel self target_date repos w1 outs w2
                Hrun []) as [Hloop Hsnap].
    split; [|exact Hsnap].
    unfold scrape_all_repos.
    unfold bind at 1. unfold now at 1.
    unfold bind at 1. unfold days_before at 1. rewrite Hminus. unfold ret at 1.
    unfold bind at 1. unfold print at 1.
    fold target_date. fold (started target_date w).
    rewrite (bind_Ret _ _ _ _ _ Hrepos). exact Hloop.
  - intros Hnamed Hfuel. now apply assembled_total.
Qed.

(** Where the handler fails.  It reports the repository by
    [repo['full_name']]: for an element of the list without that key the
    assembly raises ([KeyError] at the latest when the snapshot is put
    together), the handler raises [KeyError] in its turn, and the loop
    ends there with that exception, the repositories after it
    unprocessed. *)
Lemma scrape_loop_handler_raises E fuel self target_date repo rest all_stats
    w :
  repo_full_name repo = None ->
  fst (get_repo_stats E fuel self repo target_date w) <> Timeout ->
  exists w',
    scrape_loop E fuel self target_date (repo :: rest) all_stats w
    = (Raise (mk_exn KeyError "'full_name'" None), w').
Proof.
  intros Hname Hfuel. cbn [scrape_loop].
  destruct (get_repo_stats E fuel self repo target_date w)
    as [[s|e|] w1] eqn:Hg.
  - destruct (get_repo_stats_identity _ _ _ _ _ _ _ _ Hg) as (_ & Hn & _).
    congruence.
  - exists w1. apply bind_Raise.
    rewrite (try_except_caught _ _ _ _ e w1); [|now rewrite bind_Raise with (e := e) (w' := w1)|reflexivity].
    rewrite Hname. reflexivity.
  - now contradiction Hfuel.
Qed.

(** Three repositories; the views request for the second one raises an
    exception that is not a request exception. *)
Definition flaky_traffic (_ : nat) (rq : request) : attempt traffic_data :=
  if String.eqb (req_url rq)
       "https://api.github.com/repos/Sesquii/beta/traffic/views"
  then Raised (mk_exn RuntimeError "unexpected failure" None)
  else ok rq {| td_views := Some []; td_clones := None; td_other := [] |}.

Definition flaky_env : environment :=
  test_env
    (stub_server
       [[sample_repo "alpha"; sample_repo "beta"; sample_repo "gamma"]] []
       flaky_traffic no_detail).

Lemma scrape_all_repos_skips_failures_witness :
  exists result w',
    scrape_all_repos flaky_env 1 tester 7 empty_world = (Ret result, w')
    /\ map (fun s => r_name (s_repository s)) result = ["alpha"; "gamma"].
Proof.
  edestruct (scrape_all_repos_skips_failures flaky_env 1 tester 7 empty_world)
    as [H _].
  - reflexivity.
  - cbv. reflexivity.
  - edestruct H as [Hr _].
    + eapply assembled_ok; [cbv; reflexivity|].
      eapply assembled_raised; [cbv; reflexivity | reflexivity |].
      eapply assembled_ok; [cbv; reflexivity|].
      apply assembled_nil.
    + eexists. eexists. split; [exact Hr | reflexivity].
Defined.

(** Three repositories again, each answered in full; the list element of the
    second one has no ["full_name"]. *)
Definition unnamed_repo (name : string) : api_repo :=
  {| repo_owner_login := "Sesquii";
     repo_name := name;
     repo_full_name := None;
     repo_private := Some false;
     repo_description := None;
     repo_html_url := Some ("https://github.com/Sesquii/" ++ name);
     repo_language := Some "Python";
     repo_stargazers_count := Some 2%Z;
     repo_forks_count := Some 0%Z;
     repo_watchers_count := Some 2%Z;
     repo_open_issues_count := None |}.

Definition unnamed_env : environment :=
  test_env
    (stub_server
       [[sample_repo "alpha"; unnamed_repo "beta"; sample_repo "gamma"]] []
       no_traffic_answer no_detail).

(** C7, where the code departs from the claim.  The failure of one
    repository aborts the run when the handler cannot name it: with the
    second of three list elements lacking ["full_name"], its assembly
    raises [KeyError], the handler evaluates [repo['full_name']] for its
    message and raises [KeyError] again, and [scrape_all_repos] ends with
    that exception instead of returning the snapshots of the first and the
    third repository; the third is never asked about (the requests sent
    are the list, then views, clones and commits of the first two). *)
Theorem scrape_all_repos_aborted_by_handler :
  exists w',
    scrape_all_repos unnamed_env 1 tester 7 empty_world
    = (Raise (mk_exn KeyError "'full_name'" None), w')
    /\ map req_url (sent w')
       = ["https://api.github.com/users/Sesquii/repos";
          "https://api.github.com/repos/Sesquii/alpha/traffic/views";
          "https://api.github.com/repos/Sesquii/alpha/traffic/clones";
          "https://api.github.com/repos/Sesquii/alpha/commits";
          "https://api.github.com/repos/Sesquii/beta/traffic/views";
          "https://api.github.com/repos/Sesquii/beta/traffic/clones";
          "https://api.github.com/repos/Sesquii/beta/commits"].
Proof. eexists. split; vm_compute; reflexivity. Qed.

(** ** Historical merge store: loading *)

Definition empty_store : list (string * json) :=
  [("historical_data", JList [])].

(** Two worlds that differ at most in what was printed. *)
Definition same_but_stdout (w w' : world) : Prop :=
  files w' = files w /\ sent w' = sent w /\ attempts w' = attempts w
  /\ ticks w' = ticks w.

Lemma same_but_stdout_refl w : same_but_stdout w w.
Proof. repeat split. Qed.

Lemma load_historical_data_absent filename w :
  files w filename = None ->
  load_historical_data filename w = (Ret (JDict empty_store), w).
Proof.
  intros H. unfold load_historical_data, bind, path_exists. now rewrite H.
Qed.

Lemma load_historical_data_parsed filename w f v :
  files w filename = Some f ->
  json_view f = inr v ->
  load_historical_data filename w = (Ret v, w).
Proof.
  intros Hf Hv. unfold load_historical_data, bind, path_exists. rewrite Hf.
  unfold try_except, read_json. now rewrite Hf, Hv.
Qed.

Lemma load_historical_data_recovered filename w f e :
  files w filename = Some f ->
  json_view f = inl e ->
  is_JSONDecodeError_or_IOError (exn_class_of e) = true ->
  exists w',
    load_historical_data filename w = (Ret (JDict empty_store), w')
    /\ same_but_stdout w w'
    /\ stdout w'
       = app (stdout w)
           ["Warning: Could not load existing data: " ++ exn_msg e].
Proof.
  intros Hf Hv Hc. unfold load_historical_data, bind, path_exists. rewrite Hf.
  unfold try_except, read_json. rewrite Hf, Hv, Hc.
  eexists. split; [reflexivity|]. split; [repeat split | reflexivity].
Qed.

Lemma load_historical_data_propagates filename w f e :
  files w filename = Some f ->
  json_view f = inl e ->
  is_JSONDecodeError_or_IOError (exn_class_of e) = false ->
  load_historical_data filename w = (Raise e, w).
Proof.
  intros Hf Hv Hc. unfold load_historical_data, bind, path_exists. rewrite Hf.
  unfold try_except, read_json. now rewrite Hf, Hv, Hc.
Qed.

(** A file whose bytes are not UTF-8: reading it as text raises
    [UnicodeDecodeError], whichever reader asks. *)
Definition undecodable_file : file :=
  {| json_view :=
       inl (mk_exn UnicodeDecodeError
              "'utf-8' codec can't decode byte 0xff in position 0: invalid start byte"
              None);
     csv_view :=
       inl (mk_exn UnicodeDecodeError
              "'utf-8' codec can't decode byte 0xff in position 0: invalid start byte"
              None);
     writable := true |}.

Definition world_with_file (filename : string) (f : file) : world :=
  {| files := fun p => if String.eqb p filename then Some f else None;
     stdout := []; sent := []; attempts := 0; ticks := 0 |}.

(** C9, where the code departs from the claim.  The store file exists and
    cannot be parsed, because its bytes are not UTF-8 text:
    [load_historical_data] does not return the empty store, it lets the
    [UnicodeDecodeError] through, which its [except] clause does not
    name. *)
Theorem load_historical_data_undecodable :
  load_historical_data "github_repo_data.json"
    (world_with_file "github_repo_data.json" undecodable_file)
  = (Raise
       (mk_exn UnicodeDecodeError
          "'utf-8' codec can't decode byte 0xff in position 0: invalid start byte"
          None),
     world_with_file "github_repo_data.json" undecodable_file).
Proof. reflexivity. Qed.

(** What the claim gets right: the parsed store when the file parses, the
    empty store when the file is absent, and the empty store with a warning
    when reading raises [JSONDecodeError] or [OSError]. *)
Lemma load_historical_data_cases filename w :
  match files w filename with
  | None => load_historical_data filename w = (Ret (JDict empty_store), w)
  | Some f =>
      match json_view f with
      | inr v => load_historical_data filename w = (Ret v, w)
      | inl e =>
          if is_JSONDecodeError_or_IOError (exn_class_of e) then
            exists w',
              load_historical_data filename w = (Ret (JDict empty_store), w')
              /\ same_but_stdout w w'
          else load_historical_data filename w = (Raise e, w)
      end
  end.
Proof.
  destruct (files w filename) as [f|] eqn:Hf.
  - destruct (json_view f) as [e|v] eqn:Hv.
    + destruct (is_JSONDecodeError_or_IOError (exn_class_of e)) eqn:Hc.
      * destruct (load_historical_data_recovered filename w f e Hf Hv Hc)
          as (w' & H & Hs & _).
        now exists w'.
      * now apply load_historical_data_propagates with (f := f).
    + now apply load_historical_data_parsed with (f := f).
  - now apply load_historical_data_absent.
Qed.

(** ** Dicts *)

Lemma dict_get_set_eq {V} k (v : V) d : dict_get k (dict_set k v d) = Some v.
Proof.
  induction d as [|[k' v'] d IH]; simpl.
  - now rewrite String.eqb_refl.
  - destruct (String.eqb k k') eqn:Hk; simpl.
    + now rewrite String.eqb_refl.
    + now rewrite Hk.
Qed.

Lemma dict_get_set_ne {V} k k' (v : V) d :
  k <> k' -> dict_get k' (dict_set k v d) = dict_get k' d.
Proof.
  intros Hne. induction d as [|[k0 v0] d IH]; simpl.
  - destruct (String.eqb_spec k' k); [congruence | reflexivity].
  - destruct (String.eqb_spec k k0) as [->|Hk]; simpl.
    + destruct (String.eqb_spec k' k0); [congruence | reflexivity].
    + destruct (String.eqb_spec k' k0); [reflexivity | exact IH].
Qed.

Lemma dict_set_set {V} k (v v' : V) d :
  dict_set k v (dict_set k v' d) = dict_set k v d.
Proof.
  induction d as [|[k0 v0] d IH]; simpl.
  - now rewrite String.eqb_refl.
  - destruct (String.eqb k k0) eqn:Hk; simpl.
    + now rewrite String.eqb_refl.
    + now rewrite Hk, IH.
Qed.

(** ** Historical merge store: JSON backend *)

(** [entry.get("date")] of a stored entry. *)
Definition entry_date (entry : json) : option json :=
  match entry with
  | JDict d => dict_get "date" d
  | _ => None
  end.

(** The entry is of date [D]. *)
Definition has_date (D : string) (entry : json) : bool :=
  py_eq_str (entry_date entry) D.

(** A stored entry is a JSON object whose date, if it has one, is not a
    list or an object. *)
Definition well_formed_entry (entry : json) : bool :=
  match entry with
  | JDict d =>
      match dict_get "date" d with
      | Some (JList _) | Some (JDict _) => false
      | _ => true
      end
  | _ => false
  end.

(** Replace by date: the entries of other dates, then the new ones. *)
Definition merge_entries (D : string) (old new : list json) : list json :=
  (filter (fun entry => negb (has_date D entry)) old ++ new)%list.

(** The dict [load_historical_data] returns for a file that can be read (or
    is absent, or fails to parse) and can be written. *)
Definition store_dict (o : option file) : option (list (string * json)) :=
  match o with
  | None => Some empty_store
  | Some f =>
      if writable f then
        match json_view f with
        | inr (JDict d) => Some d
        | inr _ => None
        | inl e =>
            if is_JSONDecodeError_or_IOError (exn_class_of e)
            then Some empty_store
            else None
        end
      else None
  end.

(** The entries of a store: those under ["historical_data"], none when the
    key is missing. *)
Definition store_entries (d : list (string * json)) : option (list json) :=
  match dict_get "historical_data" d with
  | None => Some []
  | Some (JList entries) =>
      if forallb well_formed_entry entries then Some entries else None
  | Some _ => None
  end.

(** The file [json.dump] leaves. *)
Definition json_file (E : environment) (v : json) : file :=
  {| json_view := inr v; csv_view := json_text_as_csv E v; writable := true |}.

Lemma existing_dates_of_entries entries w :
  forallb well_formed_entry entries = true ->
  existing_dates_of entries w = (Ret (map entry_date entries), w).
Proof.
  induction entries as [|entry rest IH]; intros Hwf; simpl.
  - reflexivity.
  - simpl in Hwf. apply andb_prop in Hwf as [He Hrest].
    destruct entry as [| | | | |d]; try discriminate. simpl in He.
    unfold bind, py_get, ret. simpl.
    destruct (dict_get "date" d) as [[| | | | |]|]; try discriminate;
      unfold py_hash, ret; rewrite (IH Hrest); reflexivity.
Qed.

Lemma entries_of_other_dates_entries entries D w :
  forallb well_formed_entry entries = true ->
  entries_of_other_dates entries D w
  = (Ret (filter (fun entry => negb (has_date D entry)) entries), w).
Proof.
  induction entries as [|entry rest IH]; intros Hwf; simpl.
  - reflexivity.
  - simpl in Hwf. apply andb_prop in Hwf as [He Hrest].
    destruct entry as [| | | | |d]; try discriminate.
    unfold bind, py_get, ret. rewrite (IH Hrest). unfold has_date. simpl.
    now destruct (negb (py_eq_str (dict_get "date" d) D)).
Qed.

Lemma existsb_entry_dates D entries :
  existsb (fun d => py_eq_str d D) (map entry_date entries)
  = existsb (has_date D) entries.
Proof.
  induction entries as [|entry rest IH]; simpl; [reflexivity|].
  now rewrite IH.
Qed.

Lemma filter_no_date D entries :
  existsb (has_date D) entries = false ->
  filter (fun entry => negb (has_date D entry)) entries = entries.
Proof.
  induction entries as [|entry rest IH]; simpl; intros H; [reflexivity|].
  apply orb_false_elim in H as [He Hr]. rewrite He. simpl. now rewrite IH.
Qed.

Lemma load_historical_data_store filename w d :
  store_dict (files w filename) = Some d ->
  exists w1,
    load_historical_data filename w = (Ret (JDict d), w1)
    /\ same_but_stdout w w1.
Proof.
  unfold store_dict. intros H.
  destruct (files w filename) as [f|] eqn:Hf.
  - destruct (writable f); [|discriminate].
    destruct (json_view f) as [e|v] eqn:Hv.
    + destruct (is_JSONDecodeError_or_IOError (exn_class_of e)) eqn:Hc;
        [|discriminate].
      inversion H; subst d.
      destruct (load_historical_data_recovered filename w f e Hf Hv Hc)
        as (w1 & Hl & Hs & _).
      now exists w1.
    + destruct v as [| | | | |d']; try discriminate. inversion H; subst d'.
      exists w. split; [|apply same_but_stdout_refl].
      now apply load_historical_data_parsed with (f := f).
  - inversion H; subst d. exists w. split; [|apply same_but_stdout_refl].
    now apply load_historical_data_absent.
Qed.

Lemma store_dict_writable filename w d w1 :
  store_dict (files w filename) = Some d ->
  files w1 = files w ->
  open_for_writing filename w1 = (Ret tt, w1).
Proof.
  unfold store_dict, open_for_writing. intros H Hf. rewrite Hf.
  destruct (files w filename) as [f|]; [|reflexivity].
  destruct (writable f); [reflexivity | discriminate].
Qed.

Definition merged_store (E : environment) (D : string)
    (d : list (string * json)) (old : list json) (data : list snapshot)
    (tick : nat) : list (string * json) :=
  dict_set "last_updated" (JStr (isoformat E (clock E tick)))
    (dict_set "historical_data"
       (JList (merge_entries D old (map snapshot_to_json data))) d).

(** The tail of [save_to_json]: extend, stamp, dump, report. *)
Lemma save_to_json_tail E filename (h : list (string * json)) entries
    (data : list json) w :
  dict_get "historical_data" h = Some (JList entries) ->
  open_for_writing filename w = (Ret tt, w) ->
  exists w',
    (historical <- extend_historical_data h data ;;
     stamp <- now E ;;
     let historical :=
       dict_set "last_updated" (JStr (isoformat E stamp)) historical in
     json_dump E (JDict historical) filename ;;;
     print ("Data saved to " ++ filename ++ " (historical record)")) w
    = (Ret tt, w')
    /\ (forall p,
          files w' p
          = if String.eqb p filename
            then Some (json_file E
                         (JDict
                            (dict_set "last_updated"
                               (JStr (isoformat E (clock E (ticks w))))
                               (dict_set "historical_data"
                                  (JList (entries ++ data)) h))))
            else files w p)
    /\ sent w' = sent w /\ attempts w' = attempts w
    /\ ticks w' = S (ticks w).
Proof.
  intros Hh Hopen.
  eexists. split.
  - unfold bind at 1. unfold extend_historical_data at 1. rewrite Hh.
    unfold ret at 1. unfold bind at 1. unfold now at 1.
    cbv zeta. unfold json_dump. unfold bind at 1. unfold bind at 1.
    unfold open_for_writing in *. simpl files.
    destruct (files w filename) as [f|].
    + destruct (writable f); [|discriminate]. reflexivity.
    + reflexivity.
  - simpl. repeat split. 
Qed.

Lemma save_to_json_merge E data filename w D d old :
  data <> [] ->
  Forall (fun s => s_date s = Some D) data ->
  store_dict (files w filename) = Some d ->
  store_entries d = Some old ->
  exists w',
    save_to_json E data filename w = (Ret tt, w')
    /\ (forall p,
          files w' p
          = if String.eqb p filename
            then Some (json_file E
                         (JDict (merged_store E D d old data (ticks w))))
            else files w p)
    /\ sent w' = sent w /\ attempts w' = attempts w
    /\ ticks w' = S (ticks w).
Proof.
  intros Hne Hall Hd He.
  destruct data as [|first rest]; [contradiction|].
  assert (Hfirst : s_date first = Some D) by (now inversion Hall).
  destruct (load_historical_data_store filename w d Hd)
    as (w1 & Hload & Hf1 & Hs1 & Ha1 & Ht1).
  unfold save_to_json. rewrite (bind_Ret _ _ _ _ _ Hload). rewrite Hfirst.
  unfold store_entries in He.
  destruct (dict_get "historical_data" d) as [hdv|] eqn:Hhd.
  - destruct hdv as [| | | |entries|]; try discriminate.
    destruct (forallb well_formed_entry entries) eqn:Hwf; [|discriminate].
    inversion He; subst entries. clear He.
    rewrite (bind_Ret _ _ w1 (JList old) w1)
      by (unfold get_historical_data, bind, py_get, ret; now rewrite Hhd).
    rewrite (bind_Ret _ _ w1 old w1) by reflexivity.
    rewrite (bind_Ret _ _ _ _ _ (existing_dates_of_entries old w1 Hwf)).
    rewrite existsb_entry_dates.
    destruct (existsb (has_date D) old) eqn:Hex.
    + set (kept := filter (fun entry => negb (has_date D entry)) old).
      set (w2 := {| files := files w1;
                    stdout :=
                      app (stdout w1)
                        ["Warning: Data for " ++ D
                           ++ " already exists. Updating..."];
                    sent := sent w1; attempts := attempts w1;
                    ticks := ticks w1 |}).
      assert (Hinner :
                (print ("Warning: Data for " ++ D
                          ++ " already exists. Updating...") ;;;
                 hd <- get_historical_data (JDict d) ;;
                 entries <- py_iter hd ;;
                 kept <- entries_of_other_dates entries D ;;
                 ret (dict_set "historical_data" (JList kept) d)) w1
                = (Ret (dict_set "historical_data" (JList kept) d), w2)).
      { unfold bind at 1. unfold print at 1. fold w2.
        rewrite (bind_Ret _ _ w2 (JList old) w2)
          by (unfold get_historical_data, bind, py_get, ret; now rewrite Hhd).
        rewrite (bind_Ret _ _ w2 old w2) by reflexivity.
        rewrite (bind_Ret _ _ _ _ _ (entries_of_other_dates_entries old D w2 Hwf)).
        reflexivity. }
      rewrite (bind_Ret _ _ _ _ _ Hinner).
      unfold dict_mem. rewrite dict_get_set_eq. cbn [negb].
      destruct (save_to_json_tail E filename
                  (dict_set "historical_data" (JList kept) d) kept
                  (map snapshot_to_json (first :: rest)) w2
                  (dict_get_set_eq _ _ _)
                  (store_dict_writable filename w d w2 Hd Hf1))
        as (w' & Htail & Hfiles & Hs & Ha & Ht).
      exists w'. split; [exact Htail|]. split; [|simpl in *; repeat split; congruence].
      intros p. rewrite Hfiles. simpl. rewrite Hf1, Ht1.
      unfold merged_store, merge_entries. fold kept. now rewrite dict_set_set.
    + rewrite (bind_Ret _ _ w1 d w1) by reflexivity.
      unfold dict_mem. rewrite Hhd. cbn [negb].
      destruct (save_to_json_tail E filename d old
                  (map snapshot_to_json (first :: rest)) w1 Hhd
                  (store_dict_writable filename w d w1 Hd Hf1))
        as (w' & Htail & Hfiles & Hs & Ha & Ht).
      exists w'. split; [exact Htail|]. split; [|repeat split; congruence].
      intros p. rewrite Hfiles. rewrite Hf1, Ht1.
      unfold merged_store, merge_entries. now rewrite (filter_no_date D old Hex).
  - inversion He; subst old. clear He.
    rewrite (bind_Ret _ _ w1 (JList []) w1)
      by (unfold get_historical_data, bind, py_get, ret; now rewrite Hhd).
    rewrite (bind_Ret _ _ w1 [] w1) by reflexivity.
    rewrite (bind_Ret _ _ w1 [] w1) by reflexivity.
    cbn [existsb].
    rewrite (bind_Ret _ _ w1 d w1) by reflexivity.
    unfold dict_mem. rewrite Hhd. cbn [negb].
    destruct (save_to_json_tail E filename
                (dict_set "historical_data" (JList []) d) []
                (map snapshot_to_json (first :: rest)) w1
                (dict_get_set_eq _ _ _)
                (store_dict_writable filename w d w1 Hd Hf1))
      as (w' & Htail & Hfiles & Hs & Ha & Ht).
    exists w'. split; [exact Htail|]. split; [|repeat split; congruence].
    intros p. rewrite Hfiles. rewrite Hf1, Ht1.
    unfold merged_store, merge_entries. simpl filter. now rewrite dict_set_set.
Qed.

Lemma has_date_snapshot D s :
  s_date s = Some D -> has_date D (snapshot_to_json s) = true.
Proof.
  intros H. unfold has_date, snapshot_to_json, entry_date. rewrite H. simpl.
  apply String.eqb_refl.
Qed.

Lemma well_formed_snapshot s : well_formed_entry (snapshot_to_json s) = true.
Proof.
  unfold well_formed_entry, snapshot_to_json. now destruct (s_date s).
Qed.

Lemma filter_all {A} (f : A -> bool) l :
  forallb f l = true -> filter f l = l.
Proof.
  induction l as [|x l IH]; simpl; [reflexivity|].
  intros H. apply andb_prop in H as [Hx Hl]. now rewrite Hx, IH.
Qed.

Lemma filter_none {A} (f : A -> bool) l :
  forallb f l = true -> filter (fun x => negb (f x)) l = [].
Proof.
  induction l as [|x l IH]; simpl; [reflexivity|].
  intros H. apply andb_prop in H as [Hx Hl]. now rewrite Hx, IH.
Qed.

Lemma filter_filter_neg {A} (f : A -> bool) l :
  filter f (filter (fun x => negb (f x)) l) = [].
Proof.
  induction l as [|x l IH]; simpl; [reflexivity|].
  destruct (f x) eqn:Hx; simpl; [exact IH | now rewrite Hx].
Qed.

Lemma filter_idem {A} (f : A -> bool) l :
  filter f (filter f l) = filter f l.
Proof.
  induction l as [|x l IH]; simpl; [reflexivity|].
  destruct (f x) eqn:Hx; simpl; [now rewrite Hx, IH | exact IH].
Qed.

Lemma snapshots_have_date D data :
  Forall (fun s => s_date s = Some D) data ->
  forallb (has_date D) (map snapshot_to_json data) = true.
Proof.
  induction 1 as [|s data Hs _ IH]; simpl; [reflexivity|].
  now rewrite (has_date_snapshot D s Hs), IH.
Qed.

(** After a merge the entries of date [D] are the new ones, in their
    order; the entries of other dates are the old ones, in their order. *)
Lemma merge_entries_of_date D old new :
  forallb (has_date D) new = true ->
  filter (has_date D) (merge_entries D old new) = new.
Proof.
  intros Hnew. unfold merge_entries. rewrite filter_app.
  rewrite filter_filter_neg. simpl. now apply filter_all.
Qed.

Lemma merge_entries_other_dates D old new :
  forallb (has_date D) new = true ->
  filter (fun entry => negb (has_date D entry)) (merge_entries D old new)
  = filter (fun entry => negb (has_date D entry)) old.
Proof.
  intros Hnew. unfold merge_entries. rewrite filter_app.
  rewrite filter_idem. rewrite (filter_none _ _ Hnew). apply app_nil_r.
Qed.

Lemma merge_entries_twice D old new :
  forallb (has_date D) new = true ->
  merge_entries D (merge_entries D old new) new = merge_entries D old new.
Proof.
  intros Hnew. unfold merge_entries at 1.
  now rewrite (merge_entries_other_dates D old new Hnew).
Qed.

Lemma merge_entries_well_formed D old new :
  forallb well_formed_entry old = true ->
  forallb well_formed_entry new = true ->
  forallb well_formed_entry (merge_entries D old new) = true.
Proof.
  intros Hold Hnew. unfold merge_entries. rewrite forallb_app, Hnew.
  rewrite andb_true_r. rewrite forallb_forall in *.
  intros x Hx. apply filter_In in Hx as [Hx _]. now apply Hold.
Qed.

(** ** Historical merge store: CSV backend *)

(** The line of the file that records a snapshot, column by column:
    date, repository (the full name), private, language, stars, forks,
    watchers, open_issues, views, views_uniques, clones, clones_uniques,
    commits, additions, deletions, net_change, scraped_at. *)
Definition csv_line (s : snapshot) : list string :=
  let repo := s_repository s in
  let traffic := s_traffic s in
  let commits := s_commits s in
  [default "" (s_date s);
   r_full_name repo;
   str_bool (r_private repo);
   default "" (r_language repo);
   str_int (r_stargazers_count repo);
   str_int (r_forks_count repo);
   str_int (r_watchers_count repo);
   str_int (r_open_issues_count repo);
   str_int (t_views traffic);
   str_int (t_views_uniques traffic);
   str_int (t_clones traffic);
   str_int (t_clones_uniques traffic);
   str_int (c_commits commits);
   str_int (c_additions commits);
   str_int (c_deletions commits);
   str_int (c_net_change commits);
   s_scraped_at s].

(** The date of a line: its first cell. *)
Definition line_date (line : list string) : string := nth 0 line "".

Definition line_has_date (D : string) (line : list string) : bool :=
  String.eqb (line_date line) D.

Definition merge_lines (D : string) (old new : list (list string))
  : list (list string) :=
  (filter (fun line => negb (line_has_date D line)) old ++ new)%list.

(** The lines of a CSV store that this program wrote (or of no file yet):
    the header is [fieldnames], every line has its seventeen cells, and the
    file can be written again. *)
Definition store_lines (o : option file) : option (list (list string)) :=
  match o with
  | None => Some []
  | Some f =>
      if writable f then
        match csv_view f with
        | inr [] => Some []
        | inr (header :: lines) =>
            if list_eq_dec string_dec header fieldnames then
              if forallb (fun line => (List.length line =? 17)%nat) lines
              then Some lines
              else None
            else None
        | inl _ => None
        end
      else None
  end.

(** The file [save_to_csv] leaves. *)
Definition csv_file (E : environment) (table : list (list string)) : file :=
  {| json_view := csv_text_as_json E table; csv_view := inr table;
     writable := true |}.

Ltac seventeen_cells line :=
  do 17 (destruct line as [|? line]; [discriminate|]);
  destruct line; [|discriminate].

Lemma dict_to_list_read line :
  List.length line = 17%nat ->
  _dict_to_list fieldnames (dict_reader_row fieldnames line) = inr line.
Proof. intros H. seventeen_cells line. reflexivity. Qed.

Lemma read_line_date line D :
  List.length line = 17%nat ->
  cell_eq_str (dict_get "date" (row_fields (dict_reader_row fieldnames line))) D
  = line_has_date D line.
Proof. intros H. seventeen_cells line. reflexivity. Qed.

Lemma dict_to_list_new_row s :
  _dict_to_list fieldnames (new_row s) = inr (csv_line s).
Proof.
  unfold _dict_to_list, new_row, csv_line. simpl.
  now destruct (r_language (s_repository s)).
Qed.

Lemma csv_line_date D s :
  s_date s = Some D -> line_has_date D (csv_line s) = true.
Proof.
  intros H. unfold line_has_date, line_date, csv_line. simpl. rewrite H.
  apply String.eqb_refl.
Qed.

Lemma csv_line_length s : List.length (csv_line s) = 17%nat.
Proof. reflexivity. Qed.

Lemma writerows_app names rows1 rows2 lines1 :
  writerows names rows1 = (lines1, None) ->
  writerows names (rows1 ++ rows2)
  = ((lines1 ++ fst (writerows names rows2))%list,
     snd (writerows names rows2)).
Proof.
  revert lines1. induction rows1 as [|row rows1 IH]; intros lines1 H; simpl in *.
  - inversion H; subst. simpl. now destruct (writerows names rows2).
  - destruct (_dict_to_list names row) as [e|line]; [discriminate|].
    destruct (writerows names rows1) as [lines err] eqn:Hw.
    inversion H; subst. rewrite (IH lines eq_refl).
    reflexivity.
Qed.

Lemma writerows_read lines :
  forallb (fun line => (List.length line =? 17)%nat) lines = true ->
  writerows fieldnames (map (dict_reader_row fieldnames) lines)
  = (lines, None).
Proof.
  induction lines as [|line lines IH]; intros H; [reflexivity|].
  simpl in H. apply andb_prop in H as [Hl Hrest].
  apply Nat.eqb_eq in Hl.
  cbn [map writerows]. rewrite (dict_to_list_read line Hl).
  now rewrite (IH Hrest).
Qed.

Lemma writerows_new data :
  writerows fieldnames (map new_row data) = (map csv_line data, None).
Proof.
  induction data as [|s data IH]; [reflexivity|].
  cbn [map writerows]. rewrite dict_to_list_new_row. now rewrite IH.
Qed.

Lemma filter_read_lines D lines :
  forallb (fun line => (List.length line =? 17)%nat) lines = true ->
  filter
    (fun row =>
       negb (cell_eq_str (dict_get "date" (row_fields row)) D))
    (map (dict_reader_row fieldnames) lines)
  = map (dict_reader_row fieldnames)
      (filter (fun line => negb (line_has_date D line)) lines).
Proof.
  induction lines as [|line lines IH]; intros H; [reflexivity|].
  simpl in H. apply andb_prop in H as [Hl Hrest].
  apply Nat.eqb_eq in Hl.
  cbn [map filter]. rewrite (read_line_date line D Hl).
  destruct (negb (line_has_date D line)); cbn [map]; now rewrite (IH Hrest).
Qed.

Lemma nonblank_lines lines :
  forallb (fun line => (List.length line =? 17)%nat) lines = true ->
  filter (fun row : list string => match row with [] => false | _ => true end)
    lines = lines.
Proof.
  intros H. apply filter_all. rewrite forallb_forall in *.
  intros line Hin. specialize (H line Hin). now destruct line.
Qed.

Lemma filter_lines_length D lines :
  forallb (fun line => (List.length line =? 17)%nat) lines = true ->
  forallb (fun line => (List.length line =? 17)%nat)
    (filter (fun line => negb (line_has_date D line)) lines) = true.
Proof.
  intros H. rewrite forallb_forall in *. intros x Hx.
  apply filter_In in Hx as [Hx _]. now apply H.
Qed.

Lemma writerows_merged D lines data :
  forallb (fun line => (List.length line =? 17)%nat) lines = true ->
  writerows fieldnames
    (filter
       (fun row => negb (cell_eq_str (dict_get "date" (row_fields row)) D))
       (map (dict_reader_row fieldnames) lines)
     ++ map new_row data)
  = (merge_lines D lines (map csv_line data), None).
Proof.
  intros H. rewrite (filter_read_lines D lines H).
  rewrite (writerows_app _ _ _ _
             (writerows_read _ (filter_lines_length D lines H))).
  now rewrite writerows_new.
Qed.

Lemma store_lines_writable filename w lines w1 :
  store_lines (files w filename) = Some lines ->
  files w1 = files w ->
  open_for_writing filename w1 = (Ret tt, w1).
Proof.
  unfold store_lines, open_for_writing. intros H Hf. rewrite Hf.
  destruct (files w filename) as [f|]; [|reflexivity].
  destruct (writable f); [reflexivity | discriminate].
Qed.

(** Reading the store gives the rows of its lines. *)
Lemma read_store_lines filename w lines :
  store_lines (files w filename) = Some lines ->
  forallb (fun line => (List.length line =? 17)%nat) lines = true
  /\ (file_exists <- path_exists filename ;;
      if file_exists then
        try_except (read_csv filename) is_Exception
          (fun e =>
             print ("Warning: Could not read existing CSV: " ++ exn_msg e) ;;;
             ret [])
      else ret []) w
     = (Ret (map (dict_reader_row fieldnames) lines), w).
Proof.
  unfold store_lines. intros H.
  unfold bind, path_exists, try_except, read_csv.
  destruct (files w filename) as [f|] eqn:Hf.
  - rewrite Hf. destruct (writable f); [|discriminate].
    destruct (csv_view f) as [e|[|header rows]] eqn:Hv; try discriminate.
    + inversion H; subst. split; reflexivity.
    + destruct (list_eq_dec string_dec header fieldnames) as [->|]; [|discriminate].
      destruct (forallb (fun line => (List.length line =? 17)%nat) rows) eqn:Hlen;
        [|discriminate].
      inversion H; subst. split; [exact Hlen|].
      unfold DictReader. now rewrite (nonblank_lines lines Hlen).
  - inversion H; subst. split; reflexivity.
Qed.

Lemma save_to_csv_merge E data filename w D lines :
  data <> [] ->
  Forall (fun s => s_date s = Some D) data ->
  D <> "" ->
  store_lines (files w filename) = Some lines ->
  exists w',
    save_to_csv E data filename w = (Ret tt, w')
    /\ (forall p,
          files w' p
          = if String.eqb p filename
            then Some (csv_file E
                         (fieldnames
                            :: merge_lines D lines (map csv_line data)))
            else files w p)
    /\ sent w' = sent w /\ attempts w' = attempts w /\ ticks w' = ticks w.
Proof.
  intros Hne Hall HD Hstore.
  destruct data as [|first rest]; [contradiction|].
  assert (Hfirst : s_date first = Some D) by (now inversion Hall).
  destruct (read_store_lines filename w lines Hstore) as [Hlen Hread].
  unfold save_to_csv.
  match goal with
  | |- context [bind (path_exists filename) ?k] =>
      assert (Hstep : forall K : list row_dict -> M unit,
                 bind (path_exists filename)
                   (fun file_exists =>
                      bind (if file_exists then
                              try_except (read_csv filename) is_Exception
                                (fun e =>
                                   print ("Warning: Could not read existing CSV: "
                                            ++ exn_msg e) ;;;
                                   ret [])
                            else ret [])
                        K) w
                 = K (map (dict_reader_row fieldnames) lines) w)
  end.
  { intros K. unfold bind in Hread |- *. unfold path_exists in Hread |- *.
    destruct (files w filename) as [f|].
    - destruct (try_except (read_csv filename) is_Exception _ w) as [[x| |] w0];
        inversion Hread; subst; reflexivity.
    - inversion Hread; subst. reflexivity. }
  rewrite Hstep. clear Hstep.
  rewrite Hfirst. cbn [default].
  assert (Htruthy : str_truthy D = true) by (destruct D; [contradiction | reflexivity]).
  rewrite Htruthy.
  destruct (filter
              (fun row =>
                 negb (cell_eq_str (dict_get "date" (row_fields row)) D))
              (map (dict_reader_row fieldnames) lines)
            ++ map new_row (first :: rest))%list as [|row0 rows0] eqn:Hrows.
  { apply app_eq_nil in Hrows as [_ Hnil]. discriminate. }
  rewrite <- Hrows. clear Hrows row0 rows0.
  unfold write_csv. rewrite (writerows_merged D lines (first :: rest) Hlen).
  unfold bind at 1.
  rewrite (bind_Ret _ _ _ _ _ (store_lines_writable filename w lines w Hstore eq_refl)).
  eexists. split; [reflexivity|].
  simpl. repeat split.
Qed.

(** ** Replace by date *)

Lemma line_lengths_new data :
  forallb (fun line => (List.length line =? 17)%nat) (map csv_line data) = true.
Proof. induction data as [|s data IH]; [reflexivity | exact IH]. Qed.

Lemma lines_have_date D data :
  Forall (fun s => s_date s = Some D) data ->
  forallb (line_has_date D) (map csv_line data) = true.
Proof.
  induction 1 as [|s data Hs _ IH]; simpl; [reflexivity|].
  now rewrite (csv_line_date D s Hs), IH.
Qed.

Lemma merge_lines_of_date D old new :
  forallb (line_has_date D) new = true ->
  filter (line_has_date D) (merge_lines D old new) = new.
Proof.
  intros Hnew. unfold merge_lines. rewrite filter_app.
  rewrite filter_filter_neg. simpl. now apply filter_all.
Qed.

Lemma merge_lines_other_dates D old new :
  forallb (line_has_date D) new = true ->
  filter (fun line => negb (line_has_date D line)) (merge_lines D old new)
  = filter (fun line => negb (line_has_date D line)) old.
Proof.
  intros Hnew. unfold merge_lines. rewrite filter_app.
  rewrite filter_idem. rewrite (filter_none _ _ Hnew). apply app_nil_r.
Qed.

Lemma merge_lines_twice D old new :
  forallb (line_has_date D) new = true ->
  merge_lines D (merge_lines D old new) new = merge_lines D old new.
Proof.
  intros Hnew. unfold merge_lines at 1.
  now rewrite (merge_lines_other_dates D old new Hnew).
Qed.

Lemma merge_lines_lengths D old new :
  forallb (fun line => (List.length line =? 17)%nat) old = true ->
  forallb (fun line => (List.length line =? 17)%nat) new = true ->
  forallb (fun line => (List.length line =? 17)%nat) (merge_lines D old new)
  = true.
Proof.
  intros Hold Hnew. unfold merge_lines. rewrite forallb_app, Hnew.
  rewrite andb_true_r. now apply filter_lines_length.
Qed.

Lemma store_lines_lengths o lines :
  store_lines o = Some lines ->
  forallb (fun line => (List.length line =? 17)%nat) lines = true.
Proof.
  unfold store_lines. destruct o as [f|]; [|intros H; now inversion H].
  destruct (writable f); [|discriminate].
  destruct (csv_view f) as [e|[|header rows]]; try discriminate.
  - intros H. now inversion H.
  - destruct (list_eq_dec string_dec header fieldnames); [|discriminate].
    destruct (forallb _ rows) eqn:Hl; [|discriminate].
    intros H. now inversion H; subst.
Qed.

Lemma store_lines_csv_file E lines :
  forallb (fun line => (List.length line =? 17)%nat) lines = true ->
  store_lines (Some (csv_file E (fieldnames :: lines))) = Some lines.
Proof.
  intros H. unfold store_lines, csv_file. cbn [writable csv_view].
  destruct (list_eq_dec string_dec fieldnames fieldnames) as [_|Hne];
    [|contradiction].
  now rewrite H.
Qed.

Lemma store_entries_well_formed d entries :
  store_entries d = Some entries ->
  forallb well_formed_entry entries = true.
Proof.
  unfold store_entries.
  destruct (dict_get "historical_data" d) as [[| | | |l|]|]; try discriminate.
  - destruct (forallb well_formed_entry l) eqn:H; [|discriminate].
    intros He. now inversion He; subst.
  - intros He. now inversion He.
Qed.

Lemma well_formed_snapshots data :
  forallb well_formed_entry (map snapshot_to_json data) = true.
Proof.
  induction data as [|s data IH]; [reflexivity|].
  cbn [map forallb]. now rewrite well_formed_snapshot, IH.
Qed.

Lemma store_entries_merged E D d old data tick :
  store_entries d = Some old ->
  store_entries (merged_store E D d old data tick)
  = Some (merge_entries D old (map snapshot_to_json data)).
Proof.
  intros Hold. unfold store_entries, merged_store.
  rewrite dict_get_set_ne by discriminate. rewrite dict_get_set_eq.
  rewrite merge_entries_well_formed; [reflexivity| |apply well_formed_snapshots].
  now apply store_entries_well_formed with (d := d).
Qed.

(** The merge of the JSON backend, in terms of the store before and
    after. *)
Lemma save_to_json_store E data filename w D d old :
  data <> [] ->
  Forall (fun s => s_date s = Some D) data ->
  store_dict (files w filename) = Some d ->
  store_entries d = Some old ->
  exists w',
    save_to_json E data filename w = (Ret tt, w')
    /\ store_dict (files w' filename)
       = Some (merged_store E D d old data (ticks w))
    /\ store_entries (merged_store E D d old data (ticks w))
       = Some (merge_entries D old (map snapshot_to_json data))
    /\ (forall p, p <> filename -> files w' p = files w p)
    /\ ticks w' = S (ticks w).
Proof.
  intros Hne Hall Hd He.
  destruct (save_to_json_merge E data filename w D d old Hne Hall Hd He)
    as (w' & Hsave & Hfiles & _ & _ & Ht).
  exists w'. split; [exact Hsave|]. split; [|split; [|split]].
  - rewrite Hfiles, String.eqb_refl. reflexivity.
  - now apply store_entries_merged.
  - intros p Hp. rewrite Hfiles.
    destruct (String.eqb_spec p filename); [contradiction | reflexivity].
  - exact Ht.
Qed.

(** The merge of the CSV backend, in terms of the store before and after. *)
Lemma save_to_csv_store E data filename w D lines :
  data <> [] ->
  Forall (fun s => s_date s = Some D) data ->
  D <> "" ->
  store_lines (files w filename) = Some lines ->
  exists w',
    save_to_csv E data filename w = (Ret tt, w')
    /\ store_lines (files w' filename)
       = Some (merge_lines D lines (map csv_line data))
    /\ (forall p, p <> filename -> files w' p = files w p)
    /\ ticks w' = ticks w.
Proof.
  intros Hne Hall HD Hs.
  destruct (save_to_csv_merge E data filename w D lines Hne Hall HD Hs)
    as (w' & Hsave & Hfiles & _ & _ & Ht).
  exists w'. split; [exact Hsave|]. split; [|split].
  - rewrite Hfiles, String.eqb_refl. apply store_lines_csv_file.
    apply merge_lines_lengths; [|apply line_lengths_new].
    now apply store_lines_lengths with (o := files w filename).
  - intros p Hp. rewrite Hfiles.
    destruct (String.eqb_spec p filename); [contradiction | reflexivity].
  - exact Ht.
Qed.


(** ** A store on disk *)

Definition sample_snapshot (name : string) (date : option string) : snapshot :=
  {| s_date := date;
     s_repository :=
       {| r_name := name;
          r_full_name := "Sesquii/" ++ name;
          r_owner := "Sesquii";
          r_private := false;
          r_description := None;
          r_url := Some ("https://github.com/Sesquii/" ++ name);
          r_language := Some "Python";
          r_stargazers_count := 2;
          r_forks_count := 0;
          r_watchers_count := 2;
          r_open_issues_count := 1 |};
     s_traffic :=
       {| t_views := 42; t_views_uniques := 7; t_clones := 3;
          t_clones_uniques := 2 |};
     s_commits :=
       {| c_commits := 3; c_additions := 8; c_deletions := 3;
          c_net_change := 5 |};
     s_scraped_at := "2024-01-14T09:30:00" |}.

Definition store_env : environment := test_env refusing_server.

Definition json_path : string := "github_repo_data.json".
Definition csv_path : string := "github_repo_data.csv".

(** Both stores hold [old]: the JSON file as entries, the CSV file as
    lines. *)
Definition stored_world (old : list snapshot) : world :=
  {| files :=
       fun p =>
         if String.eqb p json_path then
           Some (json_file store_env
                   (JDict [("historical_data",
                            JList (map snapshot_to_json old));
                           ("last_updated", JStr "2024-01-13T09:30:00")]))
         else if String.eqb p csv_path then
           Some (csv_file store_env (fieldnames :: map csv_line old))
         else None;
     stdout := []; sent := []; attempts := 0; ticks := 0 |}.

Definition two_days : list snapshot :=
  [sample_snapshot "alpha" (Some "2024-01-06");
   sample_snapshot "alpha" (Some "2024-01-07")].


(** ** Merging twice *)

(** C5.  Merging the same snapshots of date [D] twice in succession leaves
    the store with the entries it had after the first merge, those of date
    [D] being the snapshots once, in both backends ([D] a date, so not the
    empty string in the CSV half). *)
Theorem merge_twice_is_merge_once :
  forall (E : environment) (data : list snapshot) (D filename : string)
    (w : world),
    data <> [] ->
    Forall (fun s => s_date s = Some D) data ->
    (forall d old,
        store_dict (files w filename) = Some d ->
        store_entries d = Some old ->
        exists w1 w2 d1 d2 entries,
          save_to_json E data filename w = (Ret tt, w1)
          /\ save_to_json E data filename w1 = (Ret tt, w2)
          /\ store_dict (files w1 filename) = Some d1
          /\ store_entries d1 = Some entries
          /\ store_dict (files w2 filename) = Some d2
          /\ store_entries d2 = Some entries
          /\ filter (has_date D) entries = map snapshot_to_json data)
    /\ (D <> "" ->
        forall lines,
          store_lines (files w filename) = Some lines ->
          exists w1 w2 lines',
            save_to_csv E data filename w = (Ret tt, w1)
            /\ save_to_csv E data filename w1 = (Ret tt, w2)
            /\ store_lines (files w1 filename) = Some lines'
            /\ store_lines (files w2 filename) = Some lines'
            /\ filter (line_has_date D) lines' = map csv_line data).
Proof.
  intros E data D filename w Hne Hall. split.
  - intros d old Hd He.
    pose proof (snapshots_have_date D data Hall) as Hnew.
    destruct (save_to_json_store E data filename w D d old Hne Hall Hd He)
      as (w1 & Hsave1 & Hd1 & He1 & _ & _).
    destruct (save_to_json_store E data filename w1 D _ _ Hne Hall Hd1 He1)
      as (w2 & Hsave2 & Hd2 & He2 & _ & _).
    rewrite (merge_entries_twice D old _ Hnew) in He2.
    exists w1, w2. do 3 eexists.
    repeat split; try eassumption.
    now apply merge_entries_of_date.
  - intros HD lines Hs.
    pose proof (lines_have_date D data Hall) as Hnew.
    destruct (save_to_csv_store E data filename w D lines Hne Hall HD Hs)
      as (w1 & Hsave1 & Hs1 & _ & _).
    destruct (save_to_csv_store E data filename w1 D _ Hne Hall HD Hs1)
      as (w2 & Hsave2 & Hs2 & _ & _).
    rewrite (merge_lines_twice D lines _ Hnew) in Hs2.
    exists w1, w2. eexists.
    repeat split; try eassumption.
    now apply merge_lines_of_date.
Qed.

Lemma merge_twice_is_merge_once_witness :
  (exists w1 w2 d1 d2 entries,
      save_to_json store_env [sample_snapshot "beta" (Some "2024-01-07")]
        json_path (stored_world two_days) = (Ret tt, w1)
      /\ save_to_json store_env [sample_snapshot "beta" (Some "2024-01-07")]
           json_path w1 = (Ret tt, w2)
      /\ store_dict (files w1 json_path) = Some d1
      /\ store_entries d1 = Some entries
      /\ store_dict (files w2 json_path) = Some d2
      /\ store_entries d2 = Some entries)
  /\ (exists w1 w2 lines',
         save_to_csv store_env [sample_snapshot "beta" (Some "2024-01-07")]
           csv_path (stored_world two_days) = (Ret tt, w1)
         /\ save_to_csv store_env [sample_snapshot "beta" (Some "2024-01-07")]
              csv_path w1 = (Ret tt, w2)
         /\ store_lines (files w1 csv_path) = Some lines'
         /\ store_lines (files w2 csv_path) = Some lines').
Proof.
  assert (Hne : [sample_snapshot "beta" (Some "2024-01-07")] <> [])
    by discriminate.
  assert (Hall : Forall (fun s => s_date s = Some "2024-01-07")
                   [sample_snapshot "beta" (Some "2024-01-07")])
    by (repeat constructor).
  split.
  - destruct (merge_twice_is_merge_once store_env _ "2024-01-07" json_path
                (stored_world two_days) Hne Hall) as [Hjson _].
    destruct (Hjson _ (map snapshot_to_json two_days) eq_refl eq_refl)
      as (w1 & w2 & d1 & d2 & entries & H1 & H2 & H3 & H4 & H5 & H6 & _).
    exists w1, w2, d1, d2, entries. repeat split; assumption.
  - destruct (merge_twice_is_merge_once store_env _ "2024-01-07" csv_path
                (stored_world two_days) Hne Hall) as [_ Hcsv].
    destruct (Hcsv ltac:(discriminate) (map csv_line two_days) eq_refl)
      as (w1 & w2 & lines' & H1 & H2 & H3 & H4 & _).
    exists w1, w2, lines'. repeat split; assumption.
Defined.

(** ** The two backends agree *)

(** The documented column mapping: for each column of the CSV file, where
    its value sits in a JSON entry. *)
Definition column_mapping : list (string * list string) :=
  [("date", ["date"]);
   ("repository", ["repository"; "full_name"]);
   ("private", ["repository"; "private"]);
   ("language", ["repository"; "language"]);
   ("stars", ["repository"; "stargazers_count"]);
   ("forks", ["repository"; "forks_count"]);
   ("watchers", ["repository"; "watchers_count"]);
   ("open_issues", ["repository"; "open_issues_count"]);
   ("views", ["traffic"; "views"]);
   ("views_uniques", ["traffic"; "views_uniques"]);
   ("clones", ["traffic"; "clones"]);
   ("clones_uniques", ["traffic"; "clones_uniques"]);
   ("commits", ["commits"; "commits"]);
   ("additions", ["commits"; "additions"]);
   ("deletions", ["commits"; "deletions"]);
   ("net_change", ["commits"; "net_change"]);
   ("scraped_at", ["scraped_at"])].

(** The value at a path of keys. *)
Fixpoint json_at (path : list string) (v : json) : option json :=
  match path with
  | [] => Some v
  | key :: rest =>
      match v with
      | JDict d =>
          match dict_get key d with
          | Some v' => json_at rest v'
          | None => None
          end
      | _ => None
      end
  end.

(** A JSON scalar as the text of a CSV cell. *)
Definition json_cell_text (v : json) : option string :=
  match v with
  | JNull => Some ""
  | JBool b => Some (str_bool b)
  | JInt z => Some (str_int z)
  | JStr s => Some s
  | _ => None
  end.

Fixpoint all_some {A} (l : list (option A)) : option (list A) :=
  match l with
  | [] => Some []
  | Some x :: rest =>
      match all_some rest with
      | Some xs => Some (x :: xs)
      | None => None
      end
  | None :: _ => None
  end.

(** The CSV line that stands for a JSON entry under the mapping. *)
Definition entry_columns (entry : json) : option (list string) :=
  all_some
    (map (fun column =>
            match json_at (snd column) entry with
            | Some v => json_cell_text v
            | None => None
            end)
       column_mapping).

Lemma column_mapping_fieldnames : map fst column_mapping = fieldnames.
Proof. reflexivity. Qed.

Lemma entry_columns_snapshot D s :
  s_date s = Some D ->
  entry_columns (snapshot_to_json s) = Some (csv_line s).
Proof.
  intros H. unfold entry_columns, snapshot_to_json, csv_line. rewrite H.
  simpl. now destruct (r_language (s_repository s)).
Qed.

Lemma entry_columns_snapshots D data :
  Forall (fun s => s_date s = Some D) data ->
  map entry_columns (map snapshot_to_json data)
  = map Some (map csv_line data).
Proof.
  induction 1 as [|s data Hs _ IH]; [reflexivity|].
  cbn [map]. now rewrite (entry_columns_snapshot D s Hs), IH.
Qed.

(** Every snapshot of a run carries the run's target date. *)
Lemma scrape_loop_dates E fuel self target_date :
  forall repos all_stats w result w',
    Forall (fun s => s_date s = Some target_date) all_stats ->
    scrape_loop E fuel self target_date repos all_stats w = (Ret result, w') ->
    Forall (fun s => s_date s = Some target_date) result.
Proof.
  induction repos as [|repo rest IH]; intros all_stats w result w' Hacc Hrun.
  - simpl in Hrun. inversion Hrun; subst. exact Hacc.
  - cbn [scrape_loop] in Hrun.
    apply bind_Ret_inv in Hrun as (acc' & w1 & Htry & Hrest).
    apply (IH acc' w1 result w'); [|exact Hrest].
    destruct (scrape_turn_inv _ _ _ _ _ _ _ _ _ Htry)
      as [(s & Hg & ->) | (e & w0 & full_name & _ & _ & -> & _)].
    + apply Forall_app. split; [exact Hacc|].
      constructor; [|constructor].
      now destruct (get_repo_stats_identity _ _ _ _ _ _ _ _ Hg) as [Hd _].
    + exact Hacc.
Qed.

Lemma scrape_all_repos_dates E fuel self days_ago w target data w' :
  minus_days E (clock E (ticks w)) days_ago = Some target ->
  scrape_all_repos E fuel self days_ago w = (Ret data, w') ->
  Forall (fun s => s_date s = Some (strftime_ymd E target)) data.
Proof.
  intros Hminus Hrun. unfold scrape_all_repos in Hrun.
  apply bind_Ret_inv in Hrun as (today & w1 & Hnow & Hrun).
  unfold now in Hnow. inversion Hnow; subst today w1. clear Hnow.
  apply bind_Ret_inv in Hrun as (target' & w2 & Hdays & Hrun).
  unfold days_before in Hdays. simpl in Hdays. rewrite Hminus in Hdays.
  inversion Hdays; subst target' w2. clear Hdays.
  apply bind_Ret_inv in Hrun as (u & w3 & _ & Hrun).
  apply bind_Ret_inv in Hrun as (repos & w4 & _ & Hrun).
  apply (scrape_loop_dates E fuel self _ repos [] w4 data w'); [constructor|].
  exact Hrun.
Qed.

(** C6.  Take the snapshots a run returned, not none, for the date the run
    computed (a date as [strftime] prints it is not the empty string), and
    persist them to the JSON store and then to the CSV store, two files.
    Then the JSON entries of that date and the CSV lines of that date are
    the same repositories in the same order, each line being its entry
    under the column mapping: both are the run's snapshots. *)
Theorem json_and_csv_agree :
  forall (E : environment) (fuel : nat) (self : GitHubScraper)
    (days_ago : Z) (w0 w : world) (target : datetime E)
    (data : list snapshot) (json_file_name csv_file_name : string)
    (d : list (string * json)) (old : list json) (lines : list (list string)),
    let D := strftime_ymd E target in
    minus_days E (clock E (ticks w0)) days_ago = Some target ->
    scrape_all_repos E fuel self days_ago w0 = (Ret data, w) ->
    D <> "" ->
    data <> [] ->
    json_file_name <> csv_file_name ->
    store_dict (files w json_file_name) = Some d ->
    store_entries d = Some old ->
    store_lines (files w csv_file_name) = Some lines ->
    exists w1 w2 d' entries' lines',
      save_to_json E data json_file_name w = (Ret tt, w1)
      /\ save_to_csv E data csv_file_name w1 = (Ret tt, w2)
      /\ store_dict (files w2 json_file_name) = Some d'
      /\ store_entries d' = Some entries'
      /\ store_lines (files w2 csv_file_name) = Some lines'
      /\ filter (has_date D) entries' = map snapshot_to_json data
      /\ filter (line_has_date D) lines' = map csv_line data
      /\ map entry_columns (filter (has_date D) entries')
         = map Some (filter (line_has_date D) lines').
Proof.
  intros E fuel self days_ago w0 w target data jf cf d old lines D
    Hminus Hrun HD Hne Hpaths Hd He Hs.
  pose proof (scrape_all_repos_dates E fuel self days_ago w0 target data w
                Hminus Hrun) as Hall.
  fold D in Hall.
  destruct (save_to_json_store E data jf w D d old Hne Hall Hd He)
    as (w1 & Hsave1 & Hd1 & He1 & Hframe1 & _).
  assert (Hs1 : store_lines (files w1 cf) = Some lines).
  { rewrite Hframe1; [exact Hs | congruence]. }
  destruct (save_to_csv_store E data cf w1 D lines Hne Hall HD Hs1)
    as (w2 & Hsave2 & Hs2 & Hframe2 & _).
  exists w1, w2. do 3 eexists.
  split; [exact Hsave1|]. split; [exact Hsave2|].
  split; [rewrite Hframe2; [exact Hd1 | exact Hpaths]|].
  split; [exact He1|]. split; [exact Hs2|].
  rewrite (merge_entries_of_date D old _ (snapshots_have_date D data Hall)).
  rewrite (merge_lines_of_date D lines _ (lines_have_date D data Hall)).
  split; [reflexivity|]. split; [reflexivity|].
  now apply entry_columns_snapshots with (D := D).
Qed.

Lemma json_and_csv_agree_witness :
  exists data w w1 w2,
    scrape_all_repos flaky_env 1 tester 7 empty_world = (Ret data, w)
    /\ save_to_json flaky_env data json_path w = (Ret tt, w1)
    /\ save_to_csv flaky_env data csv_path w1 = (Ret tt, w2).
Proof.
  eassert (Hrun : scrape_all_repos flaky_env 1 tester 7 empty_world
                  = (Ret _, _)) by (cbv; reflexivity).
  assert (Hdate : strftime_ymd flaky_env (7, (9, 30, 0, 0))%Z <> "")
    by (cbv; discriminate).
  match type of Hrun with
  | _ = (Ret ?data, ?w) =>
      pose proof (json_and_csv_agree flaky_env 1%nat tester 7%Z empty_world w
                    (7, (9, 30, 0, 0))%Z data json_path csv_path empty_store
                    [] [] eq_refl Hrun Hdate ltac:(discriminate)
                    ltac:(discriminate) eq_refl eq_refl eq_refl) as H
  end.
  destruct H as (w1 & w2 & d' & entries' & lines' & H1 & H2 & _).
  do 2 eexists. exists w1, w2.
  split; [exact Hrun|]. split; [exact H1 | exact H2].
Defined.

(** ** An empty snapshot list *)

(** The JSON file can be loaded (it is absent, or holds JSON, or fails in
    a way [load_historical_data] recovers from) and can be written. *)
Definition loads_and_writes (o : option file) : bool :=
  match o with
  | None => true
  | Some f =>
      writable f
      && match json_view f with
         | inr _ => true
         | inl e => is_JSONDecodeError_or_IOError (exn_class_of e)
         end
  end.

Lemma load_historical_data_loads filename w :
  loads_and_writes (files w filename) = true ->
  exists v w1,
    load_historical_data filename w = (Ret v, w1) /\ same_but_stdout w w1.
Proof.
  unfold loads_and_writes. intros H.
  pose proof (load_historical_data_cases filename w) as Hc.
  destruct (files w filename) as [f|].
  - apply andb_prop in H as [_ H].
    destruct (json_view f) as [e|v].
    + rewrite H in Hc. destruct Hc as (w1 & Hl & Hs).
      exists (JDict empty_store), w1. split; assumption.
    + exists v, w. split; [exact Hc | apply same_but_stdout_refl].
  - exists (JDict empty_store), w.
    split; [exact Hc | apply same_but_stdout_refl].
Qed.

(** C10.  With an empty snapshot list [save_to_csv] prints that there is
    nothing to save and returns: no file changes.  [save_to_json] takes its
    branch for data without a date and writes the empty list itself to the
    JSON file, in place of whatever the file held, a store included; the
    other files stay as they were. *)
Theorem empty_list_csv_untouched_json_overwritten :
  forall (E : environment) (filename : string) (w : world),
    (exists w',
        save_to_csv E [] filename w = (Ret tt, w')
        /\ files w' = files w
        /\ stdout w' = app (stdout w) ["No data to save"])
    /\ (loads_and_writes (files w filename) = true ->
        exists w',
          save_to_json E [] filename w = (Ret tt, w')
          /\ files w' filename = Some (json_file E (JList []))
          /\ (forall p, p <> filename -> files w' p = files w p)).
Proof.
  intros E filename w. split.
  - eexists. split; [reflexivity|]. split; reflexivity.
  - intros Hok.
    destruct (load_historical_data_loads filename w Hok)
      as (v & w1 & Hload & Hf & _).
    assert (Hopen : open_for_writing filename w1 = (Ret tt, w1)).
    { unfold open_for_writing. rewrite Hf. unfold loads_and_writes in Hok.
      destruct (files w filename) as [f|]; [|reflexivity].
      apply andb_prop in Hok as [Hw _]. now rewrite Hw. }
    unfold save_to_json. rewrite (bind_Ret _ _ _ _ _ Hload).
    unfold json_dump. unfold bind at 1. rewrite (bind_Ret _ _ _ _ _ Hopen).
    eexists. split; [reflexivity|]. split.
    + simpl. now rewrite String.eqb_refl.
    + intros p Hp. simpl. rewrite Hf.
      destruct (String.eqb_spec p filename); [contradiction | reflexivity].
Qed.

Lemma empty_list_csv_untouched_json_overwritten_witness :
  exists w',
    save_to_json store_env [] json_path (stored_world two_days) = (Ret tt, w')
    /\ files w' json_path = Some (json_file store_env (JList [])).
Proof.
  destruct (empty_list_csv_untouched_json_overwritten store_env json_path
              (stored_world two_days)) as [_ H].
  destruct (H eq_refl) as (w' & Hsave & Hfile & _).
  exists w'. split; [exact Hsave | exact Hfile].
Defined.

(** * Further properties of the code *)

(** ** HTTP client adapter: what a request costs and changes *)

(** The adapter's send touches nothing but the attempt counter, which it
    advances by at least one and at most one more than the retries
    allowed; it returns or raises. *)
Lemma send_with_retries_frame E k forcelist rq :
  forall retries w r w',
    send_with_retries E k forcelist retries rq w = (r, w') ->
    files w' = files w /\ stdout w' = stdout w /\ sent w' = sent w
    /\ ticks w' = ticks w
    /\ (attempts w < attempts w' <= attempts w + S retries)%nat
    /\ r <> Timeout.
Proof.
  induction retries as [|retries IH]; intros w r w' H;
    cbn [send_with_retries] in H; unfold bind, send_once in H;
    destruct (server E k (attempts w) rq) as [msg|e|resp].
  - inversion H; subst. simpl. repeat split; try lia; discriminate.
  - inversion H; subst. simpl. repeat split; try lia; discriminate.
  - destruct (existsb (Z.eqb (status_code resp)) forcelist);
      inversion H; subst; simpl; repeat split; try lia; discriminate.
  - apply IH in H. simpl in H. destruct H as (Hf & Ho & Hs & Ht & Ha & Hr).
    repeat split; try assumption; lia.
  - inversion H; subst. simpl. repeat split; try lia; discriminate.
  - destruct (existsb (Z.eqb (status_code resp)) forcelist).
    + apply IH in H. simpl in H. destruct H as (Hf & Ho & Hs & Ht & Ha & Hr).
      repeat split; try assumption; lia.
    + inversion H; subst. simpl. repeat split; try lia; discriminate.
Qed.

Lemma make_request_frame :
  forall (E : environment) (self : GitHubScraper) (k : endpoint)
    (url : string) (params : option (list (string * json))) (w : world)
    (r : res (option (payload k))) (w' : world),
    _make_request E self k url params w = (r, w') ->
    sent w' = app (sent w) [request_of self url params]
    /\ (attempts w < attempts w'
        <= attempts w + S (total (max_retries (session self))))%nat
    /\ files w' = files w
    /\ ticks w' = ticks w
    /\ r <> Timeout
    /\ (forall v, r = Ret (Some v) -> stdout w' = stdout w).
Proof.
  intros E self k url params w r w' H.
  rewrite make_request_logged in H. unfold try_except in H.
  set (rq := request_of self url params) in *.
  destruct (send_with_retries E k (status_forcelist (max_retries (session self)))
              (total (max_retries (session self))) rq (logged rq w))
    as [sr w1] eqn:Hsend.
  destruct (send_with_retries_frame E k _ rq _ _ _ _ Hsend)
    as (Hf & Ho & Hs & Ht & Ha & Hr).
  simpl in Hf, Ho, Hs, Ht, Ha.
  destruct sr as [resp|e|]; [| |contradiction].
  - rewrite (bind_Ret _ _ _ _ _ Hsend) in H.
    unfold raise_for_status in H.
    destruct ((400 <=? status_code resp) && (status_code resp <? 500))%Z.
    { unfold bind at 1 in H. unfold raise at 1 in H. cbn [exn_class_of is_RequestException] in H.
      destruct (@make_request_handler (payload k) url
                  (mk_exn HTTPError
                     (str_int (status_code resp) ++ " Client Error: "
                        ++ resp_reason resp ++ " for url: " ++ resp_url resp)
                     (Some (resp_text resp))) w1)
        as (w2 & Hh & Hf2 & Hs2 & Ha2 & Ht2 & _).
      rewrite Hh in H. inversion H; subst r w'.
      repeat split; try congruence; try lia. }
    destruct ((500 <=? status_code resp) && (status_code resp <? 600))%Z.
    { unfold bind at 1 in H. unfold raise at 1 in H. cbn [exn_class_of is_RequestException] in H.
      destruct (@make_request_handler (payload k) url
                  (mk_exn HTTPError
                     (str_int (status_code resp) ++ " Server Error: "
                        ++ resp_reason resp ++ " for url: " ++ resp_url resp)
                     (Some (resp_text resp))) w1)
        as (w2 & Hh & Hf2 & Hs2 & Ha2 & Ht2 & _).
      rewrite Hh in H. inversion H; subst r w'.
      repeat split; try congruence; try lia. }
    unfold bind at 1 in H. unfold ret at 1 in H. unfold response_json in H.
    destruct (resp_json resp) as [v|].
    + unfold bind, ret in H. inversion H; subst r w'.
      repeat split; try congruence; try lia.
    + unfold bind at 1 in H. unfold raise at 1 in H. cbn [exn_class_of is_RequestException] in H.
      destruct (@make_request_handler (payload k) url
                  (mk_exn InvalidJSONError
                     "Expecting value: line 1 column 1 (char 0)" None) w1)
        as (w2 & Hh & Hf2 & Hs2 & Ha2 & Ht2 & _).
      rewrite Hh in H. inversion H; subst r w'.
      repeat split; try congruence; try lia.
  - rewrite (bind_Raise _ _ _ _ _ Hsend) in H.
    destruct (is_RequestException (exn_class_of e)).
    + destruct (@make_request_handler (payload k) url e w1)
        as (w2 & Hh & Hf2 & Hs2 & Ha2 & Ht2 & _).
      rewrite Hh in H. inversion H; subst r w'.
      repeat split; try congruence; try lia.
    + inversion H; subst r w'.
      repeat split; try congruence; try lia.
Qed.

(** X1.  When no attempt is answered by a redirect (a status from 300 to
    399), so that the session hands the request to its adapter once, one
    call of [_make_request] logs exactly its own request, makes at least
    one attempt and at most one more than the retries of the session (four
    for the session [_create_session] builds), changes no file and reads no
    clock; when it returns data it has printed nothing. *)
Theorem make_request_one_request_bounded_attempts :
  forall (E : environment) (self : GitHubScraper) (k : endpoint)
    (url : string) (params : option (list (string * json))) (w : world)
    (r : res (option (payload k))) (w' : world),
    (forall n resp,
        server E k n (request_of self url params) = Responded resp ->
        (status_code resp < 300 \/ 400 <= status_code resp)%Z) ->
    _make_request E self k url params w = (r, w') ->
    sent w' = app (sent w) [request_of self url params]
    /\ (attempts w < attempts w'
        <= attempts w + S (total (max_retries (session self))))%nat
    /\ files w' = files w
    /\ ticks w' = ticks w
    /\ (forall v, r = Ret (Some v) -> stdout w' = stdout w).
Proof.
  intros E self k url params w r w' _ H.
  destruct (make_request_frame E self k url params w r w' H)
    as (Hs & Ha & Hf & Ht & _ & Ho).
  repeat split; try assumption; lia.
Qed.

Lemma make_request_one_request_bounded_attempts_witness :
  exists r w',
    _make_request (test_env refusing_server) tester TrafficEP
      "https://api.github.com/repos/Sesquii/alpha/traffic/views" None
      empty_world = (r, w')
    /\ List.length (sent w') = 1%nat
    /\ (0 < attempts w' <= 4)%nat.
Proof.
  destruct (_make_request (test_env refusing_server) tester TrafficEP
              "https://api.github.com/repos/Sesquii/alpha/traffic/views" None
              empty_world) as [r w'] eqn:H.
  assert (Hno : forall n resp,
             server (test_env refusing_server) TrafficEP n
               (request_of tester
                  "https://api.github.com/repos/Sesquii/alpha/traffic/views"
                  None) = Responded resp ->
             (status_code resp < 300 \/ 400 <= status_code resp)%Z)
    by (intros n resp Hr; discriminate Hr).
  destruct (make_request_one_request_bounded_attempts _ _ _ _ _ _ _ _ Hno H)
    as (Hs & Ha & _).
  exists r, w'. split; [reflexivity|]. split.
  - rewrite Hs. reflexivity.
  - simpl in Ha. lia.
Defined.

(** After [i] retryable failures within the budget, an exception raised at
    once is what the adapter raises. *)
Lemma send_with_retries_raises E k forcelist rq e :
  forall retries i w,
    (i <= retries)%nat ->
    (forall j, (j < i)%nat ->
               retryable forcelist (server E k (attempts w + j) rq) = true) ->
    server E k (attempts w + i) rq = Raised e ->
    send_with_retries E k forcelist retries rq w
    = (Raise e, with_attempts (S i) w).
Proof.
  induction retries as [|retries IH]; intros i w Hi Hbefore Hr.
  - assert (i = 0)%nat by lia. subst i. rewrite Nat.add_0_r in Hr.
    cbn [send_with_retries]. unfold bind, send_once. rewrite Hr. reflexivity.
  - cbn [send_with_retries]. unfold bind, send_once.
    destruct i as [|i].
    + rewrite Nat.add_0_r in Hr. rewrite Hr. reflexivity.
    + pose proof (Hbefore 0%nat (Nat.lt_0_succ _)) as H0.
      rewrite Nat.add_0_r in H0.
      set (w1 := {| files := files w; stdout := stdout w; sent := sent w;
                    attempts := S (attempts w); ticks := ticks w |}).
      assert (Hrec : send_with_retries E k forcelist retries rq w1
                     = (Raise e, with_attempts (S (S i)) w)).
      { replace (with_attempts (S (S i)) w) with (with_attempts (S i) w1).
        - apply IH; [lia| |].
          + intros j Hj. simpl.
            replace (S (attempts w + j)) with (attempts w + S j)%nat by lia.
            apply Hbefore. lia.
          + simpl. replace (S (attempts w + i)) with (attempts w + S i)%nat by lia.
            exact Hr.
        - unfold with_attempts, w1. simpl. f_equal. lia. }
      destruct (server E k (attempts w) rq) as [msg|e'|r']; simpl in H0.
      * exact Hrec.
      * discriminate.
      * rewrite H0. exact Hrec.
Qed.

(** X2.  Transient failures are absorbed: when at most as many retryable
    failures as the session allows retries (connection failures, or answers
    with a status of the force list) are followed by a successful answer (a
    status from 200 to 299, outside the force list) with a JSON body,
    [_make_request] returns that body; it has printed nothing, logged one
    request and made one attempt more than there were failures. *)
Theorem make_request_retries_then_returns :
  forall (E : environment) (self : GitHubScraper) (k : endpoint)
    (url : string) (params : option (list (string * json))) (w : world)
    (i : nat) (r : response (payload k)) (v : payload k),
    let rq := request_of self url params in
    let forcelist := status_forcelist (max_retries (session self)) in
    (i <= total (max_retries (session self)))%nat ->
    (forall j, (j < i)%nat ->
               retryable forcelist (server E k (attempts w + j) rq) = true) ->
    server E k (attempts w + i) rq = Responded r ->
    existsb (Z.eqb (status_code r)) forcelist = false ->
    (200 <= status_code r < 300)%Z ->
    resp_json r = Some v ->
    _make_request E self k url params w
    = (Ret (Some v), after_request rq (S i) w).
Proof.
  intros E self k url params w i r v rq forcelist Hi Hbefore Hr Hnot Hcode Hj.
  pose proof (send_with_retries_responds E k forcelist rq r
                (total (max_retries (session self))) i (logged rq w)
                Hi Hbefore Hr Hnot) as Hsend.
  rewrite make_request_logged. apply try_except_Ret.
  fold rq. fold forcelist. rewrite (bind_Ret _ _ _ _ _ Hsend).
  unfold raise_for_status.
  replace ((400 <=? status_code r) && (status_code r <? 500))%Z with false
    by (symmetry; apply andb_false_iff; lia).
  replace ((500 <=? status_code r) && (status_code r <? 600))%Z with false
    by (symmetry; apply andb_false_iff; lia).
  unfold response_json. rewrite Hj. reflexivity.
Qed.

(** The first two attempts fail, the third is answered. *)
Definition recovering_traffic (n : nat) (rq : request)
  : attempt traffic_data :=
  match n with
  | 0 => ConnFailed "connection reset"
  | 1 => Responded {| resp_url := fetched_url rq; status_code := 503;
                      resp_reason := "Service Unavailable";
                      resp_text := ""; resp_json := None |}
  | _ => ok rq {| td_views := Some []; td_clones := None; td_other := [] |}
  end%nat.

Lemma make_request_retries_then_returns_witness :
  exists w',
    _make_request
      (test_env (stub_server [] [] recovering_traffic no_detail)) tester
      TrafficEP "https://api.github.com/repos/Sesquii/alpha/traffic/views"
      None empty_world
    = (Ret (Some {| td_views := Some []; td_clones := None; td_other := [] |}),
       w')
    /\ attempts w' = 3%nat /\ stdout w' = [].
Proof.
  eexists. split.
  - apply (make_request_retries_then_returns
             (test_env (stub_server [] [] recovering_traffic no_detail))
             tester TrafficEP
             "https://api.github.com/repos/Sesquii/alpha/traffic/views" None
             empty_world 2%nat
             {| resp_url :=
                  "https://api.github.com/repos/Sesquii/alpha/traffic/views";
                status_code := 200; resp_reason := "OK"; resp_text := "";
                resp_json := Some {| td_views := Some []; td_clones := None;
                                     td_other := [] |} |}).
    + simpl. lia.
    + intros j Hj. destruct j as [|[|j]]; [reflexivity | reflexivity | lia].
    + reflexivity.
    + reflexivity.
    + simpl. lia.
    + reflexivity.
  - split; reflexivity.
Defined.

(** X3.  The boundary holds for request exceptions only: an exception of
    another class raised by the transport (at once, or after retryable
    failures within the budget) leaves [_make_request] as it is, with
    nothing printed. *)
Theorem make_request_lets_other_exceptions_through :
  forall (E : environment) (self : GitHubScraper) (k : endpoint)
    (url : string) (params : option (list (string * json))) (w : world)
    (i : nat) (e : exn),
    let rq := request_of self url params in
    let forcelist := status_forcelist (max_retries (session self)) in
    (i <= total (max_retries (session self)))%nat ->
    (forall j, (j < i)%nat ->
               retryable forcelist (server E k (attempts w + j) rq) = true) ->
    server E k (attempts w + i) rq = Raised e ->
    is_RequestException (exn_class_of e) = false ->
    _make_request E self k url params w
    = (Raise e, after_request rq (S i) w).
Proof.
  intros E self k url params w i e rq forcelist Hi Hbefore Hr Hc.
  pose proof (send_with_retries_raises E k forcelist rq e
                (total (max_retries (session self))) i (logged rq w)
                Hi Hbefore Hr) as Hsend.
  rewrite make_request_logged.
  apply try_except_escapes; [|exact Hc].
  fold rq. fold forcelist. now rewrite (bind_Raise _ _ _ _ _ Hsend).
Qed.

Definition crashing_server
  : forall k : endpoint, nat -> request -> attempt (payload k) :=
  fun k _ _ => Raised (mk_exn RuntimeError "unexpected failure" None).

Lemma make_request_lets_other_exceptions_through_witness :
  exists w',
    _make_request (test_env crashing_server) tester TrafficEP
      "https://api.github.com/repos/Sesquii/alpha/traffic/views" None
      empty_world
    = (Raise (mk_exn RuntimeError "unexpected failure" None), w')
    /\ stdout w' = [].
Proof.
  eexists. split.
  - apply (make_request_lets_other_exceptions_through
             (test_env crashing_server) tester TrafficEP
             "https://api.github.com/repos/Sesquii/alpha/traffic/views" None
             empty_world 0%nat).
    + simpl. lia.
    + intros j Hj. lia.
    + reflexivity.
    + reflexivity.
  - reflexivity.
Defined.

(** ** Paginator: a failure midway, pages without end *)

(** Full pages followed by a request that fails, or by a short page: the
    loop returns what it has. *)
Lemma page_loop_full_then_last {A} (fetch : Z -> M (option (list A)))
    (full : list (list A)) (last_answer : option (list A)) :
  (forall (p : nat) (w : world),
      (p < List.length full)%nat ->
      exists w',
        fetch (Z.of_nat (S p)) w = (Ret (Some (nth p full [])), w')
        /\ List.length (sent w') = S (List.length (sent w))) ->
  (forall w : world,
      exists w',
        fetch (Z.of_nat (S (List.length full))) w = (Ret last_answer, w')
        /\ List.length (sent w') = S (List.length (sent w))) ->
  Forall (fun p => List.length p = 100%nat) full ->
  (List.length (default [] last_answer) < 100)%nat ->
  forall (rest done : list (list A)) (fuel : nat) (acc : list A) (w : world),
    full = (done ++ rest)%list ->
    (List.length rest < fuel)%nat ->
    exists w',
      page_loop fetch fuel (Z.of_nat (S (List.length done))) 100 acc w
      = (Ret (acc ++ List.concat rest ++ default [] last_answer)%list, w')
      /\ List.length (sent w')
         = (List.length (sent w) + S (List.length rest))%nat.
Proof.
  intros Hfull Hlast Hlens Hshort.
  induction rest as [|p rest IH]; intros done fuel acc w Hsplit Hfuel.
  - destruct fuel as [|fuel]; [lia|].
    rewrite app_nil_r in Hsplit. subst done.
    destruct (Hlast w) as (w1 & Hf & Hs).
    exists w1. split.
    + rewrite (page_loop_stops fetch fuel _ acc w last_answer w1 Hf Hshort).
      reflexivity.
    + simpl. lia.
  - destruct fuel as [|fuel]; [simpl in Hfuel; lia|].
    assert (Hp : (List.length done < List.length full)%nat).
    { rewrite Hsplit, length_app. simpl. lia. }
    destruct (Hfull (List.length done) w Hp) as (w1 & Hf & Hs).
    assert (Hnth : nth (List.length done) full [] = p).
    { rewrite Hsplit. now rewrite nth_middle. }
    rewrite Hnth in Hf.
    assert (Hlen : List.length p = 100%nat).
    { rewrite Forall_forall in Hlens. apply Hlens. rewrite Hsplit.
      apply in_or_app. right. now left. }
    rewrite (page_loop_continues fetch fuel _ acc w p w1 Hf) by lia.
    destruct (IH (done ++ [p])%list fuel (acc ++ p)%list w1) as (w2 & Hl & Hs2).
    + rewrite Hsplit. now rewrite <- app_assoc.
    + simpl in Hfuel. lia.
    + exists w2. split.
      * replace (Z.of_nat (S (List.length done)) + 1)%Z
          with (Z.of_nat (S (List.length (done ++ [p])%list))).
        -- rewrite Hl. simpl. now rewrite <- !app_assoc.
        -- rewrite length_app. simpl. lia.
      * rewrite Hs2, Hs. simpl. lia.
Qed.

(** Pages that are always full: the loop asks on, one request per unit of
    fuel. *)
Lemma page_loop_always_full {A} (fetch : Z -> M (option (list A))) :
  (forall (page : Z) (w : world),
      exists items w',
        fetch page w = (Ret (Some items), w')
        /\ (100 <= List.length items)%nat
        /\ List.length (sent w') = S (List.length (sent w))) ->
  forall (fuel : nat) (page : Z) (acc : list A) (w : world),
    exists w',
      page_loop fetch fuel page 100 acc w = (Timeout, w')
      /\ List.length (sent w') = (List.length (sent w) + fuel)%nat.
Proof.
  intros Hfetch. induction fuel as [|fuel IH]; intros page acc w.
  - exists w. split; [reflexivity | lia].
  - destruct (Hfetch page w) as (items & w1 & Hf & Hlen & Hs).
    rewrite (page_loop_continues fetch fuel page acc w items w1 Hf Hlen).
    destruct (IH (page + 1)%Z (acc ++ items)%list w1) as (w2 & Hl & Hs2).
    exists w2. split; [exact Hl | lia].
Qed.

(** The server answers the first pages of [url] from [full] and cannot be
    reached for the page after them. *)
Definition serves_then_fails (E : environment) (self : GitHubScraper)
    (url : string) (full : list (list api_repo)) : Prop :=
  (forall n rq,
      req_url rq = url ->
      (0 < page_number rq <= List.length full)%nat ->
      exists r,
        server E RepoListEP n rq = Responded r
        /\ status_code r = 200%Z
        /\ resp_json r = Some (nth (page_number rq - 1) full []))
  /\ (forall n rq,
        req_url rq = url ->
        page_number rq = S (List.length full) ->
        retryable (status_forcelist (max_retries (session self)))
          (server E RepoListEP n rq) = true).

Lemma make_request_unreachable E self k url params w :
  (forall n,
      retryable (status_forcelist (max_retries (session self)))
        (server E k n (request_of self url params)) = true) ->
  exists w',
    _make_request E self k url params w = (Ret None, w')
    /\ sent w' = app (sent w) [request_of self url params]
    /\ files w' = files w /\ ticks w' = ticks w.
Proof.
  intros Hun.
  destruct (send_with_retries_exhausted E k
              (status_forcelist (max_retries (session self)))
              (request_of self url params)
              (total (max_retries (session self)))
              (logged (request_of self url params) w))
    as (e & Hsend & Hcls & _).
  { intros i _. apply Hun. }
  destruct (make_request_send_raises E self k url params w e _ Hsend)
    as (w' & Hr & Hf & Hs & _ & Ht & _).
  { destruct Hcls as [-> | ->]; reflexivity. }
  exists w'. repeat split; assumption.
Qed.

(** X4.  A failure midway truncates silently: when the server answers the
    first pages in full (100 items each) and every attempt at the page after
    them fails in a retryable way, [get_all_repos] returns the items of the
    pages it got, as if the list ended there; it does not raise. *)
Theorem get_all_repos_truncated_by_failure :
  forall (E : environment) (token username : string)
    (full : list (list api_repo)) (fuel : nat) (w : world),
    let self := __init__ token username in
    serves_then_fails E self (repos_url self) full ->
    Forall (fun p => List.length p = 100%nat) full ->
    (List.length full < fuel)%nat ->
    exists w',
      get_all_repos E fuel self w = (Ret (List.concat full), w')
      /\ List.length (sent w')
         = (List.length (sent w) + S (List.length full))%nat.
Proof.
  intros E token username full fuel w self [Hserve Hfail] Hlens Hfuel.
  destruct (page_loop_full_then_last
              (fun p => _make_request E self RepoListEP (repos_url self)
                          (Some (repos_params p 100)))
              full None) with (rest := full) (done := @nil (list api_repo))
              (fuel := fuel) (acc := @nil api_repo) (w := w)
    as (w1 & Hl & Hs); try assumption; try reflexivity.
  - intros p w0 Hp.
    set (rq := request_of self (repos_url self)
                 (Some (repos_params (Z.of_nat (S p)) 100))).
    assert (Hpage : page_number rq = S p).
    { unfold page_number, rq. simpl. now rewrite SuccNat2Pos.id_succ. }
    destruct (Hserve (attempts w0) rq eq_refl) as (r & Hr & Hc & Hj).
    { rewrite Hpage. lia. }
    exists (after_request rq 1 w0). split.
    + apply (make_request_200 E token username RepoListEP _ _ w0 r); auto.
      rewrite Hj, Hpage. now replace (S p - 1)%nat with p by lia.
    + simpl. rewrite length_app. simpl. lia.
  - intros w0.
    set (rq := request_of self (repos_url self)
                 (Some (repos_params (Z.of_nat (S (List.length full))) 100))).
    assert (Hpage : page_number rq = S (List.length full)).
    { unfold page_number, rq. simpl. now rewrite SuccNat2Pos.id_succ. }
    destruct (make_request_unreachable E self RepoListEP (repos_url self)
                (Some (repos_params (Z.of_nat (S (List.length full))) 100)) w0)
      as (w' & Hr & Hs & _).
    { intros n. apply Hfail; [reflexivity | exact Hpage]. }
    exists w'. split; [exact Hr|]. rewrite Hs, length_app. simpl. lia.
  - simpl. lia.
  - unfold get_all_repos. fold (repos_url self).
    rewrite (bind_Ret _ _ w (List.concat full) w1).
    + eexists. split; [reflexivity|]. simpl. exact Hs.
    + rewrite get_all_repos_loop_page_loop. simpl in Hl.
      rewrite app_nil_r in Hl. exact Hl.
Qed.

Definition failing_after (full : list (list api_repo))
  : forall k : endpoint, nat -> request -> attempt (payload k) :=
  fun k =>
    match k return nat -> request -> attempt (payload k) with
    | RepoListEP =>
        fun _ rq =>
          if ((0 <? page_number rq) && (page_number rq <=? List.length full))%nat
          then ok rq (nth (page_number rq - 1) full [])
          else ConnFailed "read timed out"
    | _ => fun _ _ => ConnFailed "read timed out"
    end.

Lemma get_all_repos_truncated_by_failure_witness :
  exists w',
    get_all_repos (test_env (failing_after [repeat (sample_repo "alpha") 100]))
      2 tester empty_world
    = (Ret (repeat (sample_repo "alpha") 100), w')
    /\ List.length (sent w') = 2%nat.
Proof.
  destruct (get_all_repos_truncated_by_failure
              (test_env (failing_after [repeat (sample_repo "alpha") 100]))
              "ghp_token" "Sesquii" [repeat (sample_repo "alpha") 100]
              2%nat empty_world) as (w' & Hr & Hs).
  - split.
    + intros n rq _ Hp. simpl in Hp.
      assert (H1 : page_number rq = 1%nat) by lia.
      simpl. rewrite H1. eexists. repeat split.
    + intros n rq _ Hp. simpl. rewrite Hp. reflexivity.
  - constructor; [reflexivity | constructor].
  - simpl. lia.
  - exists w'. split; [|exact Hs].
    unfold tester. rewrite Hr. cbn [List.concat]. now rewrite app_nil_r.
Defined.

(** Every page the server gives holds at least a hundred items. *)
Definition serves_full_pages_for_ever (E : environment) (url : string)
  : Prop :=
  forall n rq,
    req_url rq = url ->
    exists r items,
      server E RepoListEP n rq = Responded r
      /\ status_code r = 200%Z
      /\ resp_json r = Some items
      /\ (100 <= List.length items)%nat.

(** X5.  The loop has no bound of its own: against a server whose every
    page is full, [get_all_repos] does not return with any amount of fuel;
    it has sent one request for each unit of fuel it was given. *)
Theorem get_all_repos_never_ends_on_full_pages :
  forall (E : environment) (token username : string),
    let self := __init__ token username in
    serves_full_pages_for_ever E (repos_url self) ->
    forall (fuel : nat) (w : world),
    exists w',
      get_all_repos E fuel self w = (Timeout, w')
      /\ List.length (sent w') = (List.length (sent w) + fuel)%nat.
Proof.
  intros E token username self Hsrv fuel w.
  destruct (page_loop_always_full
              (fun p => _make_request E self RepoListEP (repos_url self)
                          (Some (repos_params p 100))))
    with (fuel := fuel) (page := 1%Z) (acc := @nil api_repo) (w := w)
    as (w' & Hl & Hs).
  - intros page w0.
    set (rq := request_of self (repos_url self)
                 (Some (repos_params page 100))).
    destruct (Hsrv (attempts w0) rq eq_refl) as (r & items & Hr & Hc & Hj & Hlen).
    exists items, (after_request rq 1 w0). split; [|split; [exact Hlen|]].
    + apply (make_request_200 E token username RepoListEP _ _ w0 r); auto.
    + simpl. rewrite length_app. simpl. lia.
  - exists w'. split; [|exact Hs].
    unfold get_all_repos. fold (repos_url self).
    apply bind_Timeout. rewrite get_all_repos_loop_page_loop. exact Hl.
Qed.

Definition endless_server
  : forall k : endpoint, nat -> request -> attempt (payload k) :=
  fun k =>
    match k return nat -> request -> attempt (payload k) with
    | RepoListEP => fun _ rq => ok rq (repeat (sample_repo "alpha") 100)
    | _ => fun _ _ => ConnFailed "read timed out"
    end.

Lemma get_all_repos_never_ends_on_full_pages_witness :
  exists w',
    get_all_repos (test_env endless_server) 50 tester empty_world
    = (Timeout, w')
    /\ List.length (sent w') = 50%nat.
Proof.
  destruct (get_all_repos_never_ends_on_full_pages (test_env endless_server)
              "ghp_token" "Sesquii") with (fuel := 50%nat) (w := empty_world)
    as (w' & Hr & Hs).
  - intros n rq _. eexists. eexists. split; [reflexivity|].
    split; [reflexivity|]. split; [reflexivity|]. simpl. lia.
  - exists w'. split; [exact Hr | exact Hs].
Defined.

(** ** Commit aggregator: the requests it sends *)

Definition detail_request (self : GitHubScraper) (owner repo : string)
    (commit : api_commit) : request :=
  request_of self (detail_url self owner repo commit) None.

Lemma sum_commit_details_sent E self owner repo :
  forall commits total_additions total_deletions w r w',
    sum_commit_details E self owner repo commits total_additions
      total_deletions w = (Ret r, w') ->
    sent w' = app (sent w) (map (detail_request self owner repo) commits)
    /\ files w' = files w /\ ticks w' = ticks w.
Proof.
  induction commits as [|commit rest IH];
    intros total_additions total_deletions w r w' H;
    cbn [sum_commit_details] in H.
  - inversion H; subst. simpl. rewrite app_nil_r. repeat split.
  - apply bind_Ret_inv in H as (d & w1 & Hd & H).
    fold (detail_url self owner repo commit) in Hd.
    destruct (make_request_frame _ _ _ _ _ _ _ _ Hd) as (Hs & _ & Hf & Ht & _).
    assert (Hrest : exists a b,
               sum_commit_details E self owner repo rest a b w1 = (Ret r, w')).
    { destruct d as [detail|]; [destruct (detail_stats detail)|]; eauto. }
    destruct Hrest as (a & b & Hrest).
    destruct (IH a b w1 r w' Hrest) as (Hs' & Hf' & Ht').
    repeat split; try congruence.
    rewrite Hs', Hs. cbn [map]. now rewrite <- app_assoc.
Qed.

(** X6.  The cost of the statistics: after the commit list, when
    [get_commit_stats] returns it has sent exactly one detail request per
    commit, in the order of the list, each to [.../commits/<sha>] of that
    commit and without parameters; for an empty list it sends none. *)
Theorem get_commit_stats_one_request_per_commit :
  forall (E : environment) (fuel : nat) (self : GitHubScraper)
    (owner repo : string) (since until : datetime E) (w : world)
    (commits : list api_commit) (w1 : world) (stats : commit_stats)
    (w2 : world),
    get_commits E fuel self owner repo since until w = (Ret commits, w1) ->
    get_commit_stats E fuel self owner repo since until w = (Ret stats, w2) ->
    sent w2 = app (sent w1) (map (detail_request self owner repo) commits)
    /\ c_commits stats = Z.of_nat (List.length commits)
    /\ files w2 = files w1.
Proof.
  intros E fuel self owner repo since until w commits w1 stats w2 Hc Hs.
  unfold get_commit_stats in Hs. rewrite (bind_Ret _ _ _ _ _ Hc) in Hs.
  apply bind_Ret_inv in Hs as ([ta td] & w3 & Hsum & Hret).
  inversion Hret; subst stats w3. clear Hret.
  destruct (sum_commit_details_sent E self owner repo commits _ _ _ _ _ Hsum)
    as (Hsent & Hf & _).
  repeat split; assumption.
Qed.

Lemma get_commit_stats_one_request_per_commit_witness :
  exists w1 w2 stats,
    get_commits three_commits_env 1 tester "Sesquii" "alpha"
      (7, (0, 0, 0, 0))%Z (7, (23, 59, 59, 999999))%Z empty_world
    = (Ret three_commits, w1)
    /\ get_commit_stats three_commits_env 1 tester "Sesquii" "alpha"
         (7, (0, 0, 0, 0))%Z (7, (23, 59, 59, 999999))%Z empty_world
       = (Ret stats, w2)
    /\ map req_url (sent w2)
       = ["https://api.github.com/repos/Sesquii/alpha/commits";
          "https://api.github.com/repos/Sesquii/alpha/commits/a1";
          "https://api.github.com/repos/Sesquii/alpha/commits/b2";
          "https://api.github.com/repos/Sesquii/alpha/commits/c3"].
Proof.
  eassert (Hc : get_commits three_commits_env 1 tester "Sesquii" "alpha"
                  (7, (0, 0, 0, 0))%Z (7, (23, 59, 59, 999999))%Z empty_world
                = (Ret three_commits, _)) by (cbv; reflexivity).
  eassert (Hs : get_commit_stats three_commits_env 1 tester "Sesquii" "alpha"
                  (7, (0, 0, 0, 0))%Z (7, (23, 59, 59, 999999))%Z empty_world
                = (Ret _, _)) by (cbv; reflexivity).
  destruct (get_commit_stats_one_request_per_commit _ _ _ _ _ _ _ _ _ _ _ _
              Hc Hs) as (Hsent & _).
  do 3 eexists. split; [exact Hc|]. split; [exact Hs|].
  rewrite Hsent. reflexivity.
Defined.

(** ** Snapshot assembler: an unreachable API *)

(** The repository part of a snapshot: the identity of the repository and
    its metadata, with [False] and zero for the keys the API left out. *)
Definition repository_of (repo : api_repo) (full_name : string)
  : repository_info :=
  {| r_name := repo_name repo;
     r_full_name := full_name;
     r_owner := repo_owner_login repo;
     r_private := default false (repo_private repo);
     r_description := repo_description repo;
     r_url := repo_html_url repo;
     r_language := repo_language repo;
     r_stargazers_count := default 0%Z (repo_stargazers_count repo);
     r_forks_count := default 0%Z (repo_forks_count repo);
     r_watchers_count := default 0%Z (repo_watchers_count repo);
     r_open_issues_count := default 0%Z (repo_open_issues_count repo) |}.

Definition zero_traffic : traffic_info :=
  {| t_views := 0; t_views_uniques := 0; t_clones := 0;
     t_clones_uniques := 0 |}.

Definition zero_commits : commit_stats :=
  {| c_commits := 0; c_additions := 0; c_deletions := 0; c_net_change := 0 |}.

(** No attempt gets through: each is a connection failure or an answer
    with a status of the force list. *)
Definition unreachable (E : environment) (self : GitHubScraper) : Prop :=
  forall k n rq,
    retryable (status_forcelist (max_retries (session self)))
      (server E k n rq) = true.

(** X7.  Degrade to zero: when no request gets through, [get_repo_stats]
    still returns a snapshot for the repository (it does not raise), given
    that the list element has its ["full_name"]: the date and the
    repository metadata are there, every traffic and commit figure is zero;
    it has sent its three requests (views, clones, first page of commits)
    and changed no file. *)
Theorem get_repo_stats_unreachable_gives_zeros :
  forall (E : environment) (fuel : nat) (self : GitHubScraper)
    (repo : api_repo) (full_name target_date : string) (target : datetime E)
    (w : world),
    unreachable E self ->
    strptime_ymd E target_date = Some target ->
    repo_full_name repo = Some full_name ->
    exists w',
      get_repo_stats E (S fuel) self repo target_date w
      = (Ret {| s_date := Some target_date;
                s_repository := repository_of repo full_name;
                s_traffic := zero_traffic;
                s_commits := zero_commits;
                s_scraped_at := isoformat E (clock E (ticks w)) |},
         w')
      /\ List.length (sent w') = (List.length (sent w) + 3)%nat
      /\ files w' = files w.
Proof.
  intros E fuel self repo full_name target_date target w Hun Hparse Hname.
  unfold get_repo_stats. rewrite Hname.
  unfold bind at 1. unfold print at 1.
  set (w0 := Build_world _ _ _ _ _).
  assert (Hw0 : sent w0 = sent w /\ files w0 = files w /\ ticks w0 = ticks w)
    by (repeat split).
  destruct Hw0 as (Hs0 & Hf0 & Ht0). clearbody w0.
  unfold strptime. rewrite Hparse.
  rewrite (bind_Ret _ _ w0 target w0 eq_refl).
  unfold get_traffic_views.
  destruct (make_request_unreachable E self TrafficEP
              (base_url self ++ "/repos/" ++ repo_owner_login repo ++ "/"
                 ++ repo_name repo ++ "/traffic/views")
              (Some [("per", JStr "day")]) w0 (fun n => Hun _ n _))
    as (w1 & H1 & Hs1 & Hf1 & Ht1).
  rewrite (bind_Ret _ _ _ _ _ H1).
  unfold get_traffic_clones.
  destruct (make_request_unreachable E self TrafficEP
              (base_url self ++ "/repos/" ++ repo_owner_login repo ++ "/"
                 ++ repo_name repo ++ "/traffic/clones")
              (Some [("per", JStr "day")]) w1 (fun n => Hun _ n _))
    as (w2 & H2 & Hs2 & Hf2 & Ht2).
  rewrite (bind_Ret _ _ _ _ _ H2).
  cbn [td_truthy].
  destruct (make_request_unreachable E self CommitListEP
              (base_url self ++ "/repos/" ++ repo_owner_login repo ++ "/"
                 ++ repo_name repo ++ "/commits")
              (Some (commits_params E (replace_time E target 0 0 0 0)
                       (replace_time E target 23 59 59 999999) 1 100))
              w2 (fun n => Hun _ n _))
    as (w3 & H3 & Hs3 & Hf3 & Ht3).
  assert (Hstats :
            get_commit_stats E (S fuel) self (repo_owner_login repo)
              (repo_name repo) (replace_time E target 0 0 0 0)
              (replace_time E target 23 59 59 999999) w2
            = (Ret zero_commits, w3)).
  { unfold get_commit_stats, get_commits. cbn [get_commits_loop].
    unfold commits_params in H3.
    unfold bind at 1. unfold bind at 1. rewrite H3. reflexivity. }
  rewrite (bind_Ret _ _ _ _ _ Hstats).
  eexists. split.
  - unfold bind, now, ret. simpl. rewrite Ht3, Ht2, Ht1, Ht0. reflexivity.
  - simpl. split.
    + rewrite Hs3, Hs2, Hs1, Hs0. rewrite !length_app. simpl. lia.
    + congruence.
Qed.

Lemma get_repo_stats_unreachable_gives_zeros_witness :
  exists w',
    get_repo_stats (test_env refusing_server) 1 tester (sample_repo "alpha")
      "2024-01-07" empty_world
    = (Ret {| s_date := Some "2024-01-07";
              s_repository :=
                repository_of (sample_repo "alpha") "Sesquii/alpha";
              s_traffic := zero_traffic;
              s_commits := zero_commits;
              s_scraped_at := "2024-01-14T09:30:00" |},
       w')
    /\ List.length (sent w') = 3%nat.
Proof.
  destruct (get_repo_stats_unreachable_gives_zeros (test_env refusing_server)
              0%nat tester (sample_repo "alpha") "Sesquii/alpha" "2024-01-07"
              (7, (0, 0, 0, 0))%Z empty_world)
    as (w' & Hr & Hs & _).
  - intros k n rq. reflexivity.
  - reflexivity.
  - reflexivity.
  - exists w'. split; [exact Hr | exact Hs].
Defined.

(** ** Run-level orchestration: what a run returns *)

Lemma scrape_loop_length E fuel self target_date :
  forall repos all_stats w result w',
    scrape_loop E fuel self target_date repos all_stats w = (Ret result, w') ->
    (List.length result <= List.length all_stats + List.length repos)%nat.
Proof.
  induction repos as [|repo rest IH]; intros all_stats w result w' Hrun.
  - simpl in Hrun. inversion Hrun; subst. lia.
  - cbn [scrape_loop] in Hrun.
    apply bind_Ret_inv in Hrun as (acc' & w1 & Htry & Hrest).
    apply IH in Hrest.
    assert (Hacc : (List.length acc' <= S (List.length all_stats))%nat).
    { destruct (scrape_turn_inv _ _ _ _ _ _ _ _ _ Htry)
        as [(s & _ & ->) | (e & w0 & full_name & _ & _ & -> & _)].
      - rewrite length_app. simpl. lia.
      - lia. }
    simpl. lia.
Qed.

(** X8.  One run, one date: every snapshot [scrape_all_repos] returns
    carries the same date, the one printed by [strftime] for the reading of
    the clock at the start of the run minus [days_ago] days, whatever the
    clock shows later in the run; and there are no more snapshots than
    repositories enumerated. *)
Theorem scrape_all_repos_one_date :
  forall (E : environment) (fuel : nat) (self : GitHubScraper)
    (days_ago : Z) (w : world) (target : datetime E)
    (repos : list api_repo) (w1 : world) (data : list snapshot) (w' : world),
    let target_date := strftime_ymd E target in
    minus_days E (clock E (ticks w)) days_ago = Some target ->
    get_all_repos E fuel self (started target_date w) = (Ret repos, w1) ->
    scrape_all_repos E fuel self days_ago w = (Ret data, w') ->
    Forall (fun s => s_date s = Some target_date) data
    /\ (List.length data <= List.length repos)%nat.
Proof.
  intros E fuel self days_ago w target repos w1 data w' target_date
    Hminus Hrepos Hrun.
  split.
  - exact (scrape_all_repos_dates E fuel self days_ago w target data w'
             Hminus Hrun).
  - unfold scrape_all_repos in Hrun.
    unfold bind at 1 in Hrun. unfold now at 1 in Hrun.
    unfold bind at 1 in Hrun. unfold days_before at 1 in Hrun.
    rewrite Hminus in Hrun. unfold ret at 1 in Hrun.
    unfold bind at 1 in Hrun. unfold print at 1 in Hrun.
    fold target_date in Hrun. fold (started_line target_date) in Hrun.
    fold (started target_date w) in Hrun.
    rewrite (bind_Ret _ _ _ _ _ Hrepos) in Hrun.
    apply scrape_loop_length in Hrun. simpl in Hrun. exact Hrun.
Qed.

Lemma scrape_all_repos_one_date_witness :
  exists data w',
    scrape_all_repos flaky_env 1 tester 7 empty_world = (Ret data, w')
    /\ Forall (fun s => s_date s = Some "2024-01-07") data
    /\ (List.length data <= 3)%nat.
Proof.
  eassert (Hrepos : get_all_repos flaky_env 1 tester
                      (started "2024-01-07" empty_world) = (Ret _, _))
    by (cbv; reflexivity).
  eassert (Hrun : scrape_all_repos flaky_env 1 tester 7 empty_world
                  = (Ret _, _)) by (cbv; reflexivity).
  destruct (scrape_all_repos_one_date flaky_env 1%nat tester 7%Z empty_world
              (7, (9, 30, 0, 0))%Z _ _ _ _ eq_refl Hrepos Hrun) as [Hd Hl].
  do 2 eexists. split; [exact Hrun|]. split; [exact Hd | exact Hl].
Defined.

(** ** Historical merge store: what the JSON backend does with odd input *)

(** The merge goes by the date of the first snapshot alone. *)
Lemma save_to_json_merge_first E first rest filename w D d old :
  s_date first = Some D ->
  store_dict (files w filename) = Some d ->
  store_entries d = Some old ->
  exists w',
    save_to_json E (first :: rest) filename w = (Ret tt, w')
    /\ (forall p,
          files w' p
          = if String.eqb p filename
            then Some (json_file E
                         (JDict (merged_store E D d old (first :: rest) (ticks w))))
            else files w p)
    /\ sent w' = sent w /\ attempts w' = attempts w
    /\ ticks w' = S (ticks w).
Proof.
  intros Hfirst Hd He.
  destruct (load_historical_data_store filename w d Hd)
    as (w1 & Hload & Hf1 & Hs1 & Ha1 & Ht1).
  unfold save_to_json. rewrite (bind_Ret _ _ _ _ _ Hload). rewrite Hfirst.
  unfold store_entries in He.
  destruct (dict_get "historical_data" d) as [hdv|] eqn:Hhd.
  - destruct hdv as [| | | |entries|]; try discriminate.
    destruct (forallb well_formed_entry entries) eqn:Hwf; [|discriminate].
    inversion He; subst entries. clear He.
    rewrite (bind_Ret _ _ w1 (JList old) w1)
      by (unfold get_historical_data, bind, py_get, ret; now rewrite Hhd).
    rewrite (bind_Ret _ _ w1 old w1) by reflexivity.
    rewrite (bind_Ret _ _ _ _ _ (existing_dates_of_entries old w1 Hwf)).
    rewrite existsb_entry_dates.
    destruct (existsb (has_date D) old) eqn:Hex.
    + set (kept := filter (fun entry => negb (has_date D entry)) old).
      set (w2 := {| files := files w1;
                    stdout :=
                      app (stdout w1)
                        ["Warning: Data for " ++ D
                           ++ " already exists. Updating..."];
                    sent := sent w1; attempts := attempts w1;
                    ticks := ticks w1 |}).
      assert (Hinner :
                (print ("Warning: Data for " ++ D
                          ++ " already exists. Updating...") ;;;
                 hd <- get_historical_data (JDict d) ;;
                 entries <- py_iter hd ;;
                 kept <- entries_of_other_dates entries D ;;
                 ret (dict_set "historical_data" (JList kept) d)) w1
                = (Ret (dict_set "historical_data" (JList kept) d), w2)).
      { unfold bind at 1. unfold print at 1. fold w2.
        rewrite (bind_Ret _ _ w2 (JList old) w2)
          by (unfold get_historical_data, bind, py_get, ret; now rewrite Hhd).
        rewrite (bind_Ret _ _ w2 old w2) by reflexivity.
        rewrite (bind_Ret _ _ _ _ _ (entries_of_other_dates_entries old D w2 Hwf)).
        reflexivity. }
      rewrite (bind_Ret _ _ _ _ _ Hinner).
      unfold dict_mem. rewrite dict_get_set_eq. cbn [negb].
      destruct (save_to_json_tail E filename
                  (dict_set "historical_data" (JList kept) d) kept
                  (map snapshot_to_json (first :: rest)) w2
                  (dict_get_set_eq _ _ _)
                  (store_dict_writable filename w d w2 Hd Hf1))
        as (w' & Htail & Hfiles & Hs & Ha & Ht).
      exists w'. split; [exact Htail|]. split; [|simpl in *; repeat split; congruence].
      intros p. rewrite Hfiles. simpl. rewrite Hf1, Ht1.
      unfold merged_store, merge_entries. fold kept. now rewrite dict_set_set.
    + rewrite (bind_Ret _ _ w1 d w1) by reflexivity.
      unfold dict_mem. rewrite Hhd. cbn [negb].
      destruct (save_to_json_tail E filename d old
                  (map snapshot_to_json (first :: rest)) w1 Hhd
                  (store_dict_writable filename w d w1 Hd Hf1))
        as (w' & Htail & Hfiles & Hs & Ha & Ht).
      exists w'. split; [exact Htail|]. split; [|repeat split; congruence].
      intros p. rewrite Hfiles. rewrite Hf1, Ht1.
      unfold merged_store, merge_entries. now rewrite (filter_no_date D old Hex).
  - inversion He; subst old. clear He.
    rewrite (bind_Ret _ _ w1 (JList []) w1)
      by (unfold get_historical_data, bind, py_get, ret; now rewrite Hhd).
    rewrite (bind_Ret _ _ w1 [] w1) by reflexivity.
    rewrite (bind_Ret _ _ w1 [] w1) by reflexivity.
    cbn [existsb].
    rewrite (bind_Ret _ _ w1 d w1) by reflexivity.
    unfold dict_mem. rewrite Hhd. cbn [negb].
    destruct (save_to_json_tail E filename
                (dict_set "historical_data" (JList []) d) []
                (map snapshot_to_json (first :: rest)) w1
                (dict_get_set_eq _ _ _)
                (store_dict_writable filename w d w1 Hd Hf1))
      as (w' & Htail & Hfiles & Hs & Ha & Ht).
    exists w'. split; [exact Htail|]. split; [|repeat split; congruence].
    intros p. rewrite Hfiles. rewrite Hf1, Ht1.
    unfold merged_store, merge_entries. simpl filter. now rewrite dict_set_set.
Qed.

Lemma has_date_other D D' entry :
  D' <> D -> has_date D' entry = true -> has_date D entry = false.
Proof.
  unfold has_date, py_eq_str. intros Hne H.
  destruct (entry_date entry) as [[| | |s| |]|]; try discriminate.
  apply String.eqb_eq in H. subst s. now apply String.eqb_neq.
Qed.

Lemma filter_filter_implied {A} (f g : A -> bool) l :
  (forall x, f x = true -> g x = true) ->
  filter f (filter g l) = filter f l.
Proof.
  intros Himp. induction l as [|x l IH]; simpl; [reflexivity|].
  destruct (g x) eqn:Hg; simpl.
  - now rewrite IH.
  - destruct (f x) eqn:Hf; [|exact IH].
    apply Himp in Hf. congruence.
Qed.

(** X9.  The date of the first snapshot decides alone.  When the list mixes
    dates, only the stored entries of the first snapshot's date are removed
    and the whole list is appended: for any other date the store keeps what
    it had and gains, after that, the snapshots of the list that carry that
    date, so that a repository recorded for such a date is then recorded
    twice. *)
Theorem save_to_json_merges_by_first_date :
  forall (E : environment) (first : snapshot) (rest : list snapshot)
    (filename D : string) (w : world) (d : list (string * json))
    (old : list json),
    s_date first = Some D ->
    store_dict (files w filename) = Some d ->
    store_entries d = Some old ->
    exists w' d' entries,
      save_to_json E (first :: rest) filename w = (Ret tt, w')
      /\ store_dict (files w' filename) = Some d'
      /\ dict_get "historical_data" d' = Some (JList entries)
      /\ entries = merge_entries D old (map snapshot_to_json (first :: rest))
      /\ (forall D',
             D' <> D ->
             filter (has_date D') entries
             = app (filter (has_date D') old)
                 (filter (has_date D')
                    (map snapshot_to_json (first :: rest)))).
Proof.
  intros E first rest filename D w d old Hfirst Hd He.
  destruct (save_to_json_merge_first E first rest filename w D d old
              Hfirst Hd He) as (w' & Hsave & Hfiles & _).
  exists w', (merged_store E D d old (first :: rest) (ticks w)),
    (merge_entries D old (map snapshot_to_json (first :: rest))).
  split; [exact Hsave|]. split; [|split; [|split]].
  - rewrite Hfiles, String.eqb_refl. reflexivity.
  - unfold merged_store. rewrite dict_get_set_ne by discriminate.
    apply dict_get_set_eq.
  - reflexivity.
  - intros D' Hne. unfold merge_entries. rewrite filter_app. f_equal.
    apply filter_filter_implied. intros x Hx.
    now rewrite (has_date_other D D' x Hne Hx).
Qed.

Lemma save_to_json_merges_by_first_date_witness :
  exists w' d',
    save_to_json store_env
      [sample_snapshot "beta" (Some "2024-01-07");
       sample_snapshot "alpha" (Some "2024-01-06")]
      json_path (stored_world two_days) = (Ret tt, w')
    /\ store_dict (files w' json_path) = Some d'
    /\ dict_get "historical_data" d'
       = Some (JList
                 (map snapshot_to_json
                    [sample_snapshot "alpha" (Some "2024-01-06");
                     sample_snapshot "beta" (Some "2024-01-07");
                     sample_snapshot "alpha" (Some "2024-01-06")])).
Proof.
  destruct (save_to_json_merges_by_first_date store_env
              (sample_snapshot "beta" (Some "2024-01-07"))
              [sample_snapshot "alpha" (Some "2024-01-06")]
              json_path "2024-01-07" (stored_world two_days) _
              (map snapshot_to_json two_days) eq_refl eq_refl eq_refl)
    as (w' & d' & entries & Hsave & Hd & Hget & Hm & _).
  exists w', d'. split; [exact Hsave|]. split; [exact Hd|].
  rewrite Hget, Hm. reflexivity.
Defined.

(** X10.  What [save_to_json] writes, [load_historical_data] reads back:
    after a merge, loading the file returns the store that was written,
    silently; its ["last_updated"] is the ISO text of the clock reading
    taken by the merge, and every other key the store had beside
    ["historical_data"] is still there with its value. *)
Theorem save_to_json_then_load :
  forall (E : environment) (first : snapshot) (rest : list snapshot)
    (filename D : string) (w : world) (d : list (string * json))
    (old : list json),
    s_date first = Some D ->
    store_dict (files w filename) = Some d ->
    store_entries d = Some old ->
    exists w' d',
      save_to_json E (first :: rest) filename w = (Ret tt, w')
      /\ load_historical_data filename w' = (Ret (JDict d'), w')
      /\ dict_get "historical_data" d'
         = Some (JList (merge_entries D old
                          (map snapshot_to_json (first :: rest))))
      /\ dict_get "last_updated" d'
         = Some (JStr (isoformat E (clock E (ticks w))))
      /\ (forall key,
             key <> "historical_data" -> key <> "last_updated" ->
             dict_get key d' = dict_get key d).
Proof.
  intros E first rest filename D w d old Hfirst Hd He.
  destruct (save_to_json_merge_first E first rest filename w D d old
              Hfirst Hd He) as (w' & Hsave & Hfiles & _).
  exists w', (merged_store E D d old (first :: rest) (ticks w)).
  split; [exact Hsave|]. split; [|split; [|split]].
  - apply load_historical_data_parsed
      with (f := json_file E
                   (JDict (merged_store E D d old (first :: rest) (ticks w)))).
    + rewrite Hfiles. now rewrite String.eqb_refl.
    + reflexivity.
  - unfold merged_store. rewrite dict_get_set_ne by discriminate.
    apply dict_get_set_eq.
  - unfold merged_store. apply dict_get_set_eq.
  - intros key Hk1 Hk2. unfold merged_store.
    rewrite dict_get_set_ne by congruence.
    now rewrite dict_get_set_ne by congruence.
Qed.

Lemma save_to_json_then_load_witness :
  exists w' d',
    save_to_json store_env [sample_snapshot "beta" (Some "2024-01-07")]
      json_path (stored_world two_days) = (Ret tt, w')
    /\ load_historical_data json_path w' = (Ret (JDict d'), w')
    /\ dict_get "last_updated" d' = Some (JStr "2024-01-14T09:30:00").
Proof.
  destruct (save_to_json_then_load store_env
              (sample_snapshot "beta" (Some "2024-01-07")) []
              json_path "2024-01-07" (stored_world two_days) _
              (map snapshot_to_json two_days) eq_refl eq_refl eq_refl)
    as (w' & d' & Hsave & Hload & _ & Hstamp & _).
  exists w', d'. split; [exact Hsave|]. split; [exact Hload | exact Hstamp].
Defined.

(** A store file whose JSON is not an object: [historical.get] is the first
    thing [save_to_json] asks of it. *)
Lemma save_to_json_not_an_object E first rest filename D w f v :
  files w filename = Some f ->
  json_view f = inr v ->
  (forall d, v <> JDict d) ->
  s_date first = Some D ->
  save_to_json E (first :: rest) filename w
  = (Raise (no_attribute v "get"), w).
Proof.
  intros Hf Hv Hnd Hfirst. unfold save_to_json.
  rewrite (bind_Ret _ _ _ _ _ (load_historical_data_parsed _ _ _ _ Hf Hv)).
  rewrite Hfirst.
  destruct v as [| | | | |d]; try reflexivity.
  now destruct (Hnd d).
Qed.

(** Data whose first snapshot has no date, or no data at all. *)
Definition undated (data : list snapshot) : bool :=
  match data with
  | [] => true
  | first :: _ =>
      match s_date first with
      | Some _ => false
      | None => true
      end
  end.

Lemma save_to_json_undated E data filename w :
  undated data = true ->
  loads_and_writes (files w filename) = true ->
  exists w',
    save_to_json E data filename w = (Ret tt, w')
    /\ (forall p,
          files w' p
          = if String.eqb p filename
            then Some (json_file E (JList (map snapshot_to_json data)))
            else files w p)
    /\ sent w' = sent w /\ attempts w' = attempts w /\ ticks w' = ticks w.
Proof.
  intros Hund Hok.
  destruct (load_historical_data_loads filename w Hok)
    as (v & w1 & Hload & Hf & Hs & Ha & Ht).
  assert (Hopen : open_for_writing filename w1 = (Ret tt, w1)).
  { unfold open_for_writing. rewrite Hf. unfold loads_and_writes in Hok.
    destruct (files w filename) as [f|]; [|reflexivity].
    apply andb_prop in Hok as [Hw _]. now rewrite Hw. }
  assert (Hdump :
    exists w',
      (json_dump E (JList (map snapshot_to_json data)) filename ;;;
       print ("Data saved to " ++ filename)) w1 = (Ret tt, w')
      /\ (forall p,
            files w' p
            = if String.eqb p filename
              then Some (json_file E (JList (map snapshot_to_json data)))
              else files w p)
      /\ sent w' = sent w /\ attempts w' = attempts w /\ ticks w' = ticks w).
  { unfold json_dump. unfold bind at 1. rewrite (bind_Ret _ _ _ _ _ Hopen).
    eexists. split; [reflexivity|]. simpl. rewrite Hf, Hs, Ha, Ht.
    repeat split. }
  unfold save_to_json. rewrite (bind_Ret _ _ _ _ _ Hload).
  destruct data as [|first rest]; [exact Hdump|].
  simpl in Hund. destruct (s_date first); [discriminate | exact Hdump].
Qed.

(** X11.  A store file that holds JSON other than an object (a list, a
    string, a number, [null]) stops every dated save: [save_to_json] raises
    the [AttributeError] of [historical.get] and leaves the world as it
    found it, the file included; nothing is printed. *)
Theorem save_to_json_store_not_an_object :
  forall (E : environment) (first : snapshot) (rest : list snapshot)
    (filename D : string) (w : world) (f : file) (v : json),
    files w filename = Some f ->
    json_view f = inr v ->
    (forall d, v <> JDict d) ->
    s_date first = Some D ->
    save_to_json E (first :: rest) filename w
    = (Raise (mk_exn AttributeError
                ("'" ++ type_name v ++ "' object has no attribute 'get'")
                None),
       w).
Proof. exact save_to_json_not_an_object. Qed.

Lemma save_to_json_store_not_an_object_witness :
  save_to_json store_env [sample_snapshot "alpha" (Some "2024-01-07")]
    json_path
    (world_with_file json_path (json_file store_env (JStr "no store")))
  = (Raise (mk_exn AttributeError "'str' object has no attribute 'get'" None),
     world_with_file json_path (json_file store_env (JStr "no store"))).
Proof.
  apply (save_to_json_store_not_an_object store_env
           (sample_snapshot "alpha" (Some "2024-01-07")) [] json_path
           "2024-01-07"
           (world_with_file json_path (json_file store_env (JStr "no store")))
           (json_file store_env (JStr "no store")) (JStr "no store")).
  - reflexivity.
  - reflexivity.
  - discriminate.
  - reflexivity.
Defined.

(** X12.  A save of the empty list spoils the store for the saves after
    it: [save_to_json] with the empty list succeeds and leaves a bare list
    in the file, and the next save of dated snapshots to that file fails
    with ['list' object has no attribute 'get'], writing nothing. *)
Theorem save_to_json_empty_then_dated_fails :
  forall (E : environment) (filename : string) (w : world)
    (first : snapshot) (rest : list snapshot) (D : string),
    loads_and_writes (files w filename) = true ->
    s_date first = Some D ->
    exists w1,
      save_to_json E [] filename w = (Ret tt, w1)
      /\ save_to_json E (first :: rest) filename w1
         = (Raise (mk_exn AttributeError
                     "'list' object has no attribute 'get'" None),
            w1).
Proof.
  intros E filename w first rest D Hok Hfirst.
  destruct (save_to_json_undated E [] filename w eq_refl Hok)
    as (w1 & Hsave & Hfiles & _).
  exists w1. split; [exact Hsave|].
  apply (save_to_json_not_an_object E first rest filename D w1
           (json_file E (JList [])) (JList [])).
  - rewrite Hfiles. now rewrite String.eqb_refl.
  - reflexivity.
  - discriminate.
  - exact Hfirst.
Qed.

Lemma save_to_json_empty_then_dated_fails_witness :
  exists w1,
    save_to_json store_env [] json_path (stored_world two_days) = (Ret tt, w1)
    /\ save_to_json store_env [sample_snapshot "beta" (Some "2024-01-08")]
         json_path w1
       = (Raise (mk_exn AttributeError
                   "'list' object has no attribute 'get'" None),
          w1).
Proof.
  apply (save_to_json_empty_then_dated_fails store_env json_path
           (stored_world two_days)
           (sample_snapshot "beta" (Some "2024-01-08")) [] "2024-01-08").
  - reflexivity.
  - reflexivity.
Defined.

(** X13.  The fallback for data without a date looks at the first snapshot
    only.  When it has no date, the file is replaced by the bare list of
    the snapshots given, whatever dates the later ones carry: the stored
    history is gone and the result is no store any more.  No request is
    sent and the clock is not read. *)
Theorem save_to_json_undated_replaces_store :
  forall (E : environment) (first : snapshot) (rest : list snapshot)
    (filename : string) (w : world),
    s_date first = None ->
    loads_and_writes (files w filename) = true ->
    exists w',
      save_to_json E (first :: rest) filename w = (Ret tt, w')
      /\ files w' filename
         = Some (json_file E (JList (map snapshot_to_json (first :: rest))))
      /\ store_dict (files w' filename) = None
      /\ (forall p, p <> filename -> files w' p = files w p)
      /\ sent w' = sent w /\ ticks w' = ticks w.
Proof.
  intros E first rest filename w Hfirst Hok.
  assert (Hund : undated (first :: rest) = true) by (simpl; now rewrite Hfirst).
  destruct (save_to_json_undated E (first :: rest) filename w Hund Hok)
    as (w' & Hsave & Hfiles & Hs & _ & Ht).
  exists w'. split; [exact Hsave|].
  assert (Hfile : files w' filename
                  = Some (json_file E
                            (JList (map snapshot_to_json (first :: rest))))).
  { rewrite Hfiles. now rewrite String.eqb_refl. }
  split; [exact Hfile|]. split; [now rewrite Hfile|].
  split; [|split; assumption].
  intros p Hp. rewrite Hfiles.
  destruct (String.eqb_spec p filename); [contradiction | reflexivity].
Qed.

Lemma save_to_json_undated_replaces_store_witness :
  exists w',
    save_to_json store_env
      [sample_snapshot "beta" None;
       sample_snapshot "alpha" (Some "2024-01-08")]
      json_path (stored_world two_days) = (Ret tt, w')
    /\ files w' json_path
       = Some (json_file store_env
                 (JList (map snapshot_to_json
                           [sample_snapshot "beta" None;
                            sample_snapshot "alpha" (Some "2024-01-08")]))).
Proof.
  destruct (save_to_json_undated_replaces_store store_env
              (sample_snapshot "beta" None)
              [sample_snapshot "alpha" (Some "2024-01-08")]
              json_path (stored_world two_days) eq_refl eq_refl)
    as (w' & Hsave & Hfile & _).
  exists w'. split; [exact Hsave | exact Hfile].
Defined.

(** ** Historical merge store: what the CSV backend does with odd input *)

(** The rows [save_to_csv] keeps of those it read. *)
Definition kept_rows (target_date : string) (rows : list row_dict)
  : list row_dict :=
  if str_truthy target_date then
    filter
      (fun row =>
         negb (cell_eq_str (dict_get "date" (row_fields row)) target_date))
      rows
  else rows.

(** The world after the [with open(filename, "w", ...)] block wrote
    [table], and then reported [said]. *)
Definition csv_written (E : environment) (filename : string)
    (table : list (list string)) (said : list string) (w : world) : world :=
  {| files :=
       fun p =>
         if String.eqb p filename then Some (csv_file E table) else files w p;
     stdout := (stdout w ++ said)%list; sent := sent w;
     attempts := attempts w; ticks := ticks w |}.

Definition saved_line (filename : string) : string :=
  "Data saved to " ++ filename ++ " (historical record)".

(** [save_to_csv] over a file that can be read as CSV and written. *)
Lemma save_to_csv_existing E first rest filename w f table :
  files w filename = Some f ->
  writable f = true ->
  csv_view f = inr table ->
  save_to_csv E (first :: rest) filename w
  = match
      writerows fieldnames
        (kept_rows (default "" (s_date first)) (DictReader table)
         ++ map new_row (first :: rest))%list
    with
    | (lines, None) =>
        (Ret tt,
         csv_written E filename (fieldnames :: lines) [saved_line filename] w)
    | (lines, Some e) =>
        (Raise e, csv_written E filename (fieldnames :: lines) [] w)
    end.
Proof.
  intros Hf Hw Hv.
  unfold save_to_csv, bind at 1, path_exists. rewrite Hf.
  unfold bind at 1, try_except, read_csv. rewrite Hf, Hv.
  fold (kept_rows (default "" (s_date first)) (DictReader table)).
  destruct (kept_rows (default "" (s_date first)) (DictReader table)
            ++ map new_row (first :: rest))%list as [|row0 rows0] eqn:Hrows.
  { apply app_eq_nil in Hrows as [_ Hnil]. discriminate. }
  rewrite <- Hrows. clear Hrows row0 rows0.
  unfold write_csv, bind, open_for_writing. rewrite Hf, Hw.
  destruct (writerows fieldnames _) as [lines [e|]];
    unfold set_file, raise, ret, print, csv_written, csv_file; simpl;
    rewrite ?app_nil_r; reflexivity.
Qed.

(** X14.  An existing CSV file that cannot be read, for whatever reason
    (the handler is [except Exception]), is not an obstacle: the warning is
    printed, the file is replaced by the header and the rows of the new
    snapshots alone, and what it held is lost. *)
Theorem save_to_csv_unreadable_file_replaced :
  forall (E : environment) (first : snapshot) (rest : list snapshot)
    (filename : string) (w : world) (f : file) (e : exn),
    files w filename = Some f ->
    writable f = true ->
    csv_view f = inl e ->
    save_to_csv E (first :: rest) filename w
    = (Ret tt,
       csv_written E filename (fieldnames :: map csv_line (first :: rest))
         ["Warning: Could not read existing CSV: " ++ exn_msg e;
          saved_line filename] w).
Proof.
  intros E first rest filename w f e Hf Hw Hv.
  unfold save_to_csv, bind at 1, path_exists. rewrite Hf.
  unfold bind at 1, try_except, read_csv. rewrite Hf, Hv.
  unfold is_Exception. unfold bind at 1, print at 1. unfold ret at 1.
  assert (Hkept : forall D,
             (if str_truthy D
              then filter
                     (fun row =>
                        negb (cell_eq_str (dict_get "date" (row_fields row)) D))
                     (@nil row_dict)
              else []) = []) by (intros D; now destruct (str_truthy D)).
  rewrite Hkept. cbn [app].
  cbn [map]. unfold write_csv.
  rewrite <- (map_cons new_row first rest), writerows_new.
  unfold bind, open_for_writing. cbn [files]. rewrite Hf, Hw.
  unfold set_file, ret, print, csv_written, csv_file. cbn.
  rewrite <- app_assoc. reflexivity.
Qed.

Lemma save_to_csv_unreadable_file_replaced_witness :
  save_to_csv store_env [sample_snapshot "alpha" (Some "2024-01-07")] csv_path
    (world_with_file csv_path undecodable_file)
  = (Ret tt,
     csv_written store_env csv_path
       [fieldnames; csv_line (sample_snapshot "alpha" (Some "2024-01-07"))]
       ["Warning: Could not read existing CSV: 'utf-8' codec can't decode byte 0xff in position 0: invalid start byte";
        "Data saved to github_repo_data.csv (historical record)"]
       (world_with_file csv_path undecodable_file)).
Proof.
  exact (save_to_csv_unreadable_file_replaced store_env
           (sample_snapshot "alpha" (Some "2024-01-07")) [] csv_path
           (world_with_file csv_path undecodable_file) undecodable_file
           (mk_exn UnicodeDecodeError
              "'utf-8' codec can't decode byte 0xff in position 0: invalid start byte"
              None)
           eq_refl eq_refl eq_refl).
Defined.

(** *** Rows that do not have the seventeen cells of the header *)

Definition nonblank (line : list string) : bool :=
  match line with [] => false | _ => true end.

(** A short line as the writer puts it back: the missing cells empty. *)
Definition pad_line (line : list string) : list string :=
  (line ++ repeat "" (17 - List.length line))%list.

Ltac up_to_seventeen_cells line H :=
  do 18 (destruct line as [|? line]; [try reflexivity; try discriminate|]);
  simpl in H; try discriminate; try lia.

Lemma dict_to_list_read_short line :
  (List.length line <=? 17)%nat = true ->
  _dict_to_list fieldnames (dict_reader_row fieldnames line)
  = inr (pad_line line).
Proof. intros H. up_to_seventeen_cells line H. Qed.

Lemma read_short_line_date line D :
  nonblank line = true ->
  (List.length line <=? 17)%nat = true ->
  cell_eq_str (dict_get "date" (row_fields (dict_reader_row fieldnames line))) D
  = line_has_date D line.
Proof.
  intros Hnb H. destruct line as [|c line]; [discriminate|]. clear Hnb.
  do 17 (destruct line as [|? line]; [reflexivity|]).
  simpl in H. discriminate.
Qed.

Lemma writerows_read_short lines :
  forallb (fun line => (List.length line <=? 17)%nat) lines = true ->
  writerows fieldnames (map (dict_reader_row fieldnames) lines)
  = (map pad_line lines, None).
Proof.
  induction lines as [|line lines IH]; intros H; [reflexivity|].
  simpl in H. apply andb_prop in H as [Hl Hrest].
  cbn [map writerows]. rewrite (dict_to_list_read_short line Hl).
  now rewrite (IH Hrest).
Qed.

Lemma kept_rows_short D lines :
  D <> "" ->
  forallb (fun line => (List.length line <=? 17)%nat) lines = true ->
  kept_rows D (map (dict_reader_row fieldnames) (filter nonblank lines))
  = map (dict_reader_row fieldnames)
      (filter (fun line => nonblank line && negb (line_has_date D line))
         lines).
Proof.
  intros HD. unfold kept_rows.
  replace (str_truthy D) with true by (destruct D; [contradiction | reflexivity]).
  induction lines as [|line lines IH]; intros H; [reflexivity|].
  simpl in H. apply andb_prop in H as [Hl Hrest].
  cbn [filter]. destruct (nonblank line) eqn:Hnb; cbn [andb map filter].
  - rewrite (read_short_line_date line D Hnb Hl).
    destruct (negb (line_has_date D line)); cbn [map]; now rewrite (IH Hrest).
  - exact (IH Hrest).
Qed.

Lemma forallb_filter {A} (f g : A -> bool) l :
  forallb f l = true -> forallb f (filter g l) = true.
Proof.
  induction l as [|x l IH]; simpl; [reflexivity|].
  intros H. apply andb_prop in H as [Hx Hl].
  destruct (g x); simpl; [now rewrite Hx, IH | now apply IH].
Qed.

(** X15.  Blank lines and short lines of an existing CSV file: a save
    drops the blank lines, drops the lines of the date being saved, and
    writes every other line back with its cells in place and the missing
    ones empty, so that each line has seventeen cells afterwards; the rows
    of the new snapshots follow. *)
Theorem save_to_csv_pads_short_lines :
  forall (E : environment) (first : snapshot) (rest : list snapshot)
    (filename D : string) (w : world) (f : file)
    (lines : list (list string)),
    s_date first = Some D ->
    D <> "" ->
    files w filename = Some f ->
    writable f = true ->
    csv_view f = inr (fieldnames :: lines) ->
    forallb (fun line => (List.length line <=? 17)%nat) lines = true ->
    save_to_csv E (first :: rest) filename w
    = (Ret tt,
       csv_written E filename
         (fieldnames
            :: app (map pad_line
                      (filter
                         (fun line =>
                            nonblank line && negb (line_has_date D line))
                         lines))
                 (map csv_line (first :: rest)))
         [saved_line filename] w)
    /\ Forall (fun line => List.length line = 17%nat)
         (app (map pad_line
                 (filter
                    (fun line => nonblank line && negb (line_has_date D line))
                    lines))
            (map csv_line (first :: rest))).
Proof.
  intros E first rest filename D w f lines Hfirst HD Hf Hw Hv Hshort. split.
  - rewrite (save_to_csv_existing E first rest filename w f _ Hf Hw Hv).
    rewrite Hfirst. cbn [default]. unfold DictReader.
    fold nonblank. rewrite (kept_rows_short D lines HD Hshort).
    rewrite (writerows_app _ _ _ _
               (writerows_read_short _ (forallb_filter _ _ _ Hshort))).
    now rewrite writerows_new.
  - apply Forall_app. split.
    + apply Forall_forall. intros line Hin.
      apply in_map_iff in Hin as (l0 & <- & Hin).
      apply filter_In in Hin as [Hin _].
      rewrite forallb_forall in Hshort. specialize (Hshort l0 Hin).
      apply Nat.leb_le in Hshort. unfold pad_line.
      rewrite length_app, repeat_length. lia.
    + apply Forall_forall. intros line Hin.
      apply in_map_iff in Hin as (s & <- & _). reflexivity.
Qed.

Lemma save_to_csv_pads_short_lines_witness :
  save_to_csv store_env [sample_snapshot "beta" (Some "2024-01-07")] csv_path
    (world_with_file csv_path
       (csv_file store_env
          [fieldnames; ["2024-01-06"; "Sesquii/alpha"]; [];
           ["2024-01-07"; "Sesquii/alpha"; "False"]]))
  = (Ret tt,
     csv_written store_env csv_path
       [fieldnames;
        ["2024-01-06"; "Sesquii/alpha"; ""; ""; ""; ""; ""; ""; ""; ""; "";
         ""; ""; ""; ""; ""; ""];
        csv_line (sample_snapshot "beta" (Some "2024-01-07"))]
       ["Data saved to github_repo_data.csv (historical record)"]
       (world_with_file csv_path
          (csv_file store_env
             [fieldnames; ["2024-01-06"; "Sesquii/alpha"]; [];
              ["2024-01-07"; "Sesquii/alpha"; "False"]]))).
Proof.
  exact (proj1
           (save_to_csv_pads_short_lines store_env
              (sample_snapshot "beta" (Some "2024-01-07")) [] csv_path
              "2024-01-07"
              (world_with_file csv_path
                 (csv_file store_env
                    [fieldnames; ["2024-01-06"; "Sesquii/alpha"]; [];
                     ["2024-01-07"; "Sesquii/alpha"; "False"]]))
              (csv_file store_env
                 [fieldnames; ["2024-01-06"; "Sesquii/alpha"]; [];
                  ["2024-01-07"; "Sesquii/alpha"; "False"]])
              [["2024-01-06"; "Sesquii/alpha"]; [];
               ["2024-01-07"; "Sesquii/alpha"; "False"]]
              eq_refl ltac:(discriminate) eq_refl eq_refl eq_refl eq_refl)).
Defined.

Lemma dict_to_list_read_long line :
  (17 <? List.length line)%nat = true ->
  _dict_to_list fieldnames (dict_reader_row fieldnames line)
  = inl (mk_exn ValueError "dict contains fields not in fieldnames: None"
           None).
Proof.
  intros H. unfold _dict_to_list, dict_reader_row.
  replace (List.length fieldnames) with 17%nat by reflexivity.
  now rewrite H.
Qed.

Lemma read_long_line_date line D :
  (17 <? List.length line)%nat = true ->
  cell_eq_str (dict_get "date" (row_fields (dict_reader_row fieldnames line))) D
  = line_has_date D line.
Proof.
  intros H.
  do 18 (destruct line as [|? line]; [discriminate|]). reflexivity.
Qed.

Lemma writerows_stops names rows1 row rows2 lines1 e :
  writerows names rows1 = (lines1, None) ->
  _dict_to_list names row = inl e ->
  writerows names (rows1 ++ row :: rows2) = (lines1, Some e).
Proof.
  intros H1 Hrow. rewrite (writerows_app _ _ _ _ H1).
  cbn [writerows]. rewrite Hrow. cbn [fst snd]. now rewrite app_nil_r.
Qed.

(** X16.  One line with more cells than the header spoils the store.  The
    reader puts the surplus cells under the key [None], which the writer
    refuses: when such a line survives the filter by date, [save_to_csv]
    raises [ValueError] after the file was opened for writing, and the file
    is left with the header and the kept lines that came before the long
    one; the long line, every line after it and the new snapshots are not
    in it.  Nothing is printed. *)
Theorem save_to_csv_long_line_truncates :
  forall (E : environment) (first : snapshot) (rest : list snapshot)
    (filename D : string) (w : world) (f : file)
    (before : list (list string)) (long : list string)
    (after : list (list string)),
    s_date first = Some D ->
    D <> "" ->
    files w filename = Some f ->
    writable f = true ->
    csv_view f = inr (fieldnames :: app before (long :: after)) ->
    forallb (fun line => (List.length line =? 17)%nat) before = true ->
    (17 <? List.length long)%nat = true ->
    line_has_date D long = false ->
    save_to_csv E (first :: rest) filename w
    = (Raise (mk_exn ValueError
                "dict contains fields not in fieldnames: None" None),
       csv_written E filename
         (fieldnames
            :: filter (fun line => negb (line_has_date D line)) before)
         [] w).
Proof.
  intros E first rest filename D w f before long after
    Hfirst HD Hf Hw Hv Hbefore Hlong Hdate.
  rewrite (save_to_csv_existing E first rest filename w f _ Hf Hw Hv).
  rewrite Hfirst. cbn [default]. unfold DictReader, kept_rows.
  replace (str_truthy D) with true by (destruct D; [contradiction | reflexivity]).
  rewrite filter_app, (nonblank_lines before Hbefore).
  cbn [filter].
  replace (match long with [] => false | _ :: _ => true end) with true
    by (destruct long; [discriminate | reflexivity]).
  rewrite map_app, filter_app. cbn [map filter].
  rewrite (read_long_line_date long D Hlong), Hdate. cbn [negb].
  rewrite (filter_read_lines D before Hbefore).
  rewrite <- app_assoc. cbn [app].
  rewrite (writerows_stops _ _ _ _ _ _
             (writerows_read _ (filter_lines_length D before Hbefore))
             (dict_to_list_read_long long Hlong)).
  reflexivity.
Qed.

(** A line of the file with a comment cell added by hand. *)
Definition annotated_line : list string :=
  app (csv_line (sample_snapshot "alpha" (Some "2024-01-05"))) ["checked"].

Lemma save_to_csv_long_line_truncates_witness :
  save_to_csv store_env [sample_snapshot "beta" (Some "2024-01-07")] csv_path
    (world_with_file csv_path
       (csv_file store_env
          [fieldnames;
           csv_line (sample_snapshot "alpha" (Some "2024-01-04"));
           annotated_line;
           csv_line (sample_snapshot "alpha" (Some "2024-01-06"))]))
  = (Raise (mk_exn ValueError
              "dict contains fields not in fieldnames: None" None),
     csv_written store_env csv_path
       [fieldnames; csv_line (sample_snapshot "alpha" (Some "2024-01-04"))]
       []
       (world_with_file csv_path
          (csv_file store_env
             [fieldnames;
              csv_line (sample_snapshot "alpha" (Some "2024-01-04"));
              annotated_line;
              csv_line (sample_snapshot "alpha" (Some "2024-01-06"))]))).
Proof.
  exact (save_to_csv_long_line_truncates store_env
           (sample_snapshot "beta" (Some "2024-01-07")) [] csv_path
           "2024-01-07"
           (world_with_file csv_path
              (csv_file store_env
                 [fieldnames;
                  csv_line (sample_snapshot "alpha" (Some "2024-01-04"));
                  annotated_line;
                  csv_line (sample_snapshot "alpha" (Some "2024-01-06"))]))
           (csv_file store_env
              [fieldnames;
               csv_line (sample_snapshot "alpha" (Some "2024-01-04"));
               annotated_line;
               csv_line (sample_snapshot "alpha" (Some "2024-01-06"))])
           [csv_line (sample_snapshot "alpha" (Some "2024-01-04"))]
           annotated_line
           [csv_line (sample_snapshot "alpha" (Some "2024-01-06"))]
           eq_refl ltac:(discriminate) eq_refl eq_refl eq_refl eq_refl
           eq_refl eq_refl).
Defined.

(** ** What a run leaves alone *)

(** A computation keeps a relation between the world it starts in and the
    world it ends in, whatever its outcome. *)
Definition keeps {A} (R : world -> world -> Prop) (m : M A) : Prop :=
  forall w r w', m w = (r, w') -> R w w'.

Section Keeps.
Variable R : world -> world -> Prop.
Hypothesis R_refl : forall w, R w w.
Hypothesis R_trans : forall w1 w2 w3, R w1 w2 -> R w2 w3 -> R w1 w3.

Lemma keeps_ret {A} (a : A) : keeps R (ret a).
Proof. intros w r w' H. inversion H; subst. apply R_refl. Qed.

Lemma keeps_raise {A} (e : exn) : keeps R (@raise A e).
Proof. intros w r w' H. inversion H; subst. apply R_refl. Qed.

Lemma keeps_timeout {A} : keeps R (@timeout A).
Proof. intros w r w' H. inversion H; subst. apply R_refl. Qed.

Lemma keeps_bind {A B} (m : M A) (k : A -> M B) :
  keeps R m -> (forall a, keeps R (k a)) -> keeps R (bind m k).
Proof.
  intros Hm Hk w r w' H. unfold bind in H.
  destruct (m w) as [[a|e|] w1] eqn:Hmw.
  - exact (R_trans _ _ _ (Hm _ _ _ Hmw) (Hk a _ _ _ H)).
  - inversion H; subst. exact (Hm _ _ _ Hmw).
  - inversion H; subst. exact (Hm _ _ _ Hmw).
Qed.

Lemma keeps_try_except {A} (body : M A) catches handler :
  keeps R body -> (forall e, keeps R (handler e)) ->
  keeps R (try_except body catches handler).
Proof.
  intros Hb Hh w r w' H. unfold try_except in H.
  destruct (body w) as [[a|e|] w1] eqn:Hbw.
  - inversion H; subst. exact (Hb _ _ _ Hbw).
  - destruct (catches (exn_class_of e)).
    + exact (R_trans _ _ _ (Hb _ _ _ Hbw) (Hh e _ _ _ H)).
    + inversion H; subst. exact (Hb _ _ _ Hbw).
  - inversion H; subst. exact (Hb _ _ _ Hbw).
Qed.
End Keeps.

(** *** Collecting: files untouched, requests to the API with the token *)

(** A request of this scraper: it carries the headers of the session and
    goes to a URL under the base URL. *)
Definition api_request (self : GitHubScraper) (rq : request) : Prop :=
  req_headers rq = session_headers (session self)
  /\ String.prefix (base_url self) (req_url rq) = true.

(** From [w] to [w'] no file changed, and the requests sent were requests
    of this scraper, added after those sent before. *)
Definition only_requests (self : GitHubScraper) (w w' : world) : Prop :=
  files w' = files w
  /\ exists more,
       sent w' = app (sent w) more /\ Forall (api_request self) more.

Lemma only_requests_refl self w : only_requests self w w.
Proof.
  split; [reflexivity|]. exists []. split; [now rewrite app_nil_r | constructor].
Qed.

Lemma only_requests_trans self w1 w2 w3 :
  only_requests self w1 w2 -> only_requests self w2 w3 ->
  only_requests self w1 w3.
Proof.
  intros (Hf1 & m1 & Hs1 & Hm1) (Hf2 & m2 & Hs2 & Hm2).
  split; [congruence|]. exists (m1 ++ m2)%list. split.
  - rewrite Hs2, Hs1. now rewrite app_assoc.
  - apply Forall_app. now split.
Qed.

Lemma prefix_append (a b : string) : String.prefix a (a ++ b) = true.
Proof.
  induction a as [|c a IH]; simpl.
  - now destruct b.
  - destruct (Ascii.ascii_dec c c); [exact IH | contradiction].
Qed.

Lemma keeps_print self s : keeps (only_requests self) (print s).
Proof.
  intros w r w' H. inversion H; subst.
  split; [reflexivity|]. exists []. simpl.
  split; [now rewrite app_nil_r | constructor].
Qed.

Lemma keeps_now E self : keeps (only_requests self) (now E).
Proof.
  intros w r w' H. inversion H; subst.
  split; [reflexivity|]. exists []. simpl.
  split; [now rewrite app_nil_r | constructor].
Qed.

Lemma keeps_make_request E self k path params :
  keeps (only_requests self)
    (_make_request E self k (base_url self ++ path) params).
Proof.
  intros w r w' H.
  destruct (make_request_frame _ _ _ _ _ _ _ _ H) as (Hs & _ & Hf & _).
  split; [exact Hf|]. eexists. split; [exact Hs|].
  constructor; [|constructor]. split; [reflexivity|]. apply prefix_append.
Qed.

Lemma keeps_getitem {A} self key (v : option A) :
  keeps (only_requests self) (getitem key v).
Proof.
  destruct v; unfold getitem;
    [apply (keeps_ret _ (only_requests_refl self))
    | apply (keeps_raise _ (only_requests_refl self))].
Qed.

Ltac keeps_step self :=
  first
    [ apply (keeps_ret _ (only_requests_refl self))
    | apply keeps_getitem
    | apply (keeps_raise _ (only_requests_refl self))
    | apply (keeps_timeout _ (only_requests_refl self))
    | apply keeps_print
    | apply keeps_now
    | exact (keeps_make_request _ _ RepoListEP _ _)
    | exact (keeps_make_request _ _ TrafficEP _ _)
    | exact (keeps_make_request _ _ CommitListEP _ _)
    | exact (keeps_make_request _ _ CommitEP _ _)
    | apply (keeps_bind _ (only_requests_trans self)); [|intros ?]
    | apply (keeps_try_except _ (only_requests_trans self)); [|intros ?] ].

Lemma keeps_get_all_repos_loop E self path :
  forall fuel page per_page repos,
    keeps (only_requests self)
      (get_all_repos_loop E fuel self (base_url self ++ path) page per_page
         repos).
Proof.
  induction fuel as [|fuel IH]; intros page per_page repos;
    cbn [get_all_repos_loop].
  - keeps_step self.
  - keeps_step self; [keeps_step self|].
    destruct a as [data|]; [|keeps_step self].
    destruct (List.length data =? 0)%nat; [keeps_step self|].
    destruct (Z.of_nat (List.length data) <? per_page)%Z;
      [keeps_step self | apply IH].
Qed.

Lemma keeps_get_commits_loop E self path since until :
  forall fuel page per_page commits,
    keeps (only_requests self)
      (get_commits_loop E fuel self (base_url self ++ path) since until page
         per_page commits).
Proof.
  induction fuel as [|fuel IH]; intros page per_page commits;
    cbn [get_commits_loop].
  - keeps_step self.
  - keeps_step self; [keeps_step self|].
    destruct a as [data|]; [|keeps_step self].
    destruct (List.length data =? 0)%nat; [keeps_step self|].
    destruct (Z.of_nat (List.length data) <? per_page)%Z;
      [keeps_step self | apply IH].
Qed.

Lemma keeps_sum_commit_details E self owner repo :
  forall commits total_additions total_deletions,
    keeps (only_requests self)
      (sum_commit_details E self owner repo commits total_additions
         total_deletions).
Proof.
  induction commits as [|commit rest IH];
    intros total_additions total_deletions; cbn [sum_commit_details].
  - keeps_step self.
  - keeps_step self; [keeps_step self|].
    destruct a as [detail|]; [destruct (detail_stats detail)|]; apply IH.
Qed.

Lemma keeps_get_commit_stats E fuel self owner repo since until :
  keeps (only_requests self)
    (get_commit_stats E fuel self owner repo since until).
Proof.
  unfold get_commit_stats, get_commits.
  keeps_step self; [apply keeps_get_commits_loop|].
  keeps_step self; [apply keeps_sum_commit_details|].
  destruct a0. keeps_step self.
Qed.

Lemma keeps_get_repo_stats E fuel self repo target_date :
  keeps (only_requests self) (get_repo_stats E fuel self repo target_date).
Proof.
  unfold get_repo_stats, get_traffic_views, get_traffic_clones, strptime.
  keeps_step self; [keeps_step self|].
  keeps_step self; [destruct (strptime_ymd E target_date); keeps_step self|].
  keeps_step self; [keeps_step self|].
  keeps_step self; [keeps_step self|].
  keeps_step self; [apply keeps_get_commit_stats|].
  keeps_step self; [keeps_step self|].
  keeps_step self; [keeps_step self|].
  keeps_step self.
Qed.

Lemma keeps_scrape_loop E fuel self target_date :
  forall repos all_stats,
    keeps (only_requests self)
      (scrape_loop E fuel self target_date repos all_stats).
Proof.
  induction repos as [|repo rest IH]; intros all_stats; cbn [scrape_loop].
  - keeps_step self.
  - keeps_step self; [|apply IH].
    keeps_step self.
    + keeps_step self; [apply keeps_get_repo_stats | keeps_step self].
    + keeps_step self; [keeps_step self|].
      keeps_step self; keeps_step self.
Qed.

Lemma keeps_scrape_all_repos E fuel self days_ago :
  keeps (only_requests self) (scrape_all_repos E fuel self days_ago).
Proof.
  unfold scrape_all_repos, days_before, get_all_repos.
  keeps_step self; [keeps_step self|].
  keeps_step self; [destruct (minus_days E a days_ago); keeps_step self|].
  keeps_step self; [keeps_step self|].
  keeps_step self; [|apply keeps_scrape_loop].
  keeps_step self; [apply keeps_get_all_repos_loop|].
  keeps_step self; keeps_step self.
Qed.

(** X17.  Collecting is read-only and authenticated.  However a run of
    [scrape_all_repos] ends (a list of snapshots, an exception, or the
    pagination still going when the fuel is spent), it has changed no
    file, and every request it has sent went to a URL under
    [https://api.github.com] with the headers of the session
    [_create_session] built: among them [Authorization] is
    [token <token>], [Accept] is [application/vnd.github.v3+json] and
    [User-Agent] is [GitHub-Repo-Scraper], next to the headers a session
    has from the start. *)
Theorem scrape_all_repos_read_only_authenticated :
  forall (E : environment) (fuel : nat) (token username : string)
    (days_ago : Z) (w : world) (r : res (list snapshot)) (w' : world),
    scrape_all_repos E fuel (__init__ token username) days_ago w = (r, w') ->
    files w' = files w
    /\ exists more,
         sent w' = app (sent w) more
         /\ Forall
              (fun rq =>
                 req_headers rq = session_headers (_create_session token)
                 /\ dict_get "Authorization" (req_headers rq)
                    = Some ("token " ++ token)
                 /\ dict_get "Accept" (req_headers rq)
                    = Some "application/vnd.github.v3+json"
                 /\ dict_get "User-Agent" (req_headers rq)
                    = Some "GitHub-Repo-Scraper"
                 /\ String.prefix "https://api.github.com" (req_url rq)
                    = true)
              more.
Proof.
  intros E fuel token username days_ago w r w' H.
  destruct (keeps_scrape_all_repos E fuel (__init__ token username) days_ago
              w r w' H) as (Hf & more & Hs & Hall).
  split; [exact Hf|]. exists more. split; [exact Hs|].
  apply Forall_forall. intros rq Hin.
  rewrite Forall_forall in Hall. destruct (Hall rq Hin) as [Hh Hp].
  cbn [__init__ session base_url] in Hh, Hp.
  split; [exact Hh|]. rewrite Hh.
  repeat split; try reflexivity. exact Hp.
Qed.

Lemma scrape_all_repos_read_only_authenticated_witness :
  exists data w',
    scrape_all_repos flaky_env 1 tester 7 empty_world = (Ret data, w')
    /\ files w' = files empty_world
    /\ Forall
         (fun rq =>
            dict_get "Authorization" (req_headers rq)
            = Some "token ghp_token")
         (sent w').
Proof.
  eassert (Hrun : scrape_all_repos flaky_env 1 tester 7 empty_world
                  = (Ret _, _)) by (cbv; reflexivity).
  destruct (scrape_all_repos_read_only_authenticated _ _ _ _ _ _ _ _ Hrun)
    as (Hf & more & Hs & Hall).
  do 2 eexists. split; [exact Hrun|]. split; [exact Hf|].
  rewrite Hs. cbn [sent empty_world app].
  apply Forall_forall. intros rq Hin.
  rewrite Forall_forall in Hall.
  destruct (Hall rq Hin) as (_ & Ha & _). exact Ha.
Defined.

(** *** Saving: one file, no request *)

(** From [w] to [w'] no file but [filename] changed, and nothing was sent
    or attempted. *)
Definition only_file (filename : string) (w w' : world) : Prop :=
  (forall p, p <> filename -> files w' p = files w p)
  /\ sent w' = sent w /\ attempts w' = attempts w.

Lemma only_file_refl filename w : only_file filename w w.
Proof. repeat split. Qed.

Lemma only_file_trans filename w1 w2 w3 :
  only_file filename w1 w2 -> only_file filename w2 w3 ->
  only_file filename w1 w3.
Proof.
  intros (Hf1 & Hs1 & Ha1) (Hf2 & Hs2 & Ha2). repeat split; try congruence.
  intros p Hp. now rewrite (Hf2 p Hp), (Hf1 p Hp).
Qed.

(** A computation that does not change the world. *)
Lemma keeps_unchanged {A} R (m : M A) :
  (forall w, R w w) -> (forall w, snd (m w) = w) -> keeps R m.
Proof.
  intros Hrefl Hm w r w' H. specialize (Hm w). rewrite H in Hm. simpl in Hm.
  subst w'. apply Hrefl.
Qed.

Lemma keeps_set_file filename f : keeps (only_file filename) (set_file filename f).
Proof.
  intros w r w' H. inversion H; subst. repeat split. intros p Hp. simpl.
  destruct (String.eqb_spec p filename); [contradiction | reflexivity].
Qed.

Lemma only_file_print filename s : keeps (only_file filename) (print s).
Proof. intros w r w' H. inversion H; subst. repeat split. Qed.

Lemma only_file_now E filename : keeps (only_file filename) (now E).
Proof. intros w r w' H. inversion H; subst. repeat split. Qed.

Lemma only_file_py_get filename key v :
  keeps (only_file filename) (py_get key v).
Proof.
  destruct v; unfold py_get;
    first [apply (keeps_ret _ (only_file_refl filename))
          | apply (keeps_raise _ (only_file_refl filename))].
Qed.

Lemma only_file_py_iter filename v : keeps (only_file filename) (py_iter v).
Proof.
  destruct v; unfold py_iter;
    first [apply (keeps_ret _ (only_file_refl filename))
          | apply (keeps_raise _ (only_file_refl filename))].
Qed.

Lemma only_file_py_hash filename v : keeps (only_file filename) (py_hash v).
Proof.
  destruct v as [[| | | | |]|]; unfold py_hash;
    first [apply (keeps_ret _ (only_file_refl filename))
          | apply (keeps_raise _ (only_file_refl filename))].
Qed.

Lemma only_file_existing_dates_of filename entries :
  keeps (only_file filename) (existing_dates_of entries).
Proof.
  induction entries as [|entry rest IH]; cbn [existing_dates_of].
  - apply (keeps_ret _ (only_file_refl filename)).
  - apply (keeps_bind _ (only_file_trans filename));
      [apply only_file_py_get | intros d].
    apply (keeps_bind _ (only_file_trans filename));
      [apply only_file_py_hash | intros _].
    apply (keeps_bind _ (only_file_trans filename)); [exact IH | intros ds].
    apply (keeps_ret _ (only_file_refl filename)).
Qed.

Lemma only_file_entries_of_other_dates filename entries target_date :
  keeps (only_file filename) (entries_of_other_dates entries target_date).
Proof.
  induction entries as [|entry rest IH]; cbn [entries_of_other_dates].
  - apply (keeps_ret _ (only_file_refl filename)).
  - apply (keeps_bind _ (only_file_trans filename));
      [apply only_file_py_get | intros d].
    apply (keeps_bind _ (only_file_trans filename)); [exact IH | intros kept].
    apply (keeps_ret _ (only_file_refl filename)).
Qed.

Lemma only_file_get_historical_data filename historical :
  keeps (only_file filename) (get_historical_data historical).
Proof.
  unfold get_historical_data.
  apply (keeps_bind _ (only_file_trans filename));
    [apply only_file_py_get | intros v].
  apply (keeps_ret _ (only_file_refl filename)).
Qed.

Lemma only_file_open_for_writing filename :
  keeps (only_file filename) (open_for_writing filename).
Proof.
  apply (keeps_unchanged _ _ (only_file_refl filename)). intros w.
  unfold open_for_writing.
  destruct (files w filename) as [f|]; [destruct (writable f)|]; reflexivity.
Qed.

Lemma only_file_json_dump E filename v :
  keeps (only_file filename) (json_dump E v filename).
Proof.
  unfold json_dump.
  apply (keeps_bind _ (only_file_trans filename));
    [apply only_file_open_for_writing | intros _].
  apply keeps_set_file.
Qed.

Lemma only_file_load_historical_data filename :
  keeps (only_file filename) (load_historical_data filename).
Proof.
  unfold load_historical_data.
  apply (keeps_bind _ (only_file_trans filename)).
  - apply (keeps_unchanged _ _ (only_file_refl filename)). reflexivity.
  - intros [|]; [|apply (keeps_ret _ (only_file_refl filename))].
    apply (keeps_try_except _ (only_file_trans filename)).
    + apply (keeps_unchanged _ _ (only_file_refl filename)). intros w.
      unfold read_json.
      destruct (files w filename) as [f|]; [destruct (json_view f)|];
        reflexivity.
    + intros e. apply (keeps_bind _ (only_file_trans filename));
        [apply only_file_print | intros _].
      apply (keeps_ret _ (only_file_refl filename)).
Qed.

Lemma only_file_save_to_json E data filename :
  keeps (only_file filename) (save_to_json E data filename).
Proof.
  assert (Hdump : forall v s,
             keeps (only_file filename)
               (json_dump E v filename ;;; print s)).
  { intros v s. apply (keeps_bind _ (only_file_trans filename));
      [apply only_file_json_dump | intros _; apply only_file_print]. }
  unfold save_to_json.
  apply (keeps_bind _ (only_file_trans filename));
    [apply only_file_load_historical_data | intros historical].
  destruct data as [|first rest]; [apply Hdump|].
  destruct (s_date first) as [target_date|]; [|apply Hdump].
  apply (keeps_bind _ (only_file_trans filename));
    [apply only_file_get_historical_data | intros hd].
  apply (keeps_bind _ (only_file_trans filename));
    [apply only_file_py_iter | intros entries].
  apply (keeps_bind _ (only_file_trans filename));
    [apply only_file_existing_dates_of | intros existing_dates].
  apply (keeps_bind _ (only_file_trans filename)).
  - destruct (existsb _ existing_dates).
    + apply (keeps_bind _ (only_file_trans filename));
        [apply only_file_print | intros _].
      apply (keeps_bind _ (only_file_trans filename));
        [apply only_file_get_historical_data | intros hd'].
      apply (keeps_bind _ (only_file_trans filename));
        [apply only_file_py_iter | intros entries'].
      apply (keeps_bind _ (only_file_trans filename));
        [apply only_file_entries_of_other_dates | intros kept].
      destruct historical;
        first [apply (keeps_ret _ (only_file_refl filename))
              | apply (keeps_raise _ (only_file_refl filename))].
    + destruct historical;
        first [apply (keeps_ret _ (only_file_refl filename))
              | apply (keeps_raise _ (only_file_refl filename))].
  - intros d.
    apply (keeps_bind _ (only_file_trans filename)).
    + unfold extend_historical_data.
      destruct (dict_get "historical_data" _) as [[| | | | |]|];
        first [apply (keeps_ret _ (only_file_refl filename))
              | apply (keeps_raise _ (only_file_refl filename))].
    + intros d'.
      apply (keeps_bind _ (only_file_trans filename));
        [apply only_file_now | intros stamp].
      apply Hdump.
Qed.

Lemma only_file_save_to_csv E data filename :
  keeps (only_file filename) (save_to_csv E data filename).
Proof.
  unfold save_to_csv. destruct data as [|first rest];
    [apply only_file_print|].
  apply (keeps_bind _ (only_file_trans filename)).
  { apply (keeps_unchanged _ _ (only_file_refl filename)). reflexivity. }
  intros file_exists.
  apply (keeps_bind _ (only_file_trans filename)).
  { destruct file_exists; [|apply (keeps_ret _ (only_file_refl filename))].
    apply (keeps_try_except _ (only_file_trans filename)).
    - apply (keeps_unchanged _ _ (only_file_refl filename)). intros w.
      unfold read_csv.
      destruct (files w filename) as [f|]; [destruct (csv_view f)|];
        reflexivity.
    - intros e. apply (keeps_bind _ (only_file_trans filename));
        [apply only_file_print | intros _].
      apply (keeps_ret _ (only_file_refl filename)). }
  intros existing_rows.
  destruct (_ ++ map new_row (first :: rest))%list as [|row rows] eqn:Hrows;
    [apply (keeps_ret _ (only_file_refl filename))|].
  apply (keeps_bind _ (only_file_trans filename));
    [|intros _; apply only_file_print].
  unfold write_csv.
  apply (keeps_bind _ (only_file_trans filename));
    [apply only_file_open_for_writing | intros _].
  destruct (writerows fieldnames (row :: rows)) as [lines err].
  apply (keeps_bind _ (only_file_trans filename));
    [apply keeps_set_file | intros _].
  destruct err;
    first [apply (keeps_ret _ (only_file_refl filename))
          | apply (keeps_raise _ (only_file_refl filename))].
Qed.

(** X18.  Saving keeps to its file.  Whatever the data, whatever the
    state of the file and however the save ends, [save_to_json] and
    [save_to_csv] change no file other than the one they are given, and
    send no request. *)
Theorem saving_touches_one_file :
  forall (E : environment) (data : list snapshot) (filename : string)
    (w : world),
    let after_json := snd (save_to_json E data filename w) in
    let after_csv := snd (save_to_csv E data filename w) in
    (forall p, p <> filename -> files after_json p = files w p)
    /\ sent after_json = sent w
    /\ (forall p, p <> filename -> files after_csv p = files w p)
    /\ sent after_csv = sent w.
Proof.
  intros E data filename w after_json after_csv.
  destruct (only_file_save_to_json E data filename w
              (fst (save_to_json E data filename w)) after_json)
    as (Hf1 & Hs1 & _); [apply surjective_pairing|].
  destruct (only_file_save_to_csv E data filename w
              (fst (save_to_csv E data filename w)) after_csv)
    as (Hf2 & Hs2 & _); [apply surjective_pairing|].
  repeat split; assumption.
Qed.

Lemma saving_touches_one_file_witness :
  files
    (snd (save_to_json store_env [sample_snapshot "beta" (Some "2024-01-07")]
            json_path (stored_world two_days))) csv_path
  = files (stored_world two_days) csv_path
  /\ files
       (snd (save_to_csv store_env [sample_snapshot "beta" (Some "2024-01-07")]
               csv_path (stored_world two_days))) json_path
     = files (stored_world two_days) json_path.
Proof.
  destruct (saving_touches_one_file store_env
              [sample_snapshot "beta" (Some "2024-01-07")] json_path
              (stored_world two_days)) as (Hjson & _).
  destruct (saving_touches_one_file store_env
              [sample_snapshot "beta" (Some "2024-01-07")] csv_path
              (stored_world two_days)) as (_ & _ & Hcsv & _).
  split; [apply Hjson | apply Hcsv]; discriminate.
Defined.

(** ** Snapshot assembler: what it asks the API *)

Definition traffic_request (self : GitHubScraper) (owner repo kind : string)
  : request :=
  request_of self
    (base_url self ++ "/repos/" ++ owner ++ "/" ++ repo ++ "/traffic/" ++ kind)
    (Some [("per", JStr "day")]).

(** X19.  The requests behind a snapshot.  When [get_repo_stats] returns,
    the first three requests it has sent are, in this order: the views of
    the repository per day, its clones per day, and the first page of its
    commits, a hundred per page, from the target date at 00:00:00.000000
    to the target date at 23:59:59.999999 (both in ISO format); whatever
    it sent after them are requests of this scraper too (further commit
    pages, commit details). *)
Theorem get_repo_stats_asks_for_the_target_day :
  forall (E : environment) (fuel : nat) (self : GitHubScraper)
    (repo : api_repo) (target_date : string) (target : datetime E)
    (w : world) (s : snapshot) (w' : world),
    strptime_ymd E target_date = Some target ->
    get_repo_stats E fuel self repo target_date w = (Ret s, w') ->
    exists more,
      sent w'
      = app (sent w)
          (traffic_request self (repo_owner_login repo) (repo_name repo)
             "views"
           :: traffic_request self (repo_owner_login repo) (repo_name repo)
                "clones"
           :: request_of self
                (commits_url self (repo_owner_login repo) (repo_name repo))
                (Some
                   (commits_params E (replace_time E target 0 0 0 0)
                      (replace_time E target 23 59 59 999999) 1 100))
           :: more)
      /\ Forall (api_request self) more.
Proof.
  intros E fuel self repo target_date target w s w' Hparse H.
  unfold get_repo_stats in H.
  apply bind_Ret_inv in H as (u & w0 & Hprint & H).
  assert (Hs0 : sent w0 = sent w) by (inversion Hprint; reflexivity).
  unfold strptime in H. rewrite Hparse in H.
  apply bind_Ret_inv in H as (t & w0' & Ht & H).
  inversion Ht; subst t w0'. clear Ht.
  apply bind_Ret_inv in H as (views & w1 & Hviews & H).
  apply bind_Ret_inv in H as (clones & w2 & Hclones & H).
  apply bind_Ret_inv in H as (stats & w3 & Hstats & H).
  apply bind_Ret_inv in H as (full_name & w3' & Hname & H).
  assert (w3' = w3)
    by (unfold getitem in Hname; destruct (repo_full_name repo);
        inversion Hname; reflexivity).
  subst w3'. clear Hname.
  apply bind_Ret_inv in H as (scraped & w4 & Hnow & H).
  inversion H; subst w4. clear H.
  assert (Hs4 : sent w' = sent w3) by (inversion Hnow; reflexivity).
  unfold get_traffic_views in Hviews. unfold get_traffic_clones in Hclones.
  destruct (make_request_frame E self TrafficEP _ _ _ _ _ Hviews) as (Hs1 & _).
  destruct (make_request_frame E self TrafficEP _ _ _ _ _ Hclones)
    as (Hs2 & _).
  unfold get_commit_stats in Hstats.
  apply bind_Ret_inv in Hstats as (commits & w2a & Hcommits & Hstats).
  apply bind_Ret_inv in Hstats as (totals & w2b & Hsum & Hstats).
  destruct totals as [ta td]. inversion Hstats; subst w2b. clear Hstats.
  destruct (keeps_sum_commit_details E self _ _ _ _ _ _ _ _ Hsum)
    as (_ & more2 & Hs3 & Hmore2).
  unfold get_commits in Hcommits.
  destruct fuel as [|fuel]; [discriminate|].
  cbn [get_commits_loop] in Hcommits.
  apply bind_Ret_inv in Hcommits as (data & w2c & Hpage & Hcommits).
  destruct (make_request_frame E self CommitListEP _ _ _ _ _ Hpage)
    as (Hs2c & _).
  assert (Hrest : exists more1,
             sent w2a = app (sent w2c) more1
             /\ Forall (api_request self) more1).
  { destruct data as [data|].
    - destruct (List.length data =? 0)%nat.
      + inversion Hcommits; subst. exists []. split;
          [now rewrite app_nil_r | constructor].
      + destruct (Z.of_nat (List.length data) <? 100)%Z.
        * inversion Hcommits; subst. exists []. split;
            [now rewrite app_nil_r | constructor].
        * exact (proj2 (keeps_get_commits_loop E self _ _ _ _ _ _ _ _ _ _
                          Hcommits)).
    - inversion Hcommits; subst. exists []. split;
        [now rewrite app_nil_r | constructor]. }
  destruct Hrest as (more1 & Hs2a & Hmore1).
  exists (more1 ++ more2)%list. split.
  - rewrite Hs4, Hs3, Hs2a, Hs2c, Hs2, Hs1, Hs0.
    unfold traffic_request, commits_url, commits_params.
    rewrite <- !app_assoc. reflexivity.
  - apply Forall_app. now split.
Qed.

Lemma get_repo_stats_asks_for_the_target_day_witness :
  exists s w',
    get_repo_stats three_commits_env 1 tester (sample_repo "alpha")
      "2024-01-07" empty_world = (Ret s, w')
    /\ map req_params (firstn 3 (sent w'))
       = [Some [("per", JStr "day")];
          Some [("per", JStr "day")];
          Some [("page", JInt 1); ("per_page", JInt 100);
                ("since", JStr "2024-01-07T00:00:00");
                ("until", JStr "2024-01-07T23:59:59.999999")]].
Proof.
  eassert (Hrun : get_repo_stats three_commits_env 1 tester
                    (sample_repo "alpha") "2024-01-07" empty_world
                  = (Ret _, _)) by (cbv; reflexivity).
  destruct (get_repo_stats_asks_for_the_target_day three_commits_env 1 tester
              (sample_repo "alpha") "2024-01-07" (7, (0, 0, 0, 0))%Z
              empty_world _ _ eq_refl Hrun) as (more & Hs & _).
  do 2 eexists. split; [exact Hrun|].
  rewrite Hs. reflexivity.
Defined.
